(** * MAAS CPU analyzer: trait names, machine filter, placement retry, inventory fetch

    A shallow embedding of [maas_cpu_analyzer/maas_cpu_analyzer.py] and the
    properties its specification states about it.

    Part I embeds the code: the pieces of the Python runtime the analyzer calls
    ([str] methods, [re] substitution and search), then the methods of
    [MAASCPUAnalyzer] under their own names.  Part II states and proves the
    properties of the specification.  Part III proves further properties of
    the code: of the trait names and the filter in their callers, of the
    OpenStack client, of the three commands and of the two tables.

    Text.  A Python [str] is the Rocq [string] of its UTF-8 encoding: a code
    point below 128 is one character, any other takes two to four.  [\s] is
    the set of blanks of [re] on [str] patterns, [str.upper] follows the case
    table of Unicode 14.0 that CPython 3.11 carries, with the code points
    that become two or three, and [(?i)] matches for i, k and s the code
    points the library folds onto them as well.  [str.lower] is embedded on
    the letters A to Z; the code points from 128 on pass through it as they
    are. *)

From Stdlib Require Import Ascii String ZArith Lia Bool.
From stdpp Require Import base list strings gmap sorting.

Local Open Scope char_scope.
Local Open Scope stdpp_scope.

(* ================================================================== *)
(** * Part I.  The embedding                                            *)
(* ================================================================== *)

(** ** Python runtime: text *)

Module Py.

Definition code (c : ascii) : N := N_of_ascii c.

Definition in_range (lo hi : N) (c : ascii) : bool :=
  (lo <=? code c)%N && (code c <=? hi)%N.

(** [A-Z], [a-z], [0-9]. *)
Definition is_AZ (c : ascii) : bool := in_range 65 90 c.
Definition is_az (c : ascii) : bool := in_range 97 122 c.
Definition is_09 (c : ascii) : bool := in_range 48 57 c.

(** *** Code points in UTF-8 *)

Definition byte (n : N) : ascii := ascii_of_N n.

(** [chr(n)]: one byte below 128, then two, three and four bytes. *)
Definition chr (n : N) : string :=
  if (n <? 0x80)%N then String (byte n) ""
  else if (n <? 0x800)%N then
    String (byte (0xC0 + n / 0x40)) (String (byte (0x80 + n mod 0x40)) "")
  else if (n <? 0x10000)%N then
    String (byte (0xE0 + n / 0x1000))
      (String (byte (0x80 + (n / 0x40) mod 0x40)) (String (byte (0x80 + n mod 0x40)) ""))
  else
    String (byte (0xF0 + n / 0x40000))
      (String (byte (0x80 + (n / 0x1000) mod 0x40))
         (String (byte (0x80 + (n / 0x40) mod 0x40))
            (String (byte (0x80 + n mod 0x40)) ""))).

Fixpoint chrs (points : list N) : string :=
  match points with
  | [] => ""
  | n :: rest => chr n +:+ chrs rest
  end.

Definition is_ascii (c : ascii) : bool := (code c <? 128)%N.

(** The bytes 128..191 continue a code point; a first byte from 192 on
    announces how many of them follow it. *)
Definition is_continuation (c : ascii) : bool := in_range 128 191 c.

Definition announced (c : ascii) : nat :=
  if in_range 192 223 c then 1
  else if in_range 224 239 c then 2
  else if in_range 240 247 c then 3
  else 0.

Fixpoint continued (n : nat) (s : string) : bool :=
  match n with
  | O => true
  | S k =>
      match s with
      | String c r => is_continuation c && continued k r
      | EmptyString => false
      end
  end.

(** The bytes of the code point a text starts with.  A first byte without
    the bytes it announces, which no encoder writes, counts for itself. *)
Definition width (s : string) : nat :=
  match s with
  | EmptyString => 0
  | String c r => if continued (announced c) r then S (announced c) else 1
  end.

(** *** [str] methods *)

(** [not s] for a value that is [None] or a [str]. *)
Definition falsy (v : option string) : bool :=
  match v with
  | None => true
  | Some EmptyString => true
  | Some (String _ _) => false
  end.

(** [s.startswith(p)], returning what follows the prefix. *)
Fixpoint after_prefix (p s : string) : option string :=
  match p, s with
  | EmptyString, _ => Some s
  | String a p', String b s' => if Ascii.eqb a b then after_prefix p' s' else None
  | String _ _, EmptyString => None
  end.

Definition startswith (p s : string) : bool :=
  match after_prefix p s with Some _ => true | None => false end.

(** The first of some texts that starts [s], and what follows it. *)
Fixpoint after_any (prefixes : list string) (s : string) : option (string * string) :=
  match prefixes with
  | [] => None
  | p :: others =>
      match after_prefix p s with
      | Some t => Some (p, t)
      | None => after_any others s
      end
  end.

(** The letters of ASCII in the other case. *)
Definition upper_char (c : ascii) : ascii :=
  if is_az c then ascii_of_N (code c - 32) else c.

Definition lower_char (c : ascii) : ascii :=
  if is_AZ c then ascii_of_N (code c + 32) else c.

(** The code points from 128 on that [str.upper] changes, each with the code
    points it becomes (Unicode 14.0, the tables of CPython 3.11). *)
Definition special_upper : list (N * list N) :=
  [
    (0xB5, [0x39C]); (0xDF, [0x53; 0x53]); (0xE0, [0xC0]); (0xE1, [0xC1]); (0xE2, [0xC2]);
    (0xE3, [0xC3]); (0xE4, [0xC4]); (0xE5, [0xC5]); (0xE6, [0xC6]); (0xE7, [0xC7]);
    (0xE8, [0xC8]); (0xE9, [0xC9]); (0xEA, [0xCA]); (0xEB, [0xCB]); (0xEC, [0xCC]);
    (0xED, [0xCD]); (0xEE, [0xCE]); (0xEF, [0xCF]); (0xF0, [0xD0]); (0xF1, [0xD1]);
    (0xF2, [0xD2]); (0xF3, [0xD3]); (0xF4, [0xD4]); (0xF5, [0xD5]); (0xF6, [0xD6]);
    (0xF8, [0xD8]); (0xF9, [0xD9]); (0xFA, [0xDA]); (0xFB, [0xDB]); (0xFC, [0xDC]);
    (0xFD, [0xDD]); (0xFE, [0xDE]); (0xFF, [0x178]); (0x101, [0x100]); (0x103, [0x102]);
    (0x105, [0x104]); (0x107, [0x106]); (0x109, [0x108]); (0x10B, [0x10A]); (0x10D, [0x10C]);
    (0x10F, [0x10E]); (0x111, [0x110]); (0x113, [0x112]); (0x115, [0x114]); (0x117, [0x116]);
    (0x119, [0x118]); (0x11B, [0x11A]); (0x11D, [0x11C]); (0x11F, [0x11E]); (0x121, [0x120]);
    (0x123, [0x122]); (0x125, [0x124]); (0x127, [0x126]); (0x129, [0x128]); (0x12B, [0x12A]);
    (0x12D, [0x12C]); (0x12F, [0x12E]); (0x131, [0x49]); (0x133, [0x132]); (0x135, [0x134]);
    (0x137, [0x136]); (0x13A, [0x139]); (0x13C, [0x13B]); (0x13E, [0x13D]); (0x140, [0x13F]);
    (0x142, [0x141]); (0x144, [0x143]); (0x146, [0x145]); (0x148, [0x147]);
    (0x149, [0x2BC; 0x4E]); (0x14B, [0x14A]); (0x14D, [0x14C]); (0x14F, [0x14E]);
    (0x151, [0x150]); (0x153, [0x152]); (0x155, [0x154]); (0x157, [0x156]); (0x159, [0x158]);
    (0x15B, [0x15A]); (0x15D, [0x15C]); (0x15F, [0x15E]); (0x161, [0x160]); (0x163, [0x162]);
    (0x165, [0x164]); (0x167, [0x166]); (0x169, [0x168]); (0x16B, [0x16A]); (0x16D, [0x16C]);
    (0x16F, [0x16E]); (0x171, [0x170]); (0x173, [0x172]); (0x175, [0x174]); (0x177, [0x176]);
    (0x17A, [0x179]); (0x17C, [0x17B]); (0x17E, [0x17D]); (0x17F, [0x53]); (0x180, [0x243]);
    (0x183, [0x182]); (0x185, [0x184]); (0x188, [0x187]); (0x18C, [0x18B]); (0x192, [0x191]);
    (0x195, [0x1F6]); (0x199, [0x198]); (0x19A, [0x23D]); (0x19E, [0x220]); (0x1A1, [0x1A0]);
    (0x1A3, [0x1A2]); (0x1A5, [0x1A4]); (0x1A8, [0x1A7]); (0x1AD, [0x1AC]); (0x1B0, [0x1AF]);
    (0x1B4, [0x1B3]); (0x1B6, [0x1B5]); (0x1B9, [0x1B8]); (0x1BD, [0x1BC]); (0x1BF, [0x1F7]);
    (0x1C5, [0x1C4]); (0x1C6, [0x1C4]); (0x1C8, [0x1C7]); (0x1C9, [0x1C7]); (0x1CB, [0x1CA]);
    (0x1CC, [0x1CA]); (0x1CE, [0x1CD]); (0x1D0, [0x1CF]); (0x1D2, [0x1D1]); (0x1D4, [0x1D3]);
    (0x1D6, [0x1D5]); (0x1D8, [0x1D7]); (0x1DA, [0x1D9]); (0x1DC, [0x1DB]); (0x1DD, [0x18E]);
    (0x1DF, [0x1DE]); (0x1E1, [0x1E0]); (0x1E3, [0x1E2]); (0x1E5, [0x1E4]); (0x1E7, [0x1E6]);
    (0x1E9, [0x1E8]); (0x1EB, [0x1EA]); (0x1ED, [0x1EC]); (0x1EF, [0x1EE]);
    (0x1F0, [0x4A; 0x30C]); (0x1F2, [0x1F1]); (0x1F3, [0x1F1]); (0x1F5, [0x1F4]);
    (0x1F9, [0x1F8]); (0x1FB, [0x1FA]); (0x1FD, [0x1FC]); (0x1FF, [0x1FE]); (0x201, [0x200]);
    (0x203, [0x202]); (0x205, [0x204]); (0x207, [0x206]); (0x209, [0x208]); (0x20B, [0x20A]);
    (0x20D, [0x20C]); (0x20F, [0x20E]); (0x211, [0x210]); (0x213, [0x212]); (0x215, [0x214]);
    (0x217, [0x216]); (0x219, [0x218]); (0x21B, [0x21A]); (0x21D, [0x21C]); (0x21F, [0x21E]);
    (0x223, [0x222]); (0x225, [0x224]); (0x227, [0x226]); (0x229, [0x228]); (0x22B, [0x22A]);
    (0x22D, [0x22C]); (0x22F, [0x22E]); (0x231, [0x230]); (0x233, [0x232]); (0x23C, [0x23B]);
    (0x23F, [0x2C7E]); (0x240, [0x2C7F]); (0x242, [0x241]); (0x247, [0x246]); (0x249, [0x248]);
    (0x24B, [0x24A]); (0x24D, [0x24C]); (0x24F, [0x24E]); (0x250, [0x2C6F]); (0x251, [0x2C6D]);
    (0x252, [0x2C70]); (0x253, [0x181]); (0x254, [0x186]); (0x256, [0x189]); (0x257, [0x18A]);
    (0x259, [0x18F]); (0x25B, [0x190]); (0x25C, [0xA7AB]); (0x260, [0x193]); (0x261, [0xA7AC]);
    (0x263, [0x194]); (0x265, [0xA78D]); (0x266, [0xA7AA]); (0x268, [0x197]); (0x269, [0x196]);
    (0x26A, [0xA7AE]); (0x26B, [0x2C62]); (0x26C, [0xA7AD]); (0x26F, [0x19C]); (0x271, [0x2C6E]);
    (0x272, [0x19D]); (0x275, [0x19F]); (0x27D, [0x2C64]); (0x280, [0x1A6]); (0x282, [0xA7C5]);
    (0x283, [0x1A9]); (0x287, [0xA7B1]); (0x288, [0x1AE]); (0x289, [0x244]); (0x28A, [0x1B1]);
    (0x28B, [0x1B2]); (0x28C, [0x245]); (0x292, [0x1B7]); (0x29D, [0xA7B2]); (0x29E, [0xA7B0]);
    (0x345, [0x399]); (0x371, [0x370]); (0x373, [0x372]); (0x377, [0x376]); (0x37B, [0x3FD]);
    (0x37C, [0x3FE]); (0x37D, [0x3FF]); (0x390, [0x399; 0x308; 0x301]); (0x3AC, [0x386]);
    (0x3AD, [0x388]); (0x3AE, [0x389]); (0x3AF, [0x38A]); (0x3B0, [0x3A5; 0x308; 0x301]);
    (0x3B1, [0x391]); (0x3B2, [0x392]); (0x3B3, [0x393]); (0x3B4, [0x394]); (0x3B5, [0x395]);
    (0x3B6, [0x396]); (0x3B7, [0x397]); (0x3B8, [0x398]); (0x3B9, [0x399]); (0x3BA, [0x39A]);
    (0x3BB, [0x39B]); (0x3BC, [0x39C]); (0x3BD, [0x39D]); (0x3BE, [0x39E]); (0x3BF, [0x39F]);
    (0x3C0, [0x3A0]); (0x3C1, [0x3A1]); (0x3C2, [0x3A3]); (0x3C3, [0x3A3]); (0x3C4, [0x3A4]);
    (0x3C5, [0x3A5]); (0x3C6, [0x3A6]); (0x3C7, [0x3A7]); (0x3C8, [0x3A8]); (0x3C9, [0x3A9]);
    (0x3CA, [0x3AA]); (0x3CB, [0x3AB]); (0x3CC, [0x38C]); (0x3CD, [0x38E]); (0x3CE, [0x38F]);
    (0x3D0, [0x392]); (0x3D1, [0x398]); (0x3D5, [0x3A6]); (0x3D6, [0x3A0]); (0x3D7, [0x3CF]);
    (0x3D9, [0x3D8]); (0x3DB, [0x3DA]); (0x3DD, [0x3DC]); (0x3DF, [0x3DE]); (0x3E1, [0x3E0]);
    (0x3E3, [0x3E2]); (0x3E5, [0x3E4]); (0x3E7, [0x3E6]); (0x3E9, [0x3E8]); (0x3EB, [0x3EA]);
    (0x3ED, [0x3EC]); (0x3EF, [0x3EE]); (0x3F0, [0x39A]); (0x3F1, [0x3A1]); (0x3F2, [0x3F9]);
    (0x3F3, [0x37F]); (0x3F5, [0x395]); (0x3F8, [0x3F7]); (0x3FB, [0x3FA]); (0x430, [0x410]);
    (0x431, [0x411]); (0x432, [0x412]); (0x433, [0x413]); (0x434, [0x414]); (0x435, [0x415]);
    (0x436, [0x416]); (0x437, [0x417]); (0x438, [0x418]); (0x439, [0x419]); (0x43A, [0x41A]);
    (0x43B, [0x41B]); (0x43C, [0x41C]); (0x43D, [0x41D]); (0x43E, [0x41E]); (0x43F, [0x41F]);
    (0x440, [0x420]); (0x441, [0x421]); (0x442, [0x422]); (0x443, [0x423]); (0x444, [0x424]);
    (0x445, [0x425]); (0x446, [0x426]); (0x447, [0x427]); (0x448, [0x428]); (0x449, [0x429]);
    (0x44A, [0x42A]); (0x44B, [0x42B]); (0x44C, [0x42C]); (0x44D, [0x42D]); (0x44E, [0x42E]);
    (0x44F, [0x42F]); (0x450, [0x400]); (0x451, [0x401]); (0x452, [0x402]); (0x453, [0x403]);
    (0x454, [0x404]); (0x455, [0x405]); (0x456, [0x406]); (0x457, [0x407]); (0x458, [0x408]);
    (0x459, [0x409]); (0x45A, [0x40A]); (0x45B, [0x40B]); (0x45C, [0x40C]); (0x45D, [0x40D]);
    (0x45E, [0x40E]); (0x45F, [0x40F]); (0x461, [0x460]); (0x463, [0x462]); (0x465, [0x464]);
    (0x467, [0x466]); (0x469, [0x468]); (0x46B, [0x46A]); (0x46D, [0x46C]); (0x46F, [0x46E]);
    (0x471, [0x470]); (0x473, [0x472]); (0x475, [0x474]); (0x477, [0x476]); (0x479, [0x478]);
    (0x47B, [0x47A]); (0x47D, [0x47C]); (0x47F, [0x47E]); (0x481, [0x480]); (0x48B, [0x48A]);
    (0x48D, [0x48C]); (0x48F, [0x48E]); (0x491, [0x490]); (0x493, [0x492]); (0x495, [0x494]);
    (0x497, [0x496]); (0x499, [0x498]); (0x49B, [0x49A]); (0x49D, [0x49C]); (0x49F, [0x49E]);
    (0x4A1, [0x4A0]); (0x4A3, [0x4A2]); (0x4A5, [0x4A4]); (0x4A7, [0x4A6]); (0x4A9, [0x4A8]);
    (0x4AB, [0x4AA]); (0x4AD, [0x4AC]); (0x4AF, [0x4AE]); (0x4B1, [0x4B0]); (0x4B3, [0x4B2]);
    (0x4B5, [0x4B4]); (0x4B7, [0x4B6]); (0x4B9, [0x4B8]); (0x4BB, [0x4BA]); (0x4BD, [0x4BC]);
    (0x4BF, [0x4BE]); (0x4C2, [0x4C1]); (0x4C4, [0x4C3]); (0x4C6, [0x4C5]); (0x4C8, [0x4C7]);
    (0x4CA, [0x4C9]); (0x4CC, [0x4CB]); (0x4CE, [0x4CD]); (0x4CF, [0x4C0]); (0x4D1, [0x4D0]);
    (0x4D3, [0x4D2]); (0x4D5, [0x4D4]); (0x4D7, [0x4D6]); (0x4D9, [0x4D8]); (0x4DB, [0x4DA]);
    (0x4DD, [0x4DC]); (0x4DF, [0x4DE]); (0x4E1, [0x4E0]); (0x4E3, [0x4E2]); (0x4E5, [0x4E4]);
    (0x4E7, [0x4E6]); (0x4E9, [0x4E8]); (0x4EB, [0x4EA]); (0x4ED, [0x4EC]); (0x4EF, [0x4EE]);
    (0x4F1, [0x4F0]); (0x4F3, [0x4F2]); (0x4F5, [0x4F4]); (0x4F7, [0x4F6]); (0x4F9, [0x4F8]);
    (0x4FB, [0x4FA]); (0x4FD, [0x4FC]); (0x4FF, [0x4FE]); (0x501, [0x500]); (0x503, [0x502]);
    (0x505, [0x504]); (0x507, [0x506]); (0x509, [0x508]); (0x50B, [0x50A]); (0x50D, [0x50C]);
    (0x50F, [0x50E]); (0x511, [0x510]); (0x513, [0x512]); (0x515, [0x514]); (0x517, [0x516]);
    (0x519, [0x518]); (0x51B, [0x51A]); (0x51D, [0x51C]); (0x51F, [0x51E]); (0x521, [0x520]);
    (0x523, [0x522]); (0x525, [0x524]); (0x527, [0x526]); (0x529, [0x528]); (0x52B, [0x52A]);
    (0x52D, [0x52C]); (0x52F, [0x52E]); (0x561, [0x531]); (0x562, [0x532]); (0x563, [0x533]);
    (0x564, [0x534]); (0x565, [0x535]); (0x566, [0x536]); (0x567, [0x537]); (0x568, [0x538]);
    (0x569, [0x539]); (0x56A, [0x53A]); (0x56B, [0x53B]); (0x56C, [0x53C]); (0x56D, [0x53D]);
    (0x56E, [0x53E]); (0x56F, [0x53F]); (0x570, [0x540]); (0x571, [0x541]); (0x572, [0x542]);
    (0x573, [0x543]); (0x574, [0x544]); (0x575, [0x545]); (0x576, [0x546]); (0x577, [0x547]);
    (0x578, [0x548]); (0x579, [0x549]); (0x57A, [0x54A]); (0x57B, [0x54B]); (0x57C, [0x54C]);
    (0x57D, [0x54D]); (0x57E, [0x54E]); (0x57F, [0x54F]); (0x580, [0x550]); (0x581, [0x551]);
    (0x582, [0x552]); (0x583, [0x553]); (0x584, [0x554]); (0x585, [0x555]); (0x586, [0x556]);
    (0x587, [0x535; 0x552]); (0x10D0, [0x1C90]); (0x10D1, [0x1C91]); (0x10D2, [0x1C92]);
    (0x10D3, [0x1C93]); (0x10D4, [0x1C94]); (0x10D5, [0x1C95]); (0x10D6, [0x1C96]);
    (0x10D7, [0x1C97]); (0x10D8, [0x1C98]); (0x10D9, [0x1C99]); (0x10DA, [0x1C9A]);
    (0x10DB, [0x1C9B]); (0x10DC, [0x1C9C]); (0x10DD, [0x1C9D]); (0x10DE, [0x1C9E]);
    (0x10DF, [0x1C9F]); (0x10E0, [0x1CA0]); (0x10E1, [0x1CA1]); (0x10E2, [0x1CA2]);
    (0x10E3, [0x1CA3]); (0x10E4, [0x1CA4]); (0x10E5, [0x1CA5]); (0x10E6, [0x1CA6]);
    (0x10E7, [0x1CA7]); (0x10E8, [0x1CA8]); (0x10E9, [0x1CA9]); (0x10EA, [0x1CAA]);
    (0x10EB, [0x1CAB]); (0x10EC, [0x1CAC]); (0x10ED, [0x1CAD]); (0x10EE, [0x1CAE]);
    (0x10EF, [0x1CAF]); (0x10F0, [0x1CB0]); (0x10F1, [0x1CB1]); (0x10F2, [0x1CB2]);
    (0x10F3, [0x1CB3]); (0x10F4, [0x1CB4]); (0x10F5, [0x1CB5]); (0x10F6, [0x1CB6]);
    (0x10F7, [0x1CB7]); (0x10F8, [0x1CB8]); (0x10F9, [0x1CB9]); (0x10FA, [0x1CBA]);
    (0x10FD, [0x1CBD]); (0x10FE, [0x1CBE]); (0x10FF, [0x1CBF]); (0x13F8, [0x13F0]);
    (0x13F9, [0x13F1]); (0x13FA, [0x13F2]); (0x13FB, [0x13F3]); (0x13FC, [0x13F4]);
    (0x13FD, [0x13F5]); (0x1C80, [0x412]); (0x1C81, [0x414]); (0x1C82, [0x41E]);
    (0x1C83, [0x421]); (0x1C84, [0x422]); (0x1C85, [0x422]); (0x1C86, [0x42A]); (0x1C87, [0x462]);
    (0x1C88, [0xA64A]); (0x1D79, [0xA77D]); (0x1D7D, [0x2C63]); (0x1D8E, [0xA7C6]);
    (0x1E01, [0x1E00]); (0x1E03, [0x1E02]); (0x1E05, [0x1E04]); (0x1E07, [0x1E06]);
    (0x1E09, [0x1E08]); (0x1E0B, [0x1E0A]); (0x1E0D, [0x1E0C]); (0x1E0F, [0x1E0E]);
    (0x1E11, [0x1E10]); (0x1E13, [0x1E12]); (0x1E15, [0x1E14]); (0x1E17, [0x1E16]);
    (0x1E19, [0x1E18]); (0x1E1B, [0x1E1A]); (0x1E1D, [0x1E1C]); (0x1E1F, [0x1E1E]);
    (0x1E21, [0x1E20]); (0x1E23, [0x1E22]); (0x1E25, [0x1E24]); (0x1E27, [0x1E26]);
    (0x1E29, [0x1E28]); (0x1E2B, [0x1E2A]); (0x1E2D, [0x1E2C]); (0x1E2F, [0x1E2E]);
    (0x1E31, [0x1E30]); (0x1E33, [0x1E32]); (0x1E35, [0x1E34]); (0x1E37, [0x1E36]);
    (0x1E39, [0x1E38]); (0x1E3B, [0x1E3A]); (0x1E3D, [0x1E3C]); (0x1E3F, [0x1E3E]);
    (0x1E41, [0x1E40]); (0x1E43, [0x1E42]); (0x1E45, [0x1E44]); (0x1E47, [0x1E46]);
    (0x1E49, [0x1E48]); (0x1E4B, [0x1E4A]); (0x1E4D, [0x1E4C]); (0x1E4F, [0x1E4E]);
    (0x1E51, [0x1E50]); (0x1E53, [0x1E52]); (0x1E55, [0x1E54]); (0x1E57, [0x1E56]);
    (0x1E59, [0x1E58]); (0x1E5B, [0x1E5A]); (0x1E5D, [0x1E5C]); (0x1E5F, [0x1E5E]);
    (0x1E61, [0x1E60]); (0x1E63, [0x1E62]); (0x1E65, [0x1E64]); (0x1E67, [0x1E66]);
    (0x1E69, [0x1E68]); (0x1E6B, [0x1E6A]); (0x1E6D, [0x1E6C]); (0x1E6F, [0x1E6E]);
    (0x1E71, [0x1E70]); (0x1E73, [0x1E72]); (0x1E75, [0x1E74]); (0x1E77, [0x1E76]);
    (0x1E79, [0x1E78]); (0x1E7B, [0x1E7A]); (0x1E7D, [0x1E7C]); (0x1E7F, [0x1E7E]);
    (0x1E81, [0x1E80]); (0x1E83, [0x1E82]); (0x1E85, [0x1E84]); (0x1E87, [0x1E86]);
    (0x1E89, [0x1E88]); (0x1E8B, [0x1E8A]); (0x1E8D, [0x1E8C]); (0x1E8F, [0x1E8E]);
    (0x1E91, [0x1E90]); (0x1E93, [0x1E92]); (0x1E95, [0x1E94]); (0x1E96, [0x48; 0x331]);
    (0x1E97, [0x54; 0x308]); (0x1E98, [0x57; 0x30A]); (0x1E99, [0x59; 0x30A]);
    (0x1E9A, [0x41; 0x2BE]); (0x1E9B, [0x1E60]); (0x1EA1, [0x1EA0]); (0x1EA3, [0x1EA2]);
    (0x1EA5, [0x1EA4]); (0x1EA7, [0x1EA6]); (0x1EA9, [0x1EA8]); (0x1EAB, [0x1EAA]);
    (0x1EAD, [0x1EAC]); (0x1EAF, [0x1EAE]); (0x1EB1, [0x1EB0]); (0x1EB3, [0x1EB2]);
    (0x1EB5, [0x1EB4]); (0x1EB7, [0x1EB6]); (0x1EB9, [0x1EB8]); (0x1EBB, [0x1EBA]);
    (0x1EBD, [0x1EBC]); (0x1EBF, [0x1EBE]); (0x1EC1, [0x1EC0]); (0x1EC3, [0x1EC2]);
    (0x1EC5, [0x1EC4]); (0x1EC7, [0x1EC6]); (0x1EC9, [0x1EC8]); (0x1ECB, [0x1ECA]);
    (0x1ECD, [0x1ECC]); (0x1ECF, [0x1ECE]); (0x1ED1, [0x1ED0]); (0x1ED3, [0x1ED2]);
    (0x1ED5, [0x1ED4]); (0x1ED7, [0x1ED6]); (0x1ED9, [0x1ED8]); (0x1EDB, [0x1EDA]);
    (0x1EDD, [0x1EDC]); (0x1EDF, [0x1EDE]); (0x1EE1, [0x1EE0]); (0x1EE3, [0x1EE2]);
    (0x1EE5, [0x1EE4]); (0x1EE7, [0x1EE6]); (0x1EE9, [0x1EE8]); (0x1EEB, [0x1EEA]);
    (0x1EED, [0x1EEC]); (0x1EEF, [0x1EEE]); (0x1EF1, [0x1EF0]); (0x1EF3, [0x1EF2]);
    (0x1EF5, [0x1EF4]); (0x1EF7, [0x1EF6]); (0x1EF9, [0x1EF8]); (0x1EFB, [0x1EFA]);
    (0x1EFD, [0x1EFC]); (0x1EFF, [0x1EFE]); (0x1F00, [0x1F08]); (0x1F01, [0x1F09]);
    (0x1F02, [0x1F0A]); (0x1F03, [0x1F0B]); (0x1F04, [0x1F0C]); (0x1F05, [0x1F0D]);
    (0x1F06, [0x1F0E]); (0x1F07, [0x1F0F]); (0x1F10, [0x1F18]); (0x1F11, [0x1F19]);
    (0x1F12, [0x1F1A]); (0x1F13, [0x1F1B]); (0x1F14, [0x1F1C]); (0x1F15, [0x1F1D]);
    (0x1F20, [0x1F28]); (0x1F21, [0x1F29]); (0x1F22, [0x1F2A]); (0x1F23, [0x1F2B]);
    (0x1F24, [0x1F2C]); (0x1F25, [0x1F2D]); (0x1F26, [0x1F2E]); (0x1F27, [0x1F2F]);
    (0x1F30, [0x1F38]); (0x1F31, [0x1F39]); (0x1F32, [0x1F3A]); (0x1F33, [0x1F3B]);
    (0x1F34, [0x1F3C]); (0x1F35, [0x1F3D]); (0x1F36, [0x1F3E]); (0x1F37, [0x1F3F]);
    (0x1F40, [0x1F48]); (0x1F41, [0x1F49]); (0x1F42, [0x1F4A]); (0x1F43, [0x1F4B]);
    (0x1F44, [0x1F4C]); (0x1F45, [0x1F4D]); (0x1F50, [0x3A5; 0x313]); (0x1F51, [0x1F59]);
    (0x1F52, [0x3A5; 0x313; 0x300]); (0x1F53, [0x1F5B]); (0x1F54, [0x3A5; 0x313; 0x301]);
    (0x1F55, [0x1F5D]); (0x1F56, [0x3A5; 0x313; 0x342]); (0x1F57, [0x1F5F]); (0x1F60, [0x1F68]);
    (0x1F61, [0x1F69]); (0x1F62, [0x1F6A]); (0x1F63, [0x1F6B]); (0x1F64, [0x1F6C]);
    (0x1F65, [0x1F6D]); (0x1F66, [0x1F6E]); (0x1F67, [0x1F6F]); (0x1F70, [0x1FBA]);
    (0x1F71, [0x1FBB]); (0x1F72, [0x1FC8]); (0x1F73, [0x1FC9]); (0x1F74, [0x1FCA]);
    (0x1F75, [0x1FCB]); (0x1F76, [0x1FDA]); (0x1F77, [0x1FDB]); (0x1F78, [0x1FF8]);
    (0x1F79, [0x1FF9]); (0x1F7A, [0x1FEA]); (0x1F7B, [0x1FEB]); (0x1F7C, [0x1FFA]);
    (0x1F7D, [0x1FFB]); (0x1F80, [0x1F08; 0x399]); (0x1F81, [0x1F09; 0x399]);
    (0x1F82, [0x1F0A; 0x399]); (0x1F83, [0x1F0B; 0x399]); (0x1F84, [0x1F0C; 0x399]);
    (0x1F85, [0x1F0D; 0x399]); (0x1F86, [0x1F0E; 0x399]); (0x1F87, [0x1F0F; 0x399]);
    (0x1F88, [0x1F08; 0x399]); (0x1F89, [0x1F09; 0x399]); (0x1F8A, [0x1F0A; 0x399]);
    (0x1F8B, [0x1F0B; 0x399]); (0x1F8C, [0x1F0C; 0x399]); (0x1F8D, [0x1F0D; 0x399]);
    (0x1F8E, [0x1F0E; 0x399]); (0x1F8F, [0x1F0F; 0x399]); (0x1F90, [0x1F28; 0x399]);
    (0x1F91, [0x1F29; 0x399]); (0x1F92, [0x1F2A; 0x399]); (0x1F93, [0x1F2B; 0x399]);
    (0x1F94, [0x1F2C; 0x399]); (0x1F95, [0x1F2D; 0x399]); (0x1F96, [0x1F2E; 0x399]);
    (0x1F97, [0x1F2F; 0x399]); (0x1F98, [0x1F28; 0x399]); (0x1F99, [0x1F29; 0x399]);
    (0x1F9A, [0x1F2A; 0x399]); (0x1F9B, [0x1F2B; 0x399]); (0x1F9C, [0x1F2C; 0x399]);
    (0x1F9D, [0x1F2D; 0x399]); (0x1F9E, [0x1F2E; 0x399]); (0x1F9F, [0x1F2F; 0x399]);
    (0x1FA0, [0x1F68; 0x399]); (0x1FA1, [0x1F69; 0x399]); (0x1FA2, [0x1F6A; 0x399]);
    (0x1FA3, [0x1F6B; 0x399]); (0x1FA4, [0x1F6C; 0x399]); (0x1FA5, [0x1F6D; 0x399]);
    (0x1FA6, [0x1F6E; 0x399]); (0x1FA7, [0x1F6F; 0x399]); (0x1FA8, [0x1F68; 0x399]);
    (0x1FA9, [0x1F69; 0x399]); (0x1FAA, [0x1F6A; 0x399]); (0x1FAB, [0x1F6B; 0x399]);
    (0x1FAC, [0x1F6C; 0x399]); (0x1FAD, [0x1F6D; 0x399]); (0x1FAE, [0x1F6E; 0x399]);
    (0x1FAF, [0x1F6F; 0x399]); (0x1FB0, [0x1FB8]); (0x1FB1, [0x1FB9]); (0x1FB2, [0x1FBA; 0x399]);
    (0x1FB3, [0x391; 0x399]); (0x1FB4, [0x386; 0x399]); (0x1FB6, [0x391; 0x342]);
    (0x1FB7, [0x391; 0x342; 0x399]); (0x1FBC, [0x391; 0x399]); (0x1FBE, [0x399]);
    (0x1FC2, [0x1FCA; 0x399]); (0x1FC3, [0x397; 0x399]); (0x1FC4, [0x389; 0x399]);
    (0x1FC6, [0x397; 0x342]); (0x1FC7, [0x397; 0x342; 0x399]); (0x1FCC, [0x397; 0x399]);
    (0x1FD0, [0x1FD8]); (0x1FD1, [0x1FD9]); (0x1FD2, [0x399; 0x308; 0x300]);
    (0x1FD3, [0x399; 0x308; 0x301]); (0x1FD6, [0x399; 0x342]); (0x1FD7, [0x399; 0x308; 0x342]);
    (0x1FE0, [0x1FE8]); (0x1FE1, [0x1FE9]); (0x1FE2, [0x3A5; 0x308; 0x300]);
    (0x1FE3, [0x3A5; 0x308; 0x301]); (0x1FE4, [0x3A1; 0x313]); (0x1FE5, [0x1FEC]);
    (0x1FE6, [0x3A5; 0x342]); (0x1FE7, [0x3A5; 0x308; 0x342]); (0x1FF2, [0x1FFA; 0x399]);
    (0x1FF3, [0x3A9; 0x399]); (0x1FF4, [0x38F; 0x399]); (0x1FF6, [0x3A9; 0x342]);
    (0x1FF7, [0x3A9; 0x342; 0x399]); (0x1FFC, [0x3A9; 0x399]); (0x214E, [0x2132]);
    (0x2170, [0x2160]); (0x2171, [0x2161]); (0x2172, [0x2162]); (0x2173, [0x2163]);
    (0x2174, [0x2164]); (0x2175, [0x2165]); (0x2176, [0x2166]); (0x2177, [0x2167]);
    (0x2178, [0x2168]); (0x2179, [0x2169]); (0x217A, [0x216A]); (0x217B, [0x216B]);
    (0x217C, [0x216C]); (0x217D, [0x216D]); (0x217E, [0x216E]); (0x217F, [0x216F]);
    (0x2184, [0x2183]); (0x24D0, [0x24B6]); (0x24D1, [0x24B7]); (0x24D2, [0x24B8]);
    (0x24D3, [0x24B9]); (0x24D4, [0x24BA]); (0x24D5, [0x24BB]); (0x24D6, [0x24BC]);
    (0x24D7, [0x24BD]); (0x24D8, [0x24BE]); (0x24D9, [0x24BF]); (0x24DA, [0x24C0]);
    (0x24DB, [0x24C1]); (0x24DC, [0x24C2]); (0x24DD, [0x24C3]); (0x24DE, [0x24C4]);
    (0x24DF, [0x24C5]); (0x24E0, [0x24C6]); (0x24E1, [0x24C7]); (0x24E2, [0x24C8]);
    (0x24E3, [0x24C9]); (0x24E4, [0x24CA]); (0x24E5, [0x24CB]); (0x24E6, [0x24CC]);
    (0x24E7, [0x24CD]); (0x24E8, [0x24CE]); (0x24E9, [0x24CF]); (0x2C30, [0x2C00]);
    (0x2C31, [0x2C01]); (0x2C32, [0x2C02]); (0x2C33, [0x2C03]); (0x2C34, [0x2C04]);
    (0x2C35, [0x2C05]); (0x2C36, [0x2C06]); (0x2C37, [0x2C07]); (0x2C38, [0x2C08]);
    (0x2C39, [0x2C09]); (0x2C3A, [0x2C0A]); (0x2C3B, [0x2C0B]); (0x2C3C, [0x2C0C]);
    (0x2C3D, [0x2C0D]); (0x2C3E, [0x2C0E]); (0x2C3F, [0x2C0F]); (0x2C40, [0x2C10]);
    (0x2C41, [0x2C11]); (0x2C42, [0x2C12]); (0x2C43, [0x2C13]); (0x2C44, [0x2C14]);
    (0x2C45, [0x2C15]); (0x2C46, [0x2C16]); (0x2C47, [0x2C17]); (0x2C48, [0x2C18]);
    (0x2C49, [0x2C19]); (0x2C4A, [0x2C1A]); (0x2C4B, [0x2C1B]); (0x2C4C, [0x2C1C]);
    (0x2C4D, [0x2C1D]); (0x2C4E, [0x2C1E]); (0x2C4F, [0x2C1F]); (0x2C50, [0x2C20]);
    (0x2C51, [0x2C21]); (0x2C52, [0x2C22]); (0x2C53, [0x2C23]); (0x2C54, [0x2C24]);
    (0x2C55, [0x2C25]); (0x2C56, [0x2C26]); (0x2C57, [0x2C27]); (0x2C58, [0x2C28]);
    (0x2C59, [0x2C29]); (0x2C5A, [0x2C2A]); (0x2C5B, [0x2C2B]); (0x2C5C, [0x2C2C]);
    (0x2C5D, [0x2C2D]); (0x2C5E, [0x2C2E]); (0x2C5F, [0x2C2F]); (0x2C61, [0x2C60]);
    (0x2C65, [0x23A]); (0x2C66, [0x23E]); (0x2C68, [0x2C67]); (0x2C6A, [0x2C69]);
    (0x2C6C, [0x2C6B]); (0x2C73, [0x2C72]); (0x2C76, [0x2C75]); (0x2C81, [0x2C80]);
    (0x2C83, [0x2C82]); (0x2C85, [0x2C84]); (0x2C87, [0x2C86]); (0x2C89, [0x2C88]);
    (0x2C8B, [0x2C8A]); (0x2C8D, [0x2C8C]); (0x2C8F, [0x2C8E]); (0x2C91, [0x2C90]);
    (0x2C93, [0x2C92]); (0x2C95, [0x2C94]); (0x2C97, [0x2C96]); (0x2C99, [0x2C98]);
    (0x2C9B, [0x2C9A]); (0x2C9D, [0x2C9C]); (0x2C9F, [0x2C9E]); (0x2CA1, [0x2CA0]);
    (0x2CA3, [0x2CA2]); (0x2CA5, [0x2CA4]); (0x2CA7, [0x2CA6]); (0x2CA9, [0x2CA8]);
    (0x2CAB, [0x2CAA]); (0x2CAD, [0x2CAC]); (0x2CAF, [0x2CAE]); (0x2CB1, [0x2CB0]);
    (0x2CB3, [0x2CB2]); (0x2CB5, [0x2CB4]); (0x2CB7, [0x2CB6]); (0x2CB9, [0x2CB8]);
    (0x2CBB, [0x2CBA]); (0x2CBD, [0x2CBC]); (0x2CBF, [0x2CBE]); (0x2CC1, [0x2CC0]);
    (0x2CC3, [0x2CC2]); (0x2CC5, [0x2CC4]); (0x2CC7, [0x2CC6]); (0x2CC9, [0x2CC8]);
    (0x2CCB, [0x2CCA]); (0x2CCD, [0x2CCC]); (0x2CCF, [0x2CCE]); (0x2CD1, [0x2CD0]);
    (0x2CD3, [0x2CD2]); (0x2CD5, [0x2CD4]); (0x2CD7, [0x2CD6]); (0x2CD9, [0x2CD8]);
    (0x2CDB, [0x2CDA]); (0x2CDD, [0x2CDC]); (0x2CDF, [0x2CDE]); (0x2CE1, [0x2CE0]);
    (0x2CE3, [0x2CE2]); (0x2CEC, [0x2CEB]); (0x2CEE, [0x2CED]); (0x2CF3, [0x2CF2]);
    (0x2D00, [0x10A0]); (0x2D01, [0x10A1]); (0x2D02, [0x10A2]); (0x2D03, [0x10A3]);
    (0x2D04, [0x10A4]); (0x2D05, [0x10A5]); (0x2D06, [0x10A6]); (0x2D07, [0x10A7]);
    (0x2D08, [0x10A8]); (0x2D09, [0x10A9]); (0x2D0A, [0x10AA]); (0x2D0B, [0x10AB]);
    (0x2D0C, [0x10AC]); (0x2D0D, [0x10AD]); (0x2D0E, [0x10AE]); (0x2D0F, [0x10AF]);
    (0x2D10, [0x10B0]); (0x2D11, [0x10B1]); (0x2D12, [0x10B2]); (0x2D13, [0x10B3]);
    (0x2D14, [0x10B4]); (0x2D15, [0x10B5]); (0x2D16, [0x10B6]); (0x2D17, [0x10B7]);
    (0x2D18, [0x10B8]); (0x2D19, [0x10B9]); (0x2D1A, [0x10BA]); (0x2D1B, [0x10BB]);
    (0x2D1C, [0x10BC]); (0x2D1D, [0x10BD]); (0x2D1E, [0x10BE]); (0x2D1F, [0x10BF]);
    (0x2D20, [0x10C0]); (0x2D21, [0x10C1]); (0x2D22, [0x10C2]); (0x2D23, [0x10C3]);
    (0x2D24, [0x10C4]); (0x2D25, [0x10C5]); (0x2D27, [0x10C7]); (0x2D2D, [0x10CD]);
    (0xA641, [0xA640]); (0xA643, [0xA642]); (0xA645, [0xA644]); (0xA647, [0xA646]);
    (0xA649, [0xA648]); (0xA64B, [0xA64A]); (0xA64D, [0xA64C]); (0xA64F, [0xA64E]);
    (0xA651, [0xA650]); (0xA653, [0xA652]); (0xA655, [0xA654]); (0xA657, [0xA656]);
    (0xA659, [0xA658]); (0xA65B, [0xA65A]); (0xA65D, [0xA65C]); (0xA65F, [0xA65E]);
    (0xA661, [0xA660]); (0xA663, [0xA662]); (0xA665, [0xA664]); (0xA667, [0xA666]);
    (0xA669, [0xA668]); (0xA66B, [0xA66A]); (0xA66D, [0xA66C]); (0xA681, [0xA680]);
    (0xA683, [0xA682]); (0xA685, [0xA684]); (0xA687, [0xA686]); (0xA689, [0xA688]);
    (0xA68B, [0xA68A]); (0xA68D, [0xA68C]); (0xA68F, [0xA68E]); (0xA691, [0xA690]);
    (0xA693, [0xA692]); (0xA695, [0xA694]); (0xA697, [0xA696]); (0xA699, [0xA698]);
    (0xA69B, [0xA69A]); (0xA723, [0xA722]); (0xA725, [0xA724]); (0xA727, [0xA726]);
    (0xA729, [0xA728]); (0xA72B, [0xA72A]); (0xA72D, [0xA72C]); (0xA72F, [0xA72E]);
    (0xA733, [0xA732]); (0xA735, [0xA734]); (0xA737, [0xA736]); (0xA739, [0xA738]);
    (0xA73B, [0xA73A]); (0xA73D, [0xA73C]); (0xA73F, [0xA73E]); (0xA741, [0xA740]);
    (0xA743, [0xA742]); (0xA745, [0xA744]); (0xA747, [0xA746]); (0xA749, [0xA748]);
    (0xA74B, [0xA74A]); (0xA74D, [0xA74C]); (0xA74F, [0xA74E]); (0xA751, [0xA750]);
    (0xA753, [0xA752]); (0xA755, [0xA754]); (0xA757, [0xA756]); (0xA759, [0xA758]);
    (0xA75B, [0xA75A]); (0xA75D, [0xA75C]); (0xA75F, [0xA75E]); (0xA761, [0xA760]);
    (0xA763, [0xA762]); (0xA765, [0xA764]); (0xA767, [0xA766]); (0xA769, [0xA768]);
    (0xA76B, [0xA76A]); (0xA76D, [0xA76C]); (0xA76F, [0xA76E]); (0xA77A, [0xA779]);
    (0xA77C, [0xA77B]); (0xA77F, [0xA77E]); (0xA781, [0xA780]); (0xA783, [0xA782]);
    (0xA785, [0xA784]); (0xA787, [0xA786]); (0xA78C, [0xA78B]); (0xA791, [0xA790]);
    (0xA793, [0xA792]); (0xA794, [0xA7C4]); (0xA797, [0xA796]); (0xA799, [0xA798]);
    (0xA79B, [0xA79A]); (0xA79D, [0xA79C]); (0xA79F, [0xA79E]); (0xA7A1, [0xA7A0]);
    (0xA7A3, [0xA7A2]); (0xA7A5, [0xA7A4]); (0xA7A7, [0xA7A6]); (0xA7A9, [0xA7A8]);
    (0xA7B5, [0xA7B4]); (0xA7B7, [0xA7B6]); (0xA7B9, [0xA7B8]); (0xA7BB, [0xA7BA]);
    (0xA7BD, [0xA7BC]); (0xA7BF, [0xA7BE]); (0xA7C1, [0xA7C0]); (0xA7C3, [0xA7C2]);
    (0xA7C8, [0xA7C7]); (0xA7CA, [0xA7C9]); (0xA7D1, [0xA7D0]); (0xA7D7, [0xA7D6]);
    (0xA7D9, [0xA7D8]); (0xA7F6, [0xA7F5]); (0xAB53, [0xA7B3]); (0xAB70, [0x13A0]);
    (0xAB71, [0x13A1]); (0xAB72, [0x13A2]); (0xAB73, [0x13A3]); (0xAB74, [0x13A4]);
    (0xAB75, [0x13A5]); (0xAB76, [0x13A6]); (0xAB77, [0x13A7]); (0xAB78, [0x13A8]);
    (0xAB79, [0x13A9]); (0xAB7A, [0x13AA]); (0xAB7B, [0x13AB]); (0xAB7C, [0x13AC]);
    (0xAB7D, [0x13AD]); (0xAB7E, [0x13AE]); (0xAB7F, [0x13AF]); (0xAB80, [0x13B0]);
    (0xAB81, [0x13B1]); (0xAB82, [0x13B2]); (0xAB83, [0x13B3]); (0xAB84, [0x13B4]);
    (0xAB85, [0x13B5]); (0xAB86, [0x13B6]); (0xAB87, [0x13B7]); (0xAB88, [0x13B8]);
    (0xAB89, [0x13B9]); (0xAB8A, [0x13BA]); (0xAB8B, [0x13BB]); (0xAB8C, [0x13BC]);
    (0xAB8D, [0x13BD]); (0xAB8E, [0x13BE]); (0xAB8F, [0x13BF]); (0xAB90, [0x13C0]);
    (0xAB91, [0x13C1]); (0xAB92, [0x13C2]); (0xAB93, [0x13C3]); (0xAB94, [0x13C4]);
    (0xAB95, [0x13C5]); (0xAB96, [0x13C6]); (0xAB97, [0x13C7]); (0xAB98, [0x13C8]);
    (0xAB99, [0x13C9]); (0xAB9A, [0x13CA]); (0xAB9B, [0x13CB]); (0xAB9C, [0x13CC]);
    (0xAB9D, [0x13CD]); (0xAB9E, [0x13CE]); (0xAB9F, [0x13CF]); (0xABA0, [0x13D0]);
    (0xABA1, [0x13D1]); (0xABA2, [0x13D2]); (0xABA3, [0x13D3]); (0xABA4, [0x13D4]);
    (0xABA5, [0x13D5]); (0xABA6, [0x13D6]); (0xABA7, [0x13D7]); (0xABA8, [0x13D8]);
    (0xABA9, [0x13D9]); (0xABAA, [0x13DA]); (0xABAB, [0x13DB]); (0xABAC, [0x13DC]);
    (0xABAD, [0x13DD]); (0xABAE, [0x13DE]); (0xABAF, [0x13DF]); (0xABB0, [0x13E0]);
    (0xABB1, [0x13E1]); (0xABB2, [0x13E2]); (0xABB3, [0x13E3]); (0xABB4, [0x13E4]);
    (0xABB5, [0x13E5]); (0xABB6, [0x13E6]); (0xABB7, [0x13E7]); (0xABB8, [0x13E8]);
    (0xABB9, [0x13E9]); (0xABBA, [0x13EA]); (0xABBB, [0x13EB]); (0xABBC, [0x13EC]);
    (0xABBD, [0x13ED]); (0xABBE, [0x13EE]); (0xABBF, [0x13EF]); (0xFB00, [0x46; 0x46]);
    (0xFB01, [0x46; 0x49]); (0xFB02, [0x46; 0x4C]); (0xFB03, [0x46; 0x46; 0x49]);
    (0xFB04, [0x46; 0x46; 0x4C]); (0xFB05, [0x53; 0x54]); (0xFB06, [0x53; 0x54]);
    (0xFB13, [0x544; 0x546]); (0xFB14, [0x544; 0x535]); (0xFB15, [0x544; 0x53B]);
    (0xFB16, [0x54E; 0x546]); (0xFB17, [0x544; 0x53D]); (0xFF41, [0xFF21]); (0xFF42, [0xFF22]);
    (0xFF43, [0xFF23]); (0xFF44, [0xFF24]); (0xFF45, [0xFF25]); (0xFF46, [0xFF26]);
    (0xFF47, [0xFF27]); (0xFF48, [0xFF28]); (0xFF49, [0xFF29]); (0xFF4A, [0xFF2A]);
    (0xFF4B, [0xFF2B]); (0xFF4C, [0xFF2C]); (0xFF4D, [0xFF2D]); (0xFF4E, [0xFF2E]);
    (0xFF4F, [0xFF2F]); (0xFF50, [0xFF30]); (0xFF51, [0xFF31]); (0xFF52, [0xFF32]);
    (0xFF53, [0xFF33]); (0xFF54, [0xFF34]); (0xFF55, [0xFF35]); (0xFF56, [0xFF36]);
    (0xFF57, [0xFF37]); (0xFF58, [0xFF38]); (0xFF59, [0xFF39]); (0xFF5A, [0xFF3A]);
    (0x10428, [0x10400]); (0x10429, [0x10401]); (0x1042A, [0x10402]); (0x1042B, [0x10403]);
    (0x1042C, [0x10404]); (0x1042D, [0x10405]); (0x1042E, [0x10406]); (0x1042F, [0x10407]);
    (0x10430, [0x10408]); (0x10431, [0x10409]); (0x10432, [0x1040A]); (0x10433, [0x1040B]);
    (0x10434, [0x1040C]); (0x10435, [0x1040D]); (0x10436, [0x1040E]); (0x10437, [0x1040F]);
    (0x10438, [0x10410]); (0x10439, [0x10411]); (0x1043A, [0x10412]); (0x1043B, [0x10413]);
    (0x1043C, [0x10414]); (0x1043D, [0x10415]); (0x1043E, [0x10416]); (0x1043F, [0x10417]);
    (0x10440, [0x10418]); (0x10441, [0x10419]); (0x10442, [0x1041A]); (0x10443, [0x1041B]);
    (0x10444, [0x1041C]); (0x10445, [0x1041D]); (0x10446, [0x1041E]); (0x10447, [0x1041F]);
    (0x10448, [0x10420]); (0x10449, [0x10421]); (0x1044A, [0x10422]); (0x1044B, [0x10423]);
    (0x1044C, [0x10424]); (0x1044D, [0x10425]); (0x1044E, [0x10426]); (0x1044F, [0x10427]);
    (0x104D8, [0x104B0]); (0x104D9, [0x104B1]); (0x104DA, [0x104B2]); (0x104DB, [0x104B3]);
    (0x104DC, [0x104B4]); (0x104DD, [0x104B5]); (0x104DE, [0x104B6]); (0x104DF, [0x104B7]);
    (0x104E0, [0x104B8]); (0x104E1, [0x104B9]); (0x104E2, [0x104BA]); (0x104E3, [0x104BB]);
    (0x104E4, [0x104BC]); (0x104E5, [0x104BD]); (0x104E6, [0x104BE]); (0x104E7, [0x104BF]);
    (0x104E8, [0x104C0]); (0x104E9, [0x104C1]); (0x104EA, [0x104C2]); (0x104EB, [0x104C3]);
    (0x104EC, [0x104C4]); (0x104ED, [0x104C5]); (0x104EE, [0x104C6]); (0x104EF, [0x104C7]);
    (0x104F0, [0x104C8]); (0x104F1, [0x104C9]); (0x104F2, [0x104CA]); (0x104F3, [0x104CB]);
    (0x104F4, [0x104CC]); (0x104F5, [0x104CD]); (0x104F6, [0x104CE]); (0x104F7, [0x104CF]);
    (0x104F8, [0x104D0]); (0x104F9, [0x104D1]); (0x104FA, [0x104D2]); (0x104FB, [0x104D3]);
    (0x10597, [0x10570]); (0x10598, [0x10571]); (0x10599, [0x10572]); (0x1059A, [0x10573]);
    (0x1059B, [0x10574]); (0x1059C, [0x10575]); (0x1059D, [0x10576]); (0x1059E, [0x10577]);
    (0x1059F, [0x10578]); (0x105A0, [0x10579]); (0x105A1, [0x1057A]); (0x105A3, [0x1057C]);
    (0x105A4, [0x1057D]); (0x105A5, [0x1057E]); (0x105A6, [0x1057F]); (0x105A7, [0x10580]);
    (0x105A8, [0x10581]); (0x105A9, [0x10582]); (0x105AA, [0x10583]); (0x105AB, [0x10584]);
    (0x105AC, [0x10585]); (0x105AD, [0x10586]); (0x105AE, [0x10587]); (0x105AF, [0x10588]);
    (0x105B0, [0x10589]); (0x105B1, [0x1058A]); (0x105B3, [0x1058C]); (0x105B4, [0x1058D]);
    (0x105B5, [0x1058E]); (0x105B6, [0x1058F]); (0x105B7, [0x10590]); (0x105B8, [0x10591]);
    (0x105B9, [0x10592]); (0x105BB, [0x10594]); (0x105BC, [0x10595]); (0x10CC0, [0x10C80]);
    (0x10CC1, [0x10C81]); (0x10CC2, [0x10C82]); (0x10CC3, [0x10C83]); (0x10CC4, [0x10C84]);
    (0x10CC5, [0x10C85]); (0x10CC6, [0x10C86]); (0x10CC7, [0x10C87]); (0x10CC8, [0x10C88]);
    (0x10CC9, [0x10C89]); (0x10CCA, [0x10C8A]); (0x10CCB, [0x10C8B]); (0x10CCC, [0x10C8C]);
    (0x10CCD, [0x10C8D]); (0x10CCE, [0x10C8E]); (0x10CCF, [0x10C8F]); (0x10CD0, [0x10C90]);
    (0x10CD1, [0x10C91]); (0x10CD2, [0x10C92]); (0x10CD3, [0x10C93]); (0x10CD4, [0x10C94]);
    (0x10CD5, [0x10C95]); (0x10CD6, [0x10C96]); (0x10CD7, [0x10C97]); (0x10CD8, [0x10C98]);
    (0x10CD9, [0x10C99]); (0x10CDA, [0x10C9A]); (0x10CDB, [0x10C9B]); (0x10CDC, [0x10C9C]);
    (0x10CDD, [0x10C9D]); (0x10CDE, [0x10C9E]); (0x10CDF, [0x10C9F]); (0x10CE0, [0x10CA0]);
    (0x10CE1, [0x10CA1]); (0x10CE2, [0x10CA2]); (0x10CE3, [0x10CA3]); (0x10CE4, [0x10CA4]);
    (0x10CE5, [0x10CA5]); (0x10CE6, [0x10CA6]); (0x10CE7, [0x10CA7]); (0x10CE8, [0x10CA8]);
    (0x10CE9, [0x10CA9]); (0x10CEA, [0x10CAA]); (0x10CEB, [0x10CAB]); (0x10CEC, [0x10CAC]);
    (0x10CED, [0x10CAD]); (0x10CEE, [0x10CAE]); (0x10CEF, [0x10CAF]); (0x10CF0, [0x10CB0]);
    (0x10CF1, [0x10CB1]); (0x10CF2, [0x10CB2]); (0x118C0, [0x118A0]); (0x118C1, [0x118A1]);
    (0x118C2, [0x118A2]); (0x118C3, [0x118A3]); (0x118C4, [0x118A4]); (0x118C5, [0x118A5]);
    (0x118C6, [0x118A6]); (0x118C7, [0x118A7]); (0x118C8, [0x118A8]); (0x118C9, [0x118A9]);
    (0x118CA, [0x118AA]); (0x118CB, [0x118AB]); (0x118CC, [0x118AC]); (0x118CD, [0x118AD]);
    (0x118CE, [0x118AE]); (0x118CF, [0x118AF]); (0x118D0, [0x118B0]); (0x118D1, [0x118B1]);
    (0x118D2, [0x118B2]); (0x118D3, [0x118B3]); (0x118D4, [0x118B4]); (0x118D5, [0x118B5]);
    (0x118D6, [0x118B6]); (0x118D7, [0x118B7]); (0x118D8, [0x118B8]); (0x118D9, [0x118B9]);
    (0x118DA, [0x118BA]); (0x118DB, [0x118BB]); (0x118DC, [0x118BC]); (0x118DD, [0x118BD]);
    (0x118DE, [0x118BE]); (0x118DF, [0x118BF]); (0x16E60, [0x16E40]); (0x16E61, [0x16E41]);
    (0x16E62, [0x16E42]); (0x16E63, [0x16E43]); (0x16E64, [0x16E44]); (0x16E65, [0x16E45]);
    (0x16E66, [0x16E46]); (0x16E67, [0x16E47]); (0x16E68, [0x16E48]); (0x16E69, [0x16E49]);
    (0x16E6A, [0x16E4A]); (0x16E6B, [0x16E4B]); (0x16E6C, [0x16E4C]); (0x16E6D, [0x16E4D]);
    (0x16E6E, [0x16E4E]); (0x16E6F, [0x16E4F]); (0x16E70, [0x16E50]); (0x16E71, [0x16E51]);
    (0x16E72, [0x16E52]); (0x16E73, [0x16E53]); (0x16E74, [0x16E54]); (0x16E75, [0x16E55]);
    (0x16E76, [0x16E56]); (0x16E77, [0x16E57]); (0x16E78, [0x16E58]); (0x16E79, [0x16E59]);
    (0x16E7A, [0x16E5A]); (0x16E7B, [0x16E5B]); (0x16E7C, [0x16E5C]); (0x16E7D, [0x16E5D]);
    (0x16E7E, [0x16E5E]); (0x16E7F, [0x16E5F]); (0x1E922, [0x1E900]); (0x1E923, [0x1E901]);
    (0x1E924, [0x1E902]); (0x1E925, [0x1E903]); (0x1E926, [0x1E904]); (0x1E927, [0x1E905]);
    (0x1E928, [0x1E906]); (0x1E929, [0x1E907]); (0x1E92A, [0x1E908]); (0x1E92B, [0x1E909]);
    (0x1E92C, [0x1E90A]); (0x1E92D, [0x1E90B]); (0x1E92E, [0x1E90C]); (0x1E92F, [0x1E90D]);
    (0x1E930, [0x1E90E]); (0x1E931, [0x1E90F]); (0x1E932, [0x1E910]); (0x1E933, [0x1E911]);
    (0x1E934, [0x1E912]); (0x1E935, [0x1E913]); (0x1E936, [0x1E914]); (0x1E937, [0x1E915]);
    (0x1E938, [0x1E916]); (0x1E939, [0x1E917]); (0x1E93A, [0x1E918]); (0x1E93B, [0x1E919]);
    (0x1E93C, [0x1E91A]); (0x1E93D, [0x1E91B]); (0x1E93E, [0x1E91C]); (0x1E93F, [0x1E91D]);
    (0x1E940, [0x1E91E]); (0x1E941, [0x1E91F]); (0x1E942, [0x1E920]); (0x1E943, [0x1E921])
  ]%N.

Definition upper_images : list (string * string) :=
  Eval vm_compute in (fun e : N * list N => (chr e.1, chrs e.2)) <$> special_upper.

(** The entry of the table for the code point a text starts with. *)
Definition upper_at (s : string) : option (string * string) :=
  List.find (fun e : string * string => startswith e.1 s) upper_images.

(** [s.upper()], code point by code point: a letter of ASCII, a code point
    of the table, or one that stays.  [skip] counts the bytes still to pass
    of a code point that has been dealt with. *)
Fixpoint upper_from (skip : nat) (s : string) : string :=
  match s with
  | EmptyString => EmptyString
  | String c r =>
      match skip with
      | S k => upper_from k r
      | O =>
          if is_ascii c then String (upper_char c) (upper_from O r)
          else
            match upper_at s with
            | Some (point, image) => image +:+ upper_from (String.length point - 1) r
            | None => String c (upper_from O r)
            end
      end
  end.

Definition upper (s : string) : string := upper_from O s.

(** [s.lower()] on the letters A to Z.  The analyzer lowers host names,
    provider names and the text of an error answer. *)
Fixpoint lower (s : string) : string :=
  match s with
  | EmptyString => EmptyString
  | String c r => String (lower_char c) (lower r)
  end.

(** Membership of a character in the argument of [strip]. *)
Fixpoint char_in (c : ascii) (chars : string) : bool :=
  match chars with
  | EmptyString => false
  | String d r => Ascii.eqb c d || char_in c r
  end.

(** [s.lstrip(chars)], [s.rstrip(chars)], [s.strip(chars)]. *)
Fixpoint lstrip (chars s : string) : string :=
  match s with
  | EmptyString => EmptyString
  | String c r => if char_in c chars then lstrip chars r else s
  end.

Fixpoint rstrip (chars s : string) : string :=
  match s with
  | EmptyString => EmptyString
  | String c r =>
      match rstrip chars r with
      | EmptyString => if char_in c chars then EmptyString else String c EmptyString
      | r' => String c r'
      end
  end.

Definition strip (chars s : string) : string := rstrip chars (lstrip chars s).

(** [needle in hay]. *)
Fixpoint contains (needle hay : string) : bool :=
  startswith needle hay ||
  match hay with
  | EmptyString => false
  | String _ r => contains needle r
  end.

(** [s[:n]], in bytes. *)
Fixpoint take (n : nat) (s : string) : string :=
  match n, s with
  | S k, String c r => String c (take k r)
  | _, _ => EmptyString
  end.

(** [s.split(sep)] for a separator of one character. *)
Fixpoint split (sep : ascii) (s : string) : list string :=
  match s with
  | EmptyString => [EmptyString]
  | String c r =>
      if Ascii.eqb c sep then EmptyString :: split sep r
      else match split sep r with
           | p :: ps => String c p :: ps
           | [] => [String c EmptyString]
           end
  end.

(** ** Python runtime: [re]

    A compiled pattern is its matcher: at the start of a text it answers the
    length in bytes of the match the backtracking engine finds there, if any.
    The four patterns of the analyzer consume at least one code point
    wherever they match. *)

Definition pattern : Type := string -> option nat.

(** [pattern.sub(repl, s)]: scan from the left; where the pattern matches, put
    [repl] and resume behind the match; elsewhere copy the byte.  [skip]
    counts the bytes of the current match still to pass over. *)
Fixpoint sub_from (p : pattern) (repl : string) (skip : nat) (s : string) : string :=
  match s with
  | EmptyString => EmptyString
  | String c r =>
      match skip with
      | S k => sub_from p repl k r
      | O =>
          match p s with
          | Some (S k) => repl +:+ sub_from p repl k r
          | _ => String c (sub_from p repl O r)
          end
      end
  end.

Definition sub (p : pattern) (repl s : string) : string := sub_from p repl O s.

(** [pattern.search(s)]: the text of the leftmost match. *)
Fixpoint search (p : pattern) (s : string) : option string :=
  match p s with
  | Some n => Some (take n s)
  | None =>
      match s with
      | EmptyString => None
      | String _ r => search p r
      end
  end.

(** [$] without [re.MULTILINE]: the end of the text, or just before a line
    feed that ends the text. *)
Definition at_dollar (s : string) : bool :=
  match s with
  | EmptyString => true
  | String c EmptyString => Ascii.eqb c "010"
  | _ => false
  end.

(** The code points [\s] matches in a [str] pattern: those of
    [str.isspace]. *)
Definition whitespace : list N :=
  [0x9; 0xA; 0xB; 0xC; 0xD; 0x1C; 0x1D; 0x1E; 0x1F; 0x20; 0x85; 0xA0; 0x1680;
   0x2000; 0x2001; 0x2002; 0x2003; 0x2004; 0x2005; 0x2006; 0x2007; 0x2008; 0x2009;
   0x200A; 0x2028; 0x2029; 0x202F; 0x205F; 0x3000]%N.

Definition spaces : list string := Eval vm_compute in chr <$> whitespace.

(** [\s] at the start of a text: what follows the blank, and how many bytes
    the blank takes (0 when there is none). *)
Definition after_space (s : string) : option string := snd <$> after_any spaces s.

Definition space_width (s : string) : nat :=
  match after_any spaces s with
  | Some (blank, _) => String.length blank
  | None => 0
  end.

(** What a letter of a pattern matches under [(?i)]: itself in either case
    and, for i, k and s, the code points the library folds onto them
    (U+0130 and U+0131, U+212A, U+017F). *)
Definition ignorecase (a : ascii) : list string :=
  [String (lower_char a) ""; String (upper_char a) ""] ++
  (if Ascii.eqb (lower_char a) "i" then [chr 0x130; chr 0x131]
   else if Ascii.eqb (lower_char a) "k" then [chr 0x212A]
   else if Ascii.eqb (lower_char a) "s" then [chr 0x17F]
   else []).

(** A word of letters under [(?i)] at the start of a text: the bytes of
    its match. *)
Fixpoint literal_i (p s : string) : option nat :=
  match p with
  | EmptyString => Some 0
  | String a p' =>
      match after_any (ignorecase a) s with
      | Some (point, t) => Nat.add (String.length point) <$> literal_i p' t
      | None => None
      end
  end.

(** [s.endswith(suffix)]. *)
Fixpoint endswith (suffix s : string) : bool :=
  String.eqb s suffix ||
  match s with
  | EmptyString => false
  | String _ r => endswith suffix r
  end.

(** [pattern.match(s)]: the text of a match that starts the text. *)
Definition re_match (p : pattern) (s : string) : option string :=
  match p s with
  | Some n => Some (take n s)
  | None => None
  end.

(** [sep.join(parts)]. *)
Fixpoint join (sep : string) (parts : list string) : string :=
  match parts with
  | [] => EmptyString
  | [p] => p
  | p :: rest => p +:+ sep +:+ join sep rest
  end.

End Py.

(** ** The analyzer: compiled patterns and constants *)

(** [re.compile(r"(?i)(intel|amd)")]: the alternatives in order. *)
Definition _INTEL_AMD_PATTERN : Py.pattern := fun s =>
  match Py.literal_i "intel" s with
  | Some n => Some n
  | None => Py.literal_i "amd" s
  end.

(** One alternative of [(CPU|PROCESSOR)$]: the word, then [$]. *)
Definition word_then_dollar (w s : string) : option nat :=
  match Py.after_prefix w s with
  | Some t => if Py.at_dollar t then Some (String.length w) else None
  | None => None
  end.

(** [(CPU|PROCESSOR)$]: the first alternative, and the second when the first
    or the [$] behind it fails. *)
Definition word_at_dollar (s : string) : option nat :=
  match word_then_dollar "CPU" s with
  | Some n => Some n
  | None => word_then_dollar "PROCESSOR" s
  end.

(** Behind a blank of [width] bytes: the match of more blanks and the word
    if there is one, else the word right here. *)
Definition spaces_then (width : nat) (rest : string) (longer : option nat) : option nat :=
  match longer with
  | Some n => Some (width + n)
  | None => option_map (Nat.add width) (word_at_dollar rest)
  end.

(** [re.compile(r"\s+(CPU|PROCESSOR)$")]: the greedy [\s+] first takes every
    blank it can and gives them back one at a time.  A blank is one, two or
    three bytes wide. *)
Fixpoint _CPU_PROCESSOR_PATTERN (s : string) : option nat :=
  match s with
  | EmptyString => None
  | String _ r1 =>
      match Py.space_width s, r1 with
      | 1, _ => spaces_then 1 r1 (_CPU_PROCESSOR_PATTERN r1)
      | 2, String _ r2 => spaces_then 2 r2 (_CPU_PROCESSOR_PATTERN r2)
      | 3, String _ (String _ r3) => spaces_then 3 r3 (_CPU_PROCESSOR_PATTERN r3)
      | _, _ => None
      end
  end.

(** [re.compile(r"[^A-Z0-9]")]: one code point, whatever its width. *)
Definition _SPECIAL_CHARS_PATTERN : Py.pattern := fun s =>
  match s with
  | EmptyString => None
  | String c _ => if Py.is_AZ c || Py.is_09 c then None else Some (Py.width s)
  end.

(** [re.compile(r"_+")]: greedy, nothing follows it. *)
Fixpoint _MULTIPLE_UNDERSCORES_PATTERN (s : string) : option nat :=
  match s with
  | EmptyString => None
  | String c r =>
      if Ascii.eqb c "_" then
        match _MULTIPLE_UNDERSCORES_PATTERN r with
        | Some n => Some (S n)
        | None => Some 1
        end
      else None
  end.

Definition SUCCESS_HTTP_CODES : list Z := [200; 201; 204]%Z.
Definition MAX_RETRIES : nat := 3.

(** ** [get_cpu_vendor]

    The value is [None] or a [str].  The second [return "UNKNOWN"] of the
    source sits inside the [if match:] block behind a [return]; with no match
    the method runs off its end and answers [None]. *)
Definition get_cpu_vendor (cpu_model : option string) : option string :=
  if Py.falsy cpu_model then Some "UNKNOWN"
  else
    match Py.search _INTEL_AMD_PATTERN (default "" cpu_model) with
    | Some group1 => Some (Py.upper group1)
    | None => None
    end.

(** ** [generate_trait_name] *)
Definition generate_trait_name (cpu_model : option string) : string :=
  if Py.falsy cpu_model then "CUSTOM_UNKNOWN_EMPTY"
  else
    let cpu_upper := Py.upper (default "" cpu_model) in
    let cpu_clean := Py.sub _CPU_PROCESSOR_PATTERN "" cpu_upper in
    let cpu_clean := Py.sub _SPECIAL_CHARS_PATTERN "_" cpu_clean in
    let cpu_clean := Py.sub _MULTIPLE_UNDERSCORES_PATTERN "_" cpu_clean in
    let cpu_clean := Py.strip "_" cpu_clean in
    if Py.contains "INTEL" cpu_clean then "CUSTOM_" +:+ cpu_clean
    else if Py.contains "AMD" cpu_clean then "CUSTOM_" +:+ cpu_clean
    else "CUSTOM_UNKNOWN_" +:+ cpu_clean.


(** ** The trait name, step by step, in the words of the specification *)

Definition LF : string := String "010" EmptyString.

Definition is_token (t : string) : bool :=
  String.eqb t "CPU" || String.eqb t "PROCESSOR".

Fixpoint skip_blanks (s : string) : string :=
  match s with
  | EmptyString => EmptyString
  | String _ r1 =>
      match Py.space_width s, r1 with
      | 1, _ => skip_blanks r1
      | 2, String _ r2 => skip_blanks r2
      | 3, String _ (String _ r3) => skip_blanks r3
      | _, _ => s
      end
  end.

(** "Strip one trailing CPU or PROCESSOR token": the text ends with blanks and
    the token behind them; both go. *)
Fixpoint spec_strip_trailing_token (s : string) : string :=
  match s with
  | EmptyString => EmptyString
  | String c r =>
      match Py.after_space s with
      | Some t =>
          if is_token (skip_blanks t) then EmptyString
          else String c (spec_strip_trailing_token r)
      | None => String c (spec_strip_trailing_token r)
      end
  end.

(** The same step with the token read as the last word of the text, blanks
    behind it or not: [s.rstrip()] ends with the token, which stands at the
    start or behind a blank. *)
Fixpoint rstrip_blanks (s : string) : string :=
  match s with
  | EmptyString => EmptyString
  | String c r =>
      if String.eqb (skip_blanks s) "" then EmptyString else String c (rstrip_blanks r)
  end.

Definition only_token (r : string) : bool :=
  is_token (rstrip_blanks (skip_blanks r)).

Fixpoint spec_strip_last_word_from (s : string) : string :=
  match s with
  | EmptyString => EmptyString
  | String c r =>
      match Py.after_space s with
      | Some t =>
          if only_token t then EmptyString else String c (spec_strip_last_word_from r)
      | None => String c (spec_strip_last_word_from r)
      end
  end.

Definition spec_strip_last_word (s : string) : string :=
  if only_token s then EmptyString else spec_strip_last_word_from s.

(** What may stand behind the token for step two of the code to fire: nothing,
    or one line feed that ends the text.  The answer is what stays. *)
Definition behind_token (t : string) : option string :=
  if is_token t then Some EmptyString
  else if String.eqb t ("CPU" +:+ LF) || String.eqb t ("PROCESSOR" +:+ LF) then Some LF
  else None.

Fixpoint strip_token_before_end (s : string) : string :=
  match s with
  | EmptyString => EmptyString
  | String c r =>
      match Py.after_space s with
      | Some t =>
          match behind_token (skip_blanks t) with
          | Some rest => rest
          | None => String c (strip_token_before_end r)
          end
      | None => String c (strip_token_before_end r)
      end
  end.

(** "Replace every character outside [A-Z0-9] with underscore": one
    underscore for a code point, whatever its width. *)
Fixpoint replace_specials_from (skip : nat) (s : string) : string :=
  match s with
  | EmptyString => EmptyString
  | String c r =>
      match skip with
      | S k => replace_specials_from k r
      | O =>
          if Py.is_AZ c || Py.is_09 c then String c (replace_specials_from O r)
          else String "_" (replace_specials_from (Py.width s - 1) r)
      end
  end.

Definition replace_specials (s : string) : string := replace_specials_from O s.

(** "Collapse runs of underscores to one." *)
Fixpoint collapse_underscores (s : string) : string :=
  match s with
  | EmptyString => EmptyString
  | String c r =>
      match r with
      | String d _ =>
          if Ascii.eqb c "_" && Ascii.eqb d "_" then collapse_underscores r
          else String c (collapse_underscores r)
      | EmptyString => String c EmptyString
      end
  end.

(** "Prefix CUSTOM_ if the cleaned string contains INTEL or AMD, and
    CUSTOM_UNKNOWN_ otherwise." *)
Definition vendor_prefix (cleaned : string) : string :=
  if Py.contains "INTEL" cleaned || Py.contains "AMD" cleaned
  then "CUSTOM_" else "CUSTOM_UNKNOWN_".

(** The steps in order, over a choice of step two. *)
Definition spec_clean_by_steps (strip_token : string -> string) (cpu_model : string)
    : string :=
  Py.strip "_"
    (collapse_underscores (replace_specials (strip_token (Py.upper cpu_model)))).

Definition spec_trait_name_by_steps (strip_token : string -> string) (cpu_model : string)
    : string :=
  match cpu_model with
  | EmptyString => "CUSTOM_UNKNOWN_EMPTY"
  | _ =>
      let cleaned := spec_clean_by_steps strip_token cpu_model in
      vendor_prefix cleaned +:+ cleaned
  end.

(** ** The shape of a trait name *)

Definition is_trait_char (c : ascii) : bool :=
  Py.is_AZ c || Py.is_09 c || Ascii.eqb c "_".

Fixpoint all_chars (P : ascii -> bool) (s : string) : bool :=
  match s with
  | EmptyString => true
  | String c r => P c && all_chars P r
  end.

Fixpoint last_char (s : string) : option ascii :=
  match s with
  | EmptyString => None
  | String c EmptyString => Some c
  | String _ r => last_char r
  end.

Definition leading_underscore (s : string) : bool := Py.startswith "_" s.
Definition trailing_underscore (s : string) : bool :=
  bool_decide (last_char s = Some "_"%char).
Definition doubled_underscore (s : string) : bool := Py.contains "__" s.

Definition well_formed_trait (t : string) : bool :=
  all_chars is_trait_char t
  && negb (leading_underscore t)
  && negb (trailing_underscore t)
  && negb (doubled_underscore t)
  && Py.startswith "CUSTOM_" t.

(** "Contains the vendor name, case-insensitively": the lowered text holds
    the name.  The two code points from 128 on that [str.lower] takes into
    ASCII are U+0130, which becomes i and U+0307, and U+212A, which becomes
    k; neither gives a text the words intel or amd, so the lowering of the
    letters A to Z decides this as [str.lower] does. *)
Definition mentions (vendor cpu_model : string) : bool :=
  Py.contains vendor (Py.lower cpu_model).

(** ** [filter_machines]

    A machine is the JSON object of the inventory: every key may be absent,
    [.get] supplies the default.  A tag of [tag_names] is a bare string or an
    object with a [name].  Where Python raises, the embedding answers [Raise]. *)

Inductive exn : Type := AttributeError | TypeError.

Inductive result (A : Type) : Type :=
| Ok (a : A)
| Raise (e : exn).
Arguments Ok {A} a.
Arguments Raise {A} e.

#[global] Instance result_bind : MBind result := fun A B k r =>
  match r with
  | Ok a => k a
  | Raise e => Raise e
  end.

Inductive tag : Type :=
| TagStr (s : string)
| TagDict (name : option string).

Record zone_dict : Type := { zone_name : option string }.
Record hardware : Type := { cpu_model : option string }.

Record machine : Type := {
  hostname : option string;
  zone : option zone_dict;
  status_name : option string;
  tag_names : option (list tag);
  hardware_info : option hardware
}.

(** [[tag.get("name", "") for tag in machine_tags]]: a bare string has no
    [get]. *)
Fixpoint names_of_dicts (machine_tags : list tag) : result (list tag) :=
  match machine_tags with
  | [] => Ok []
  | TagDict name :: rest =>
      names ← names_of_dicts rest; Ok (TagStr (default "" name) :: names)
  | TagStr _ :: _ => Raise AttributeError
  end.

(** [set(machine_tags)]: an object is not hashable. *)
Fixpoint py_set (values : list tag) : result (gset string) :=
  match values with
  | [] => Ok ∅
  | TagStr s :: rest => names ← py_set rest; Ok ({[ s ]} ∪ names)
  | TagDict _ :: _ => Raise TypeError
  end.

Definition first_is_dict (machine_tags : list tag) : bool :=
  match machine_tags with
  | TagDict _ :: _ => true
  | _ => false
  end.

Definition should_include_machine
    (zone_arg : option string) (deployed_only : bool) (tags_set : gset string)
    (m : machine) : result bool :=
  if negb (Py.falsy zone_arg)
     && negb (bool_decide (zone_name (default {| zone_name := None |} (zone m)) = zone_arg))
  then Ok false
  else if deployed_only && negb (bool_decide (status_name m = Some "Deployed"))
  then Ok false
  else if negb (bool_decide (tags_set = ∅)) then
    let machine_tags := default [] (tag_names m) in
    machine_tags ← (if first_is_dict machine_tags
                    then names_of_dicts machine_tags else Ok machine_tags);
    machine_tags_set ← py_set machine_tags;
    if bool_decide (tags_set ∩ machine_tags_set = ∅) then Ok false else Ok true
  else Ok true.

(** [[machine for machine in machines if keep(machine)]]. *)
Fixpoint comprehension (keep : machine -> result bool) (machines : list machine)
    : result (list machine) :=
  match machines with
  | [] => Ok []
  | m :: rest =>
      b ← keep m;
      kept ← comprehension keep rest;
      Ok (if b : bool then m :: kept else kept)
  end.

(** [set(tags) if tags else set()]. *)
Definition tags_set_of (tags : list string) : gset string :=
  match tags with [] => ∅ | _ => list_to_set tags end.

Definition filter_machines
    (machines : list machine) (zone_arg : option string) (deployed_only : bool)
    (tags : list string) : result (list machine) :=
  match machines with
  | [] => Ok []
  | _ =>
      let tags_set := tags_set_of tags in
      comprehension (should_include_machine zone_arg deployed_only tags_set) machines
  end.

(** The predicates of the filter stage, as the specification words them. *)

Definition zone_supplied (zone_arg : option string) : bool := negb (Py.falsy zone_arg).

Definition in_zone (zone_arg : option string) (m : machine) : bool :=
  match zone m with
  | Some z => bool_decide (zone_name z = zone_arg)
  | None => false
  end.

Definition is_deployed (m : machine) : bool :=
  bool_decide (status_name m = Some "Deployed").

Definition tag_label (t : tag) : option string :=
  match t with
  | TagStr s => Some s
  | TagDict name => name
  end.

Definition shares_tag (tags : list string) (m : machine) : bool :=
  existsb (fun t => bool_decide (Some t ∈ tag_label <$> default [] (tag_names m))) tags.

Definition passes (zone_arg : option string) (deployed_only : bool) (tags : list string)
    (m : machine) : bool :=
  (negb (zone_supplied zone_arg) || in_zone zone_arg m)
  && (negb deployed_only || is_deployed m)
  && (match tags with [] => true | _ => shares_tag tags m end).

(** A tag list in one of the two formats: bare strings only, or objects that
    all carry a name. *)
Definition is_bare (t : tag) : bool :=
  match t with TagStr _ => true | TagDict _ => false end.
Definition is_named (t : tag) : bool :=
  match t with TagDict (Some _) => true | _ => false end.
Definition well_tagged (m : machine) : bool :=
  forallb is_bare (default [] (tag_names m))
  || forallb is_named (default [] (tag_names m)).

(** The inventory of the test suite ([sample_maas_machines]), and a machine
    whose tags are records. *)
Definition sample_machine (host status zone_of cpu : string) (tags : list tag) : machine :=
  {| hostname := Some host;
     zone := Some {| zone_name := Some zone_of |};
     status_name := Some status;
     tag_names := Some tags;
     hardware_info := Some {| cpu_model := Some cpu |} |}.

Definition sample_maas_machines : list machine :=
  [ sample_machine "test-machine-1" "Deployed" "zone-1"
      "Intel(R) Xeon(R) CPU E5-2680 v4 @ 2.40GHz" [TagStr "compute"; TagStr "gpu"];
    sample_machine "test-machine-2" "Deployed" "zone-1"
      "AMD EPYC 7551P 32-Core Processor" [TagStr "compute"];
    sample_machine "test-machine-3" "Ready" "zone-2"
      "Intel(R) Core(TM) i7-8700K CPU @ 3.70GHz" [TagStr "storage"];
    sample_machine "test-machine-4" "Deployed" "zone-1"
      "Unknown CPU Model" [] ].

Definition record_tagged_machine : machine :=
  sample_machine "test-machine-5" "Deployed" "zone-1" "AMD EPYC 7551P 32-Core Processor"
    [TagDict (Some "compute"); TagDict (Some "nvme")].

(** ** [_set_resource_provider_traits]

    [_make_placement_api_request] is the environment of the method: the remote
    placement service together with the cached token and endpoint.  It is a
    state [World] and a step that answers a request and moves the state.  The
    method's HTTP exchange is kept as the list of its calls. *)

Inductive http_method : Type := GET | PUT.

Record put_data : Type := {
  traits : list string;
  resource_provider_generation : Z
}.

Record api_request : Type := {
  method : http_method;
  endpoint : string;
  data : option put_data
}.

#[global] Instance http_method_eq_dec : EqDecision http_method.
Proof. solve_decision. Defined.
#[global] Instance put_data_eq_dec : EqDecision put_data.
Proof. solve_decision. Defined.
#[global] Instance api_request_eq_dec : EqDecision api_request.
Proof. solve_decision. Defined.

(** What [rp_response.json()] and [.get("generation", 0)] can read: nothing
    (the body is no JSON object, an exception), or an object that may carry a
    generation. *)
Inductive rp_body : Type :=
| Unreadable
| Provider (generation : option Z).

Inductive api_outcome : Type :=
| Raises
| Response (status_code : Z) (body : rp_body).

Definition call : Type := api_request * api_outcome.

Definition is_success (status_code : Z) : bool :=
  bool_decide (status_code ∈ SUCCESS_HTTP_CODES).

Definition read_request (resource_provider_id : string) : api_request :=
  {| method := GET;
     endpoint := "/resource_providers/" +:+ resource_provider_id;
     data := None |}.

Definition write_request (resource_provider_id : string) (trait_names : list string)
    (generation : Z) : api_request :=
  {| method := PUT;
     endpoint := "/resource_providers/" +:+ resource_provider_id +:+ "/traits";
     data := Some {| traits := trait_names;
                     resource_provider_generation := generation |} |}.

Section Placement.

Context {World : Type}.
Variable _make_placement_api_request : World -> api_request -> api_outcome * World.

Record run : Type := {
  returned : bool;
  world : World;
  calls : list call
}.

(** The body of [for attempt in range(self.MAX_RETRIES)], over the attempts
    still to come. *)
Fixpoint retry_loop (resource_provider_id : string) (trait_names : list string)
    (attempts : list nat) (w : World) (done : list call) : run :=
  match attempts with
  | [] => {| returned := false; world := w; calls := done |}
  | attempt :: later =>
      let rd := read_request resource_provider_id in
      let '(rp_response, w) := _make_placement_api_request w rd in
      let done := done ++ [(rd, rp_response)] in
      match rp_response with
      | Raises => {| returned := false; world := w; calls := done |}
      | Response status_code body =>
          if negb (is_success status_code)
          then {| returned := false; world := w; calls := done |}
          else
            match body with
            | Unreadable => {| returned := false; world := w; calls := done |}
            | Provider g =>
                let generation := default 0%Z g in
                let wr := write_request resource_provider_id trait_names generation in
                let '(response, w) := _make_placement_api_request w wr in
                let done := done ++ [(wr, response)] in
                match response with
                | Raises => {| returned := false; world := w; calls := done |}
                | Response status_code _ =>
                    if is_success status_code
                    then {| returned := true; world := w; calls := done |}
                    else if (status_code =? 409)%Z && (attempt <? MAX_RETRIES - 1)%nat
                    then retry_loop resource_provider_id trait_names later w done
                    else {| returned := false; world := w; calls := done |}
                end
            end
      end
  end.

Definition _set_resource_provider_traits (w : World) (resource_provider_id : string)
    (trait_names : list string) : run :=
  retry_loop resource_provider_id trait_names (seq 0 MAX_RETRIES) w [].

(** The service answers the calls of an exchange, in order, from state [w]. *)
Fixpoint serves (w : World) (exchange : list call) (w' : World) : Prop :=
  match exchange with
  | [] => w' = w
  | (rq, o) :: rest =>
      ∃ w1, _make_placement_api_request w rq = (o, w1) ∧ serves w1 rest w'
  end.

End Placement.

Arguments run : clear implicits.

(** The write attempts of an exchange. *)
Definition is_write (c : call) : bool :=
  match method c.1 with PUT => true | GET => false end.

Definition writes (exchange : list call) : list call := List.filter is_write exchange.

(** An exchange of reads and writes, [read] being the request of a read and
    [write g] that of a write with generation [g]: every write comes right
    behind a read that succeeded, and carries the generation this read
    returned (0 when the object has none). *)
Fixpoint reads_before_writes (read : api_request) (write : Z -> api_request)
    (exchange : list call) : bool :=
  match exchange with
  | [] => true
  | (rd, answer) :: rest =>
      bool_decide (rd = read) &&
      match rest with
      | [] => true
      | (wr, _) :: rest' =>
          match answer with
          | Response status_code (Provider g) =>
              is_success status_code
              && bool_decide (wr = write (default 0%Z g))
              && reads_before_writes read write rest'
          | _ => false
          end
      end
  end.

Definition found (status_code : Z) (g : option Z) : api_outcome :=
  Response status_code (Provider g).
Definition conflict (body : rp_body) : api_outcome := Response 409 body.

(** One attempt that gets as far as the write: the read answered with a
    generation, the write sent with it, and the answer to the write. *)
Definition attempt_calls (read : api_request) (write : Z -> api_request)
    (status_code : Z) (g : option Z) (answer : api_outcome) : list call :=
  [ (read, found status_code g); (write (default 0%Z g), answer) ].

(** The retries of a run: its write attempts behind the first. *)
Definition retries {World : Type} (r : run World) : nat :=
  length (writes (calls r)) - 1.

(** A service that plays a script, one outcome per request, as the mocks of
    the test suite do; its state is the number of requests it has seen. *)
Definition scripted (script : list api_outcome) (n : nat) (rq : api_request)
    : api_outcome * nat :=
  (nth n script Raises, S n).

(** ** [fetch_maas_data]

    The process environment is a finite map; [session.get] is the network.
    A run ends by returning the parsed body or by [sys.exit]; it leaves the
    lines written to standard error and the requests sent. *)

Record OAuth1 : Type := {
  client_key : string;
  client_secret : string;
  resource_owner_key : string;
  resource_owner_secret : string;
  signature_method : string;
  signature_type : string
}.

Record maas_get : Type := {
  url : string;
  auth : OAuth1;
  timeout : Z
}.

Inductive completion (A : Type) : Type :=
| Returns (a : A)
| SysExit (status : Z).
Arguments Returns {A} a.
Arguments SysExit {A} status.

Section Fetch.

Context {Json : Type}.

(** [response.json()]: the data, or a decode error with its text; newer
    versions of requests raise one that is a [RequestException] as well. *)
Inductive json_outcome : Type :=
| Parsed (data : Json)
| JSONDecodeError (is_request_exception : bool) (e : string).

Record maas_response : Type := {
  maas_status : Z;
  maas_status_text : string;
  maas_headers : string;
  maas_text : string;
  http_error : string;
  maas_json : json_outcome
}.

(** [session.get(...)]: a [RequestException] (with the response it carries,
    if any), or a response. *)
Inductive get_outcome : Type :=
| RequestException (e : string) (response : option maas_response)
| Answered (response : maas_response).

Record fetch_run : Type := {
  ended : completion Json;
  stderr : list string;
  requests : list maas_get
}.

Variable verbose : bool.
Variable log_prefix : string.

Definition log (message : string) : list string :=
  if verbose then [log_prefix +:+ " " +:+ message] else [].

(** The handler of [requests.exceptions.RequestException]. *)
Definition request_failed (before : list string) (rq : maas_get) (e : string)
    (response : option maas_response) : fetch_run :=
  {| ended := SysExit 1;
     stderr := before ++ ["Error: Failed to fetch MAAS data: " +:+ e] ++
       match response with
       | Some r =>
           if verbose
           then ["Response status: " +:+ maas_status_text r;
                 "Response body: " +:+ maas_text r]
           else []
       | None => []
       end;
     requests := [rq] |}.

Definition fetch_maas_data (environ : gmap string string)
    (session_get : maas_get -> get_outcome) : fetch_run :=
  let err := log "Fetching machine data from MAAS..." in
  let maas_url := environ !! "MAAS_URL" in
  let maas_api_key := environ !! "MAAS_API_KEY" in
  if Py.falsy maas_url || Py.falsy maas_api_key then
    {| ended := SysExit 1;
       stderr := err ++
         ["Error: MAAS_URL and MAAS_API_KEY environment variables must be set"];
       requests := [] |}
  else
    match Py.split ":" (default "" maas_api_key) with
    | [consumer_key; token_key; token_secret] =>
        let auth := {| client_key := consumer_key;
                       client_secret := "";
                       resource_owner_key := token_key;
                       resource_owner_secret := token_secret;
                       signature_method := "PLAINTEXT";
                       signature_type := "AUTH_HEADER" |} in
        let api_url := Py.rstrip "/" (default "" maas_url) +:+ "/api/2.0/machines/" in
        let rq := {| url := api_url; auth := auth; timeout := 30 |} in
        let err := err ++ log ("Making request to: " +:+ api_url) in
        match session_get rq with
        | RequestException e response => request_failed err rq e response
        | Answered response =>
            let err := err
              ++ log ("Response status: " +:+ maas_status_text response)
              ++ log ("Response headers: " +:+ maas_headers response)
              ++ (if bool_decide (maas_status response = 200%Z) then []
                  else log ("Response body: " +:+ maas_text response)) in
            if bool_decide (400 ≤ maas_status response < 600)%Z
            then request_failed err rq (http_error response) (Some response)
            else
              match maas_json response with
              | Parsed data =>
                  {| ended := Returns data;
                     stderr := err ++ log "Successfully fetched machine data";
                     requests := [rq] |}
              | JSONDecodeError true e => request_failed err rq e None
              | JSONDecodeError false e =>
                  {| ended := SysExit 1;
                     stderr := err ++ ["Error: Failed to parse MAAS JSON data: " +:+ e];
                     requests := [rq] |}
              end
        end
    | _ =>
        {| ended := SysExit 1;
           stderr := err ++
             ["Error: MAAS_API_KEY must be in format 'consumer_key:token_key:token_secret'"];
           requests := [] |}
    end.

End Fetch.

Arguments json_outcome : clear implicits.
Arguments maas_response : clear implicits.
Arguments get_outcome : clear implicits.
Arguments fetch_run : clear implicits.

(** ** More of the analyzer: trait names and machines in their callers *)

(** [re.compile(r"^CUSTOM_")], used with [match] only: at the start of the
    text. *)
Definition _CUSTOM_TRAIT_PATTERN : Py.pattern := fun s =>
  match Py.after_prefix "CUSTOM_" s with
  | Some _ => Some 7
  | None => None
  end.

(** [machine.get("hardware_info", {}).get("cpu_model", "")]. *)
Definition cpu_model_of (m : machine) : string :=
  default "" (cpu_model (default {| cpu_model := None |} (hardware_info m))).

(** [self._INTEL_AMD_PATTERN.search(cpu_model)] as a condition. *)
Definition has_vendor_text (cpu_model : string) : bool :=
  match Py.search _INTEL_AMD_PATTERN cpu_model with
  | Some _ => true
  | None => false
  end.

Definition has_vendor (m : machine) : bool := has_vendor_text (cpu_model_of m).

(** The set comprehension [trait_names] of [create_openstack_traits]. *)
Definition trait_names_of (filtered_machines : list machine) : gset string :=
  list_to_set
    ((fun m => generate_trait_name (Some (cpu_model_of m)))
       <$> List.filter has_vendor filtered_machines).

(** The loop that fills [deployed_machines] in
    [assign_cpu_traits_to_hypervisors]. *)
Definition deployed_machines_of (filtered_machines : list machine) : list machine :=
  List.filter
    (fun m => bool_decide (status_name m = Some "Deployed") && has_vendor m)
    filtered_machines.

(** ** The two tables

    What [print_machine_table] and [print_cpu_distribution] hand to
    [print_table]; the lines they print themselves are left out.  A cell is a
    [str] or [None]. *)

Definition machine_columns (should_create_openstack_traits : bool) : list string :=
  if should_create_openstack_traits
  then ["Hostname"; "Zone"; "Status"; "Vendor"; "CPU Model"; "OpenStack Trait"]
  else ["Hostname"; "Zone"; "Status"; "Vendor"; "CPU Model"].

Definition machine_row (should_create_openstack_traits : bool) (m : machine)
    : list (option string) :=
  let hostname := default "unknown" (hostname m) in
  let machine_zone :=
    default "unknown" (zone_name (default {| zone_name := None |} (zone m))) in
  let status := default "unknown" (status_name m) in
  let cpu_model := cpu_model_of m in
  let vendor := get_cpu_vendor (Some cpu_model) in
  if should_create_openstack_traits then
    let trait_name := generate_trait_name (Some cpu_model) in
    [Some hostname; Some machine_zone; Some status; vendor; Some cpu_model; Some trait_name]
  else [Some hostname; Some machine_zone; Some status; vendor; Some cpu_model].

(** [print_machine_table]: nothing but a message when no machine has a
    vendor model, else the columns and the rows. *)
Definition print_machine_table (should_create_openstack_traits : bool)
    (tags : list string) (machines : list machine) (zone : option string)
    (deployed_only : bool) : result (option (list string * list (list (option string)))) :=
  filtered_machines ← filter_machines machines zone deployed_only tags;
  let cpu_machines := List.filter has_vendor filtered_machines in
  match cpu_machines with
  | [] => Ok None
  | _ =>
      Ok (Some (machine_columns should_create_openstack_traits,
                machine_row should_create_openstack_traits <$> cpu_machines))
  end.

(** [Counter(cpu_models)]: the counts, in the order in which the models
    first occur. *)
Fixpoint counter_add (model : string) (counts : list (string * nat))
    : list (string * nat) :=
  match counts with
  | [] => [(model, 1)]
  | (k, n) :: rest =>
      if String.eqb k model then (k, S n) :: rest else (k, n) :: counter_add model rest
  end.

Definition Counter (cpu_models : list string) : list (string * nat) :=
  fold_left (fun counts model => counter_add model counts) cpu_models [].

(** [most_common()]: sorted by falling count; the sort is stable, so models
    with the same count keep the order of the counter. *)
Fixpoint insert_by_count (entry : string * nat) (sorted_models : list (string * nat))
    : list (string * nat) :=
  match sorted_models with
  | [] => [entry]
  | first :: rest =>
      if (first.2 <=? entry.2)%nat then entry :: first :: rest
      else first :: insert_by_count entry rest
  end.

Definition most_common (model_counts : list (string * nat)) : list (string * nat) :=
  fold_right insert_by_count [] model_counts.

(** [print_cpu_distribution]: nothing when no machine has a vendor model,
    else the title and the rows, a count (before [str]) and a model each. *)
Definition print_cpu_distribution (tags : list string) (machines : list machine)
    (zone : option string) (deployed_only : bool)
    : result (option (string * list (nat * string))) :=
  filtered_machines ← filter_machines machines zone deployed_only tags;
  let cpu_models := cpu_model_of <$> List.filter has_vendor filtered_machines in
  match cpu_models with
  | [] => Ok None
  | _ =>
      let sorted_models := most_common (Counter cpu_models) in
      let status_text :=
        if deployed_only then "Deployed Machines Only" else "All Machines" in
      let zone_text :=
        if negb (Py.falsy zone) then " in " +:+ default "" zone else " (All Zones)" in
      let title := "CPU Model Distribution (" +:+ status_text +:+ zone_text +:+ ")" in
      Ok (Some (title, (fun '(model, count) => (count, model)) <$> sorted_models))
  end.

(** ** The OpenStack client

    The identity, catalog, placement and compute calls of the analyzer.  The
    network is a state [World] with a step [session] that answers a request;
    the process environment is a finite map.  A method runs on the caches of
    the analyzer, the network and the list of the requests sent so far, and
    ends with a value or an exception.  [self.log] writes to standard error in
    verbose mode only and decides nothing; it is left out here.  The headers
    and the retry adapter that [_get_session] installs once for all requests
    belong to the transport and are left out as well. *)

Definition PLACEMENT_API_VERSION : string := "1.6".
Definition HTTP_TIMEOUT : Z := 30.

(** The JSON the analyzer posts to [/auth/tokens]. *)
Record auth_data : Type := {
  user_name : string;
  user_domain_name : string;
  user_password : string;
  project_name : string;
  project_domain_name : string
}.

Inductive payload : Type :=
| AuthData (a : auth_data)
| TraitsData (d : put_data).

Record http_request : Type := {
  rq_method : string;
  rq_url : string;
  rq_headers : list (string * string);
  rq_json : option payload;
  rq_timeout : Z
}.

(** The JSON objects of the answers, through the keys the analyzer reads.
    Every key may be absent; a key that is there holds a value of the kind
    the OpenStack APIs give it (a string, an integer, a list of strings, a
    list of objects).  [rp_other_keys] tells whether a provider has keys
    besides its name and its uuid: [not resource_provider] asks whether it
    has any key at all. *)
Record catalog_endpoint : Type := {
  ep_interface : option string;
  ep_url : option string
}.

Record catalog_service : Type := {
  svc_name : option string;
  svc_endpoints : option (list catalog_endpoint)
}.

Record resource_provider : Type := {
  rp_name : option string;
  rp_uuid : option string;
  rp_other_keys : bool
}.

Record hypervisor : Type := {
  hv_hypervisor_hostname : option string;
  hv_name : option string;
  hv_hostname : option string
}.

Record json_object : Type := {
  key_catalog : option (list catalog_service);
  key_traits : option (list string);
  key_resource_providers : option (list resource_provider);
  key_hypervisors : option (list hypervisor);
  key_generation : option Z
}.

(** [response.json()]: a decode error, a JSON value that is no object, or an
    object. *)
Inductive json_body : Type :=
| Undecodable
| NotAnObject
| Object (o : json_object).

Record http_response : Type := {
  http_status : Z;
  x_subject_token : option string;
  http_text : string;
  http_json : json_body
}.

(** The session raises (timeout, connection error, ...) or answers. *)
Inductive http_outcome : Type :=
| SessionRaises
| Answers (response : http_response).

Inductive py_exception : Type :=
| ValueError (message : string)
| SessionError
| JsonDecodeError
| NoSuchAttribute
| KeyError (key : string)
| PlainException (message : string).

Inductive outcome (A : Type) : Type :=
| Done (a : A)
| Raising (e : py_exception).
Arguments Done {A} a.
Arguments Raising {A} e.

(** The caches of [__init__].  [_service_catalog] holds the object of the
    catalog answer; the code stores an object only when it has the key
    [catalog] and reads nothing but that key, so the cache is kept as the
    list under the key. *)
Record analyzer : Type := {
  _auth_token : option string;
  _placement_endpoint : option string;
  _service_catalog : option (list catalog_service);
  _service_endpoints : gmap string string
}.

Definition new_analyzer : analyzer :=
  {| _auth_token := None;
     _placement_endpoint := None;
     _service_catalog := None;
     _service_endpoints := ∅ |}.

Definition set_auth_token (v : option string) (a : analyzer) : analyzer :=
  {| _auth_token := v;
     _placement_endpoint := _placement_endpoint a;
     _service_catalog := _service_catalog a;
     _service_endpoints := _service_endpoints a |}.

Definition set_placement_endpoint (v : option string) (a : analyzer) : analyzer :=
  {| _auth_token := _auth_token a;
     _placement_endpoint := v;
     _service_catalog := _service_catalog a;
     _service_endpoints := _service_endpoints a |}.

Definition set_service_catalog (v : option (list catalog_service)) (a : analyzer)
    : analyzer :=
  {| _auth_token := _auth_token a;
     _placement_endpoint := _placement_endpoint a;
     _service_catalog := v;
     _service_endpoints := _service_endpoints a |}.

Definition set_service_endpoint (k v : string) (a : analyzer) : analyzer :=
  {| _auth_token := _auth_token a;
     _placement_endpoint := _placement_endpoint a;
     _service_catalog := _service_catalog a;
     _service_endpoints := <[k := v]> (_service_endpoints a) |}.

(** The three lines both [_get_openstack_token] and [_get_service_catalog]
    start their request with: no slash at the end, and [/v3] if it is not
    there. *)
Definition with_v3 (auth_url : string) : string :=
  let auth_url := Py.rstrip "/" auth_url in
  if negb (Py.endswith "/v3" auth_url) then auth_url +:+ "/v3" else auth_url.

(** The two loops of [_get_service_endpoint]: the first endpoint of the
    interface that has a URL, through the services in order. *)
Fixpoint first_url (interface : string) (endpoints : list catalog_endpoint)
    : option string :=
  match endpoints with
  | [] => None
  | ep :: rest =>
      if bool_decide (ep_interface ep = Some interface) && negb (Py.falsy (ep_url ep))
      then ep_url ep
      else first_url interface rest
  end.

Fixpoint first_service_url (interface : string) (services : list catalog_service)
    : option string :=
  match services with
  | [] => None
  | service :: rest =>
      match first_url interface (default [] (svc_endpoints service)) with
      | Some u => Some u
      | None => first_service_url interface rest
      end
  end.

(** [check_openstack_environment]: what it prints to standard error and how
    it ends. *)
Definition required_vars : list string :=
  ["OS_AUTH_URL"; "OS_USERNAME"; "OS_PASSWORD"; "OS_PROJECT_NAME"].

Definition check_openstack_environment (environ : gmap string string)
    : completion unit * list string :=
  let missing_vars := List.filter (fun var => Py.falsy (environ !! var)) required_vars in
  match missing_vars with
  | [] => (Returns tt, [])
  | _ =>
      (SysExit 1,
       ["Error: Missing required OpenStack environment variables:"]
       ++ ((fun var => "  - " +:+ var) <$> missing_vars)
       ++ [LF +:+ "Please set the following environment variables for OpenStack operations:";
           "  export OS_AUTH_URL='http://your-openstack:5000/v3'";
           "  export OS_USERNAME='your-username'";
           "  export OS_PASSWORD='your-password'";
           "  export OS_PROJECT_NAME='your-project'"])
  end.

(** The keywords of [_create_trait]. *)
Definition already_exists_keywords : list string :=
  ["already exists"; "conflict"; "duplicate"; "409"].

(** [if self._CUSTOM_TRAIT_PATTERN.match(trait)]. *)
Definition is_custom (trait : string) : bool :=
  match Py.re_match _CUSTOM_TRAIT_PATTERN trait with Some _ => true | None => false end.

(** [a or b] on values that are [None] or a [str]. *)
Definition py_or (a b : option string) : option string :=
  if Py.falsy a then b else a.

(** [d[k] = v] on a [dict], which keeps its keys in the order of their first
    insertion. *)
Fixpoint dict_set {V : Type} (k : string) (v : V) (d : list (string * V))
    : list (string * V) :=
  match d with
  | [] => [(k, v)]
  | (k', v') :: rest =>
      if String.eqb k' k then (k', v) :: rest else (k', v') :: dict_set k v rest
  end.

(** [assign_cpu_traits_to_hypervisors]: the mapping of host name to
    hypervisor. *)
Definition hypervisor_map_of (hypervisors : list hypervisor) : list (string * hypervisor) :=
  fold_left
    (fun hypervisor_map hv =>
       let hv_hostname :=
         py_or (py_or (hv_hypervisor_hostname hv) (hv_name hv)) (hv_hostname hv) in
       if negb (Py.falsy hv_hostname)
       then dict_set (default "" hv_hostname) hv hypervisor_map
       else hypervisor_map)
    hypervisors [].

(** The loop that finds the hypervisor of a machine. *)
Fixpoint find_hypervisor (hostname : string) (hypervisor_map : list (string * hypervisor))
    : option hypervisor :=
  match hypervisor_map with
  | [] => None
  | (hv_hostname, hv) :: rest =>
      if String.eqb (Py.lower hostname) (Py.lower hv_hostname) then Some hv
      else find_hypervisor hostname rest
  end.

(** The loop that finds the resource provider of a hypervisor, with its four
    strategies. *)
Fixpoint find_resource_provider (hv_hostname : string)
    (resource_providers : list resource_provider) : option resource_provider :=
  match resource_providers with
  | [] => None
  | rp :: rest =>
      let hv_hostname_lower := Py.lower hv_hostname in
      let rp_name := default "" (rp_name rp) in
      let rp_name_lower := Py.lower rp_name in
      if String.eqb rp_name hv_hostname then Some rp
      else if String.eqb rp_name_lower hv_hostname_lower then Some rp
      else if Py.contains hv_hostname_lower rp_name_lower then Some rp
      else if Py.contains rp_name_lower hv_hostname_lower then Some rp
      else find_resource_provider hv_hostname rest
  end.

(** [not resource_provider] for a value that is [None] or a JSON object. *)
Definition no_provider (resource_provider : option resource_provider) : bool :=
  match resource_provider with
  | None => true
  | Some rp =>
      match rp_name rp, rp_uuid rp, rp_other_keys rp with
      | None, None, false => true
      | _, _, _ => false
      end
  end.

(** How the loop of [assign_cpu_traits_to_hypervisors] ends for a machine, by
    the line it prints. *)
Inductive assignment : Type :=
| TraitAdded
| TraitAlreadyExists
| HypervisorNotFound
| ResourceProviderNotFound
| FailedToAddTrait.

(** How the loop of [clear_openstack_traits] ends for a resource provider. *)
Inductive clearing : Type :=
| Skipped
| NoCustomTraits
| Cleared (count : nat)
| FailedToClear.

Definition method_name (m : http_method) : string :=
  match m with GET => "GET" | PUT => "PUT" end.

(** [sorted(names)] on strings: the order of the code points, a shorter
    string before its extensions. *)
Definition string_le (a b : string) : Prop := String.leb a b = true.

#[global] Instance string_le_dec : RelDecision string_le.
Proof. intros a b. unfold string_le. solve_decision. Defined.

Definition sorted (names : list string) : list string := merge_sort string_le names.

(** The counters of the three commands. *)
Record creation_counts : Type := {
  created_count : nat;
  already_existed_count : nat;
  creation_error_count : nat
}.

Record assignment_counts : Type := {
  added_count : nat;
  already_assigned_count : nat;
  not_found_count : nat;
  assignment_error_count : nat
}.

Record clearing_counts : Type := {
  cleared_count : nat;
  clearing_error_count : nat;
  deleted_count : nat;
  delete_error_count : nat
}.

(** How the three commands return. *)
Inductive creation_result : Type :=
| CreationNotRequested
| NoCpuModels
| TraitsCreated (counts : creation_counts).

Inductive assignment_result : Type :=
| AssignmentNotRequested
| NoDeployedMachines
| AssignmentNotConnected
| HypervisorsNotFetched
| TraitsAssigned (counts : assignment_counts).

Inductive clearing_result : Type :=
| ClearingNotConnected
| ProvidersNotFetched
| TraitsNotFetched
| TraitsCleared (counts : clearing_counts).

Section Client.

Context {World : Type}.
Variable environ : gmap string string.
Variable session : World -> http_request -> http_outcome * World.

Record session_state : Type := {
  self : analyzer;
  net : World;
  sent : list http_request
}.

Definition client (A : Type) : Type := session_state -> outcome A * session_state.

#[global] Instance client_ret : MRet client := fun A a st => (Done a, st).

#[global] Instance client_bind : MBind client := fun A B k m st =>
  match m st with
  | (Done a, st') => k a st'
  | (Raising e, st') => (Raising e, st')
  end.

Definition raise {A : Type} (e : py_exception) : client A := fun st => (Raising e, st).

(** [try: m except Exception as e: handler]. *)
Definition try_except {A : Type} (m : client A) (handler : py_exception -> client A)
    : client A := fun st =>
  match m st with
  | (Done a, st') => (Done a, st')
  | (Raising e, st') => handler e st'
  end.

Definition get_self : client analyzer := fun st => (Done (self st), st).

Definition update_self (f : analyzer -> analyzer) : client unit := fun st =>
  (Done tt, {| self := f (self st); net := net st; sent := sent st |}).

(** One call of the session. *)
Definition send (rq : http_request) : client http_response := fun st =>
  let '(o, w) := session (net st) rq in
  let st' := {| self := self st; net := w; sent := sent st ++ [rq] |} in
  match o with
  | SessionRaises => (Raising SessionError, st')
  | Answers response => (Done response, st')
  end.

(** [response.json()] and then [.get] on it. *)
Definition json_of (response : http_response) : client json_object :=
  match http_json response with
  | Undecodable => raise JsonDecodeError
  | NotAnObject => raise NoSuchAttribute
  | Object o => mret o
  end.

Definition _get_openstack_token : client (option string) :=
  me ← get_self;
  if negb (Py.falsy (_auth_token me)) then mret (_auth_token me)
  else
    let auth_url := environ !! "OS_AUTH_URL" in
    let username := environ !! "OS_USERNAME" in
    let password := environ !! "OS_PASSWORD" in
    let project := environ !! "OS_PROJECT_NAME" in
    let user_domain := default "Default" (environ !! "OS_USER_DOMAIN_NAME") in
    let project_domain := default "Default" (environ !! "OS_PROJECT_DOMAIN_NAME") in
    if negb (forallb (fun v => negb (Py.falsy v)) [auth_url; username; password; project])
    then raise (ValueError "Missing required OpenStack environment variables")
    else
      let data :=
        {| user_name := default "" username;
           user_domain_name := user_domain;
           user_password := default "" password;
           project_name := default "" project;
           project_domain_name := project_domain |} in
      try_except
        (let auth_endpoint := with_v3 (default "" auth_url) +:+ "/auth/tokens" in
         response ← send {| rq_method := "POST";
                            rq_url := auth_endpoint;
                            rq_headers := [];
                            rq_json := Some (AuthData data);
                            rq_timeout := HTTP_TIMEOUT |};
         if (http_status response =? 201)%Z then
           let token := x_subject_token response in
           if negb (Py.falsy token)
           then update_self (set_auth_token token);; mret token
           else mret None
         else mret None)
        (fun _ => mret None).

Definition _get_service_catalog : client (option (list catalog_service)) :=
  me ← get_self;
  match _service_catalog me with
  | Some catalog => mret (Some catalog)
  | None =>
      let auth_url := environ !! "OS_AUTH_URL" in
      if Py.falsy auth_url then mret None
      else
        token ← _get_openstack_token;
        if Py.falsy token then mret None
        else
          let catalog_url := with_v3 (default "" auth_url) +:+ "/auth/catalog" in
          try_except
            (response ← send {| rq_method := "GET";
                                rq_url := catalog_url;
                                rq_headers := [("X-Auth-Token", default "" token)];
                                rq_json := None;
                                rq_timeout := HTTP_TIMEOUT |};
             if (http_status response =? 200)%Z then
               match http_json response with
               | Object o =>
                   match key_catalog o with
                   | Some catalog =>
                       update_self (set_service_catalog (Some catalog));;
                       mret (Some catalog)
                   | None => mret None
                   end
               | _ => mret None
               end
             else if (http_status response =? 401)%Z then
               update_self (set_auth_token None);; mret None
             else mret None)
            (fun _ => mret None)
  end.

Definition _get_service_endpoint (service_name interface : string)
    : client (option string) :=
  let cache_key := service_name +:+ ":" +:+ interface in
  me ← get_self;
  match _service_endpoints me !! cache_key with
  | Some cached => mret (Some cached)
  | None =>
      catalog ← _get_service_catalog;
      match catalog with
      | None => mret None
      | Some services =>
          match services with
          | [] => mret None
          | _ =>
              let matching_services :=
                List.filter (fun service => bool_decide (svc_name service = Some service_name))
                  services in
              match first_service_url interface matching_services with
              | Some u =>
                  update_self (set_service_endpoint cache_key (Py.rstrip "/" u));;
                  mret (Some (Py.rstrip "/" u))
              | None => mret None
              end
          end
      end
  end.

Definition _get_placement_endpoint : client (option string) :=
  me ← get_self;
  if negb (Py.falsy (_placement_endpoint me)) then mret (_placement_endpoint me)
  else
    found_endpoint ← _get_service_endpoint "placement" "public";
    if negb (Py.falsy found_endpoint)
    then update_self (set_placement_endpoint found_endpoint);; mret found_endpoint
    else mret None.

Definition _make_placement_api_request (http_verb path : string) (json : option put_data)
    : client http_response :=
  placement_endpoint ← _get_placement_endpoint;
  if Py.falsy placement_endpoint
  then raise (ValueError "Could not determine placement service endpoint")
  else
    let full_url := default "" placement_endpoint +:+ path in
    auth_token ← _get_openstack_token;
    if Py.falsy auth_token
    then raise (ValueError "Could not obtain OpenStack authentication token")
    else
      send {| rq_method := http_verb;
              rq_url := full_url;
              rq_headers :=
                [("X-Auth-Token", default "" auth_token);
                 ("OpenStack-API-Version", "placement " +:+ PLACEMENT_API_VERSION)];
              rq_json := TraitsData <$> json;
              rq_timeout := HTTP_TIMEOUT |}.

Definition _check_openstack_connectivity : client bool :=
  try_except
    (token ← _get_openstack_token;
     if Py.falsy token then mret false
     else
       found_endpoint ← _get_placement_endpoint;
       if Py.falsy found_endpoint then mret false else mret true)
    (fun _ => mret false).

Definition _get_resource_provider_traits (resource_provider_id : string)
    : client (list string) :=
  try_except
    (response ← _make_placement_api_request "GET"
                  ("/resource_providers/" +:+ resource_provider_id +:+ "/traits") None;
     if is_success (http_status response) then
       current_traits_data ← json_of response;
       mret (default [] (key_traits current_traits_data))
     else mret [])
    (fun _ => mret []).

Definition _get_resource_providers : client (list resource_provider) :=
  try_except
    (response ← _make_placement_api_request "GET" "/resource_providers" None;
     if is_success (http_status response) then
       json ← json_of response;
       mret (default [] (key_resource_providers json))
     else mret [])
    (fun _ => mret []).

Definition _get_hypervisors : client (list hypervisor) :=
  nova_url ← _get_service_endpoint "nova" "public";
  if Py.falsy nova_url then mret []
  else
    token ← _get_openstack_token;
    if Py.falsy token then mret []
    else
      try_except
        (response ← send {| rq_method := "GET";
                            rq_url := default "" nova_url +:+ "/os-hypervisors";
                            rq_headers := [("X-Auth-Token", default "" token)];
                            rq_json := None;
                            rq_timeout := HTTP_TIMEOUT |};
         if (http_status response =? 200)%Z then
           json ← json_of response;
           mret (default [] (key_hypervisors json))
         else mret [])
        (fun _ => mret []).

Definition _create_trait (trait_name : string) : client (bool * string) :=
  try_except
    (response ← _make_placement_api_request "PUT" ("/traits/" +:+ trait_name) None;
     if (http_status response =? 201)%Z then mret (true, "created")
     else if (http_status response =? 204)%Z then mret (true, "already_exists")
     else if bool_decide (http_status response ∈ [200%Z]) then mret (true, "created")
     else
       let error_msg := Py.lower (http_text response) in
       if existsb (fun keyword => Py.contains keyword error_msg) already_exists_keywords
       then mret (true, "already_exists")
       else mret (false, "error"))
    (fun _ => mret (false, "error")).

(** [_make_placement_api_request] as the placement service that
    [_set_resource_provider_traits] runs on: an exception of any kind, or the
    status and what [.json()] and [.get("generation", 0)] read. *)
Definition placement_service (st : session_state) (rq : api_request)
    : api_outcome * session_state :=
  match _make_placement_api_request (method_name (method rq)) (endpoint rq) (data rq) st with
  | (Done response, st') =>
      (Response (http_status response)
         match http_json response with
         | Object o => Provider (key_generation o)
         | _ => Unreadable
         end,
       st')
  | (Raising _, st') => (Raises, st')
  end.

Definition set_resource_provider_traits (resource_provider_id : string)
    (trait_names : list string) : client bool := fun st =>
  let r := _set_resource_provider_traits placement_service st resource_provider_id
             trait_names in
  (Done (returned r), world r).

(** The body of [for machine in deployed_machines] of
    [assign_cpu_traits_to_hypervisors].  A hypervisor of the mapping has a
    name, so [not hypervisor] is true of [None] only. *)
Definition assign_trait (hypervisor_map : list (string * hypervisor)) (m : machine)
    : client assignment :=
  let hostname := default "" (hostname m) in
  let cpu_model := cpu_model_of m in
  let trait_name := generate_trait_name (Some cpu_model) in
  let hypervisor := find_hypervisor hostname hypervisor_map in
  match hypervisor with
  | None => mret HypervisorNotFound
  | Some hypervisor =>
      try_except
        (let hv_hostname :=
           default ""
             (py_or (py_or (hv_hypervisor_hostname hypervisor) (hv_name hypervisor))
                (Some hostname)) in
         resource_providers ← _get_resource_providers;
         let resource_provider := find_resource_provider hv_hostname resource_providers in
         if no_provider resource_provider then mret ResourceProviderNotFound
         else
           match resource_provider ≫= rp_uuid with
           | None => raise (KeyError "uuid")
           | Some uuid =>
               current_trait_names ← _get_resource_provider_traits uuid;
               if bool_decide (trait_name ∈ current_trait_names)
               then mret TraitAlreadyExists
               else
                 let new_trait_names := current_trait_names ++ [trait_name] in
                 success ← set_resource_provider_traits uuid new_trait_names;
                 if (success : bool) then mret TraitAdded
                 else raise (PlainException
                               ("Failed to set traits for resource provider " +:+ uuid))
           end)
        (fun _ => mret FailedToAddTrait)
  end.

(** The body of [for resource_provider in resource_providers] of
    [clear_openstack_traits]. *)
Definition clear_provider (resource_provider : resource_provider) : client clearing :=
  let rp_name := default "" (rp_name resource_provider) in
  let rp_uuid := default "" (rp_uuid resource_provider) in
  if Py.falsy (Some rp_name) || Py.falsy (Some rp_uuid) then mret Skipped
  else
    try_except
      (current_traits ← _get_resource_provider_traits rp_uuid;
       let custom_traits_on_rp := List.filter is_custom current_traits in
       match custom_traits_on_rp with
       | [] => mret NoCustomTraits
       | _ =>
           let non_custom_traits :=
             List.filter (fun trait => negb (is_custom trait)) current_traits in
           success ← set_resource_provider_traits rp_uuid non_custom_traits;
           if (success : bool) then mret (Cleared (length custom_traits_on_rp))
           else mret FailedToClear
       end)
      (fun _ => mret FailedToClear).

(** [create_openstack_traits]: the loop over the sorted names. *)
Fixpoint create_traits (trait_names : list string) (counts : creation_counts)
    : client creation_counts :=
  match trait_names with
  | [] => mret counts
  | trait_name :: rest =>
      counts ←
        try_except
          (created ← _create_trait trait_name;
           let '(success, status) := (created : bool * string) in
           if success then
             if String.eqb status "created" then
               mret {| created_count := created_count counts + 1;
                       already_existed_count := already_existed_count counts;
                       creation_error_count := creation_error_count counts |}
             else if String.eqb status "already_exists" then
               mret {| created_count := created_count counts;
                       already_existed_count := already_existed_count counts + 1;
                       creation_error_count := creation_error_count counts |}
             else mret counts
           else
             mret {| created_count := created_count counts;
                     already_existed_count := already_existed_count counts;
                     creation_error_count := creation_error_count counts + 1 |})
          (fun _ =>
             mret {| created_count := created_count counts;
                     already_existed_count := already_existed_count counts;
                     creation_error_count := creation_error_count counts + 1 |});
      create_traits rest counts
  end.

(** [create_openstack_traits], with the two attributes [run] sets before it
    calls the method.  What it prints is left out.  An exception of
    [filter_machines] goes through. *)
Definition create_openstack_traits (should_create_openstack_traits : bool)
    (tags : list string) (machines : list machine) (zone : option string)
    (deployed_only : bool) : client (result (completion creation_result)) :=
  if negb should_create_openstack_traits then mret (Ok (Returns CreationNotRequested))
  else
    match filter_machines machines zone deployed_only tags with
    | Raise e => mret (Raise e)
    | Ok filtered_machines =>
        let trait_names := trait_names_of filtered_machines in
        if bool_decide (trait_names = ∅) then mret (Ok (Returns NoCpuModels))
        else
          match (check_openstack_environment environ).1 with
          | SysExit status => mret (Ok (SysExit status))
          | Returns _ =>
              connected ← _check_openstack_connectivity;
              if negb connected then mret (Ok (SysExit 1))
              else
                counts ← create_traits (sorted (elements trait_names))
                           {| created_count := 0;
                              already_existed_count := 0;
                              creation_error_count := 0 |};
                mret (Ok (Returns (TraitsCreated counts)))
          end
    end.

(** [assign_cpu_traits_to_hypervisors]: the loop over the deployed
    machines. *)
Fixpoint assign_traits (hypervisor_map : list (string * hypervisor))
    (deployed_machines : list machine) (counts : assignment_counts)
    : client assignment_counts :=
  match deployed_machines with
  | [] => mret counts
  | m :: rest =>
      assigned ← assign_trait hypervisor_map m;
      assign_traits hypervisor_map rest
        match assigned with
        | TraitAdded =>
            {| added_count := added_count counts + 1;
               already_assigned_count := already_assigned_count counts;
               not_found_count := not_found_count counts;
               assignment_error_count := assignment_error_count counts |}
        | TraitAlreadyExists =>
            {| added_count := added_count counts;
               already_assigned_count := already_assigned_count counts + 1;
               not_found_count := not_found_count counts;
               assignment_error_count := assignment_error_count counts |}
        | HypervisorNotFound =>
            {| added_count := added_count counts;
               already_assigned_count := already_assigned_count counts;
               not_found_count := not_found_count counts + 1;
               assignment_error_count := assignment_error_count counts |}
        | ResourceProviderNotFound | FailedToAddTrait =>
            {| added_count := added_count counts;
               already_assigned_count := already_assigned_count counts;
               not_found_count := not_found_count counts;
               assignment_error_count := assignment_error_count counts + 1 |}
        end
  end.

Definition assign_cpu_traits_to_hypervisors (assign_traits_to_hypervisors : bool)
    (tags : list string) (machines : list machine) (zone : option string)
    (deployed_only : bool) : client (result (completion assignment_result)) :=
  if negb assign_traits_to_hypervisors then mret (Ok (Returns AssignmentNotRequested))
  else
    match filter_machines machines zone deployed_only tags with
    | Raise e => mret (Raise e)
    | Ok filtered_machines =>
        let deployed_machines := deployed_machines_of filtered_machines in
        match deployed_machines with
        | [] => mret (Ok (Returns NoDeployedMachines))
        | _ =>
            match (check_openstack_environment environ).1 with
            | SysExit status => mret (Ok (SysExit status))
            | Returns _ =>
                connected ← _check_openstack_connectivity;
                if negb connected then mret (Ok (Returns AssignmentNotConnected))
                else
                  fetched ← try_except
                              (hypervisors ← _get_hypervisors; mret (Some hypervisors))
                              (fun _ => mret None);
                  match fetched with
                  | None => mret (Ok (Returns HypervisorsNotFetched))
                  | Some hypervisors =>
                      counts ← assign_traits (hypervisor_map_of hypervisors)
                                 deployed_machines
                                 {| added_count := 0;
                                    already_assigned_count := 0;
                                    not_found_count := 0;
                                    assignment_error_count := 0 |};
                      mret (Ok (Returns (TraitsAssigned counts)))
                  end
            end
        end
    end.

(** [clear_openstack_traits]: the loop over the resource providers and the
    loop over the sorted CUSTOM traits. *)
Fixpoint clear_providers (resource_providers : list resource_provider)
    (counts : clearing_counts) : client clearing_counts :=
  match resource_providers with
  | [] => mret counts
  | resource_provider :: rest =>
      cleared ← clear_provider resource_provider;
      clear_providers rest
        match cleared with
        | Cleared _ =>
            {| cleared_count := cleared_count counts + 1;
               clearing_error_count := clearing_error_count counts;
               deleted_count := deleted_count counts;
               delete_error_count := delete_error_count counts |}
        | FailedToClear =>
            {| cleared_count := cleared_count counts;
               clearing_error_count := clearing_error_count counts + 1;
               deleted_count := deleted_count counts;
               delete_error_count := delete_error_count counts |}
        | Skipped | NoCustomTraits => counts
        end
  end.

Fixpoint delete_traits (trait_names : list string) (counts : clearing_counts)
    : client clearing_counts :=
  match trait_names with
  | [] => mret counts
  | trait_name :: rest =>
      counts ←
        try_except
          (response ← _make_placement_api_request "DELETE" ("/traits/" +:+ trait_name) None;
           if is_success (http_status response) then
             mret {| cleared_count := cleared_count counts;
                     clearing_error_count := clearing_error_count counts;
                     deleted_count := deleted_count counts + 1;
                     delete_error_count := delete_error_count counts |}
           else
             mret {| cleared_count := cleared_count counts;
                     clearing_error_count := clearing_error_count counts;
                     deleted_count := deleted_count counts;
                     delete_error_count := delete_error_count counts + 1 |})
          (fun _ =>
             mret {| cleared_count := cleared_count counts;
                     clearing_error_count := clearing_error_count counts;
                     deleted_count := deleted_count counts;
                     delete_error_count := delete_error_count counts + 1 |});
      delete_traits rest counts
  end.

Definition clear_openstack_traits : client (completion clearing_result) :=
  match (check_openstack_environment environ).1 with
  | SysExit status => mret (SysExit status)
  | Returns _ =>
      connected ← _check_openstack_connectivity;
      if negb connected then mret (Returns ClearingNotConnected)
      else
        listed ← try_except
                   (resource_providers ← _get_resource_providers;
                    mret (Some resource_providers))
                   (fun _ => mret None);
        match listed with
        | None => mret (Returns ProvidersNotFetched)
        | Some resource_providers =>
            fetched ←
              try_except
                (all_traits_response ← _make_placement_api_request "GET" "/traits" None;
                 if negb (is_success (http_status all_traits_response)) then mret None
                 else
                   json ← json_of all_traits_response;
                   let all_traits := default [] (key_traits json) in
                   mret (Some (List.filter is_custom all_traits)))
                (fun _ => mret None);
            match fetched with
            | None => mret (Returns TraitsNotFetched)
            | Some custom_traits =>
                counts ← clear_providers resource_providers
                           {| cleared_count := 0;
                              clearing_error_count := 0;
                              deleted_count := 0;
                              delete_error_count := 0 |};
                counts ← delete_traits (sorted custom_traits) counts;
                mret (Returns (TraitsCleared counts))
            end
        end
  end.

End Client.

Arguments session_state : clear implicits.
Arguments client : clear implicits.

(** A session that plays a script, one outcome per request, as the mocks of
    the test suite do; its state is the number of requests it has seen. *)
Definition scripted_session (script : list http_outcome) (n : nat) (rq : http_request)
    : http_outcome * nat :=
  (nth n script SessionRaises, S n).

(** The analyzer behind [__init__], on a network in state [w]. *)
Definition fresh {World : Type} (w : World) : session_state World :=
  {| self := new_analyzer; net := w; sent := [] |}.

(** The fixtures of the test suite. *)
Definition mock_environment_variables : gmap string string :=
  list_to_map
    [ ("MAAS_URL", "http://test-maas:5240/MAAS");
      ("MAAS_API_KEY", "test:key:secret");
      ("OS_AUTH_URL", "http://test-openstack:5000/v3");
      ("OS_USERNAME", "testuser");
      ("OS_PASSWORD", "testpass");
      ("OS_PROJECT_NAME", "testproject");
      ("OS_USER_DOMAIN_NAME", "Default");
      ("OS_PROJECT_DOMAIN_NAME", "Default") ].

Definition mock_service_catalog : list catalog_service :=
  [ {| svc_name := Some "placement";
       svc_endpoints :=
         Some [ {| ep_interface := Some "public";
                   ep_url := Some "http://test-openstack:8778" |} ] |};
    {| svc_name := Some "nova";
       svc_endpoints :=
         Some [ {| ep_interface := Some "public";
                   ep_url := Some "http://test-openstack:8774" |} ] |} ].

Definition empty_object : json_object :=
  {| key_catalog := None;
     key_traits := None;
     key_resource_providers := None;
     key_hypervisors := None;
     key_generation := None |}.

Definition mock_auth_response : http_response :=
  {| http_status := 201;
     x_subject_token := Some "test-token-12345";
     http_text := "";
     http_json := Object empty_object |}.

Definition mock_catalog_response : http_response :=
  {| http_status := 200;
     x_subject_token := None;
     http_text := "";
     http_json :=
       Object {| key_catalog := Some mock_service_catalog;
                 key_traits := None;
                 key_resource_providers := None;
                 key_hypervisors := None;
                 key_generation := None |} |}.

Definition mock_traits_response (trait_names : list string) : http_response :=
  {| http_status := 200;
     x_subject_token := None;
     http_text := "";
     http_json :=
       Object {| key_catalog := None;
                 key_traits := Some trait_names;
                 key_resource_providers := None;
                 key_hypervisors := None;
                 key_generation := None |} |}.

Definition mock_provider_response (generation : Z) : http_response :=
  {| http_status := 200;
     x_subject_token := None;
     http_text := "";
     http_json :=
       Object {| key_catalog := None;
                 key_traits := None;
                 key_resource_providers := None;
                 key_hypervisors := None;
                 key_generation := Some generation |} |}.

Definition mock_resource_providers_response : http_response :=
  {| http_status := 200;
     x_subject_token := None;
     http_text := "";
     http_json :=
       Object {| key_catalog := None;
                 key_traits := None;
                 key_resource_providers :=
                   Some [ {| rp_name := Some "test-machine-1";
                             rp_uuid := Some "12345678-1234-1234-1234-123456789abc";
                             rp_other_keys := true |} ];
                 key_hypervisors := None;
                 key_generation := None |} |}.

Definition mock_hypervisors_response : http_response :=
  {| http_status := 200;
     x_subject_token := None;
     http_text := "";
     http_json :=
       Object {| key_catalog := None;
                 key_traits := None;
                 key_resource_providers := None;
                 key_hypervisors :=
                   Some [ {| hv_hypervisor_hostname := Some "test-machine-1";
                             hv_name := Some "test-machine-1";
                             hv_hostname := None |} ];
                 key_generation := None |} |}.

Definition plain_response (status_code : Z) (text : string) : http_response :=
  {| http_status := status_code;
     x_subject_token := None;
     http_text := text;
     http_json := Undecodable |}.

(** An analyzer that has passed the connectivity check of the fixtures. *)
Definition connected {World : Type} (w : World) : session_state World :=
  {| self := {| _auth_token := Some "test-token-12345";
                _placement_endpoint := Some "http://test-openstack:8778";
                _service_catalog := Some mock_service_catalog;
                _service_endpoints :=
                  {[ "placement:public" := "http://test-openstack:8778" ]} |};
     net := w;
     sent := [] |}.

(** ** Auxiliary notions of the proofs *)

(** [s[n:]]. *)
Fixpoint drop_chars (n : nat) (s : string) : string :=
  match n, s with
  | S k, String _ r => drop_chars k r
  | _, _ => s
  end.

(** The underscores a text starts with, counted and removed. *)
Fixpoint leading_underscores (s : string) : nat :=
  match s with
  | String c r => if Ascii.eqb c "_" then S (leading_underscores r) else O
  | EmptyString => O
  end.

Fixpoint skip_underscores (s : string) : string :=
  match s with
  | String c r => if Ascii.eqb c "_" then skip_underscores r else s
  | EmptyString => EmptyString
  end.

(** The two formats of a tag list, as propositions. *)
Definition bare_strings (l : list tag) : Prop := ∀ t, t ∈ l → ∃ s, t = TagStr s.
Definition named_records (l : list tag) : Prop :=
  ∀ t, t ∈ l → ∃ s, t = TagDict (Some s).

(** A cleaned name: trait characters only, no underscore at either end and
    none doubled. *)
Definition tidy (s : string) : bool :=
  all_chars is_trait_char s
  && negb (leading_underscore s)
  && negb (trailing_underscore s)
  && negb (doubled_underscore s).

(** The first byte of a blank. *)
Definition starts_blank (c : ascii) : bool :=
  existsb (fun b => Py.startswith (String c "") b) Py.spaces.

(** An entry of the case table: a code point of two to four bytes, and an
    image that is not empty and holds no line feed. *)
Definition is_special_point (e : string * string) : bool :=
  match e.1 with
  | String a rest =>
      negb (Py.is_ascii a) && negb (Py.is_continuation a)
      && all_chars Py.is_continuation rest
  | EmptyString => false
  end
  && negb (String.eqb e.2 "")
  && all_chars (fun c => negb (Ascii.eqb c "010")) e.2.

(** A text that does not start inside a code point. *)
Definition at_boundary (s : string) : bool :=
  match s with
  | String c _ => negb (Py.is_continuation c)
  | EmptyString => true
  end.

(** A text of ASCII characters. *)
Definition ascii_text (s : string) : bool := all_chars Py.is_ascii s.

(** The texts a word of a pattern matches under [(?i)]. *)
Fixpoint spellings (p : string) : list string :=
  match p with
  | EmptyString => [EmptyString]
  | String a p' => x ← Py.ignorecase a; g ← spellings p'; [x +:+ g]
  end.

(** What the analyzer needs of a spelling of a vendor: it opens a code
    point and ends in a letter of ASCII; in ASCII it lowers and uppercases
    to the vendor; else it holds U+0130 or U+0131 for the i. *)
Definition vendor_spelling (vendor g : string) : bool :=
  at_boundary g
  && match last_char g with Some c => Py.is_ascii c | None => false end
  && (if ascii_text g
      then String.eqb (Py.lower g) vendor && String.eqb (Py.upper g) (Py.upper vendor)
      else String.eqb vendor "intel"
           && (String.eqb (Py.upper g) "INTEL" || String.eqb (Py.upper g) "İNTEL")).

(** A text that [str.upper] leaves as it is, whatever follows it: no small
    letter of ASCII, and from a byte beyond ASCII on the text neither
    starts with a code point of the case table nor starts one. *)
Fixpoint settled (x : string) : bool :=
  match x with
  | EmptyString => true
  | String c r =>
      (if Py.is_ascii c then Ascii.eqb (Py.upper_char c) c
       else forallb (fun e : string * string =>
                       negb (Py.startswith e.1 x) && negb (Py.startswith x e.1))
              Py.upper_images)
      && settled r
  end.

(** The capitals left of a vendor when it is cleaned. *)
Definition vendor_word (vendor : string) : string :=
  if String.eqb vendor "İNTEL" then "NTEL" else vendor.

(** The requests of the client, as the methods build them. *)
Definition token_post (environ : gmap string string) : http_request :=
  {| rq_method := "POST";
     rq_url := with_v3 (default "" (environ !! "OS_AUTH_URL")) +:+ "/auth/tokens";
     rq_headers := [];
     rq_json :=
       Some (AuthData
               {| user_name := default "" (environ !! "OS_USERNAME");
                  user_domain_name := default "Default" (environ !! "OS_USER_DOMAIN_NAME");
                  user_password := default "" (environ !! "OS_PASSWORD");
                  project_name := default "" (environ !! "OS_PROJECT_NAME");
                  project_domain_name :=
                    default "Default" (environ !! "OS_PROJECT_DOMAIN_NAME") |});
     rq_timeout := 30 |}.

Definition catalog_get (environ : gmap string string) (token : string) : http_request :=
  {| rq_method := "GET";
     rq_url := with_v3 (default "" (environ !! "OS_AUTH_URL")) +:+ "/auth/catalog";
     rq_headers := [("X-Auth-Token", token)];
     rq_json := None;
     rq_timeout := 30 |}.

Definition placement_request (placement_endpoint auth_token http_verb path : string)
    (json : option put_data) : http_request :=
  {| rq_method := http_verb;
     rq_url := placement_endpoint +:+ path;
     rq_headers := [("X-Auth-Token", auth_token);
                    ("OpenStack-API-Version", "placement 1.6")];
     rq_json := TraitsData <$> json;
     rq_timeout := 30 |}.

Definition hypervisors_get (nova_url token : string) : http_request :=
  {| rq_method := "GET";
     rq_url := nova_url +:+ "/os-hypervisors";
     rq_headers := [("X-Auth-Token", token)];
     rq_json := None;
     rq_timeout := 30 |}.

(** A request of the identity service: for a token, or for the catalog. *)
Definition identity_request (environ : gmap string string) (rq : http_request) : Prop :=
  rq = token_post environ ∨ ∃ token, rq = catalog_get environ token.

(** The four variables are set and not empty. *)
Definition configured (environ : gmap string string) : bool :=
  forallb (fun var => negb (Py.falsy (environ !! var))) required_vars.



(** A call of [_set_resource_provider_traits], as the request it is on a
    cached endpoint with a cached token. *)
Definition http_of_call (placement_endpoint auth_token : string) (rq : api_request)
    : http_request :=
  placement_request placement_endpoint auth_token (method_name (method rq)) (endpoint rq)
    (data rq).

(** What the placement service of [_set_resource_provider_traits] reads in an
    answer of the session. *)
Definition api_outcome_of (o : http_outcome) : api_outcome :=
  match o with
  | SessionRaises => Raises
  | Answers response =>
      Response (http_status response)
        match http_json response with
        | Object o => Provider (key_generation o)
        | _ => Unreadable
        end
  end.

(** A request that deletes nothing and carries no CUSTOM trait. *)
Definition harmless (rq : http_request) : Prop :=
  rq_method rq ≠ "DELETE"
  ∧ ∀ d t, rq_json rq = Some (TraitsData d) -> t ∈ traits d -> is_custom t = false.

(** The count of a model in a counter, 0 when it is not there. *)
Fixpoint counted (model : string) (counts : list (string * nat)) : nat :=
  match counts with
  | [] => 0
  | (k, n) :: rest => if String.eqb k model then n else counted model rest
  end.

Section ClientNotions.

Context {World : Type}.

(** What a method sends, from any state: requests that all satisfy [P]. *)
Definition emits {A : Type} (m : client World A) (P : http_request -> Prop) : Prop :=
  ∀ st, ∃ new, sent (m st).2 = sent st ++ new ∧ Forall P new.

(** A method that ends with a value, from any state. *)
Definition never_raises {A : Type} (m : client World A) : Prop :=
  ∀ st, ∃ a, (m st).1 = Done a.

Definition has_token (st : session_state World) : Prop :=
  Py.falsy (_auth_token (self st)) = false.

Definition has_endpoint (st : session_state World) : Prop :=
  Py.falsy (_placement_endpoint (self st)) = false.

Variable session : World -> http_request -> http_outcome * World.

(** The network after it has answered some requests, one after the other. *)
Definition net_after (w : World) (requests : list http_request) : World :=
  fold_left (fun w rq => (session w rq).2) requests w.


(** The state of a run behind some requests more, with the caches as they
    are. *)
Definition behind (st : session_state World) (requests : list http_request)
    : session_state World :=
  {| self := self st; net := net_after (net st) requests; sent := sent st ++ requests |}.


End ClientNotions.

(* ================================================================== *)
(** * Part II.  Properties                                              *)
(* ================================================================== *)

(** ** Characters *)

Ltac each_char c := destruct c as [[] [] [] [] [] [] [] []]; vm_compute; try done.

Lemma trait_char_upper c : is_trait_char c = true -> Py.upper_char c = c.
Proof. each_char c. Qed.

Lemma trait_char_ascii c : is_trait_char c = true -> Py.is_ascii c = true.
Proof. each_char c. Qed.

Lemma trait_char_cases c :
  is_trait_char c = true ->
  (Py.is_AZ c || Py.is_09 c = true ∧ Ascii.eqb c "_" = false)
  ∨ (c = "_"%char ∧ Py.is_AZ c || Py.is_09 c = false).
Proof. each_char c; intros _; auto. Qed.

(** ** Strings *)

Lemma append_cons c a b : String c a +:+ b = String c (a +:+ b).
Proof. reflexivity. Qed.

Lemma append_empty b : "" +:+ b = b.
Proof. reflexivity. Qed.

Lemma after_prefix_app p s t : Py.after_prefix p s = Some t -> s = p +:+ t.
Proof.
  revert s; induction p as [|a p IH]; intros s; simpl.
  - intros [= ->]. reflexivity.
  - destruct s as [|b s]; [discriminate|].
    destruct (Ascii.eqb a b) eqn:E; [|discriminate].
    apply Ascii.eqb_eq in E as ->. intros H. rewrite append_cons. f_equal. auto.
Qed.

Lemma at_dollar_cases t : Py.at_dollar t = true -> t = "" ∨ t = LF.
Proof.
  destruct t as [|c [|d t]]; simpl; auto; try discriminate.
  intros H. apply Ascii.eqb_eq in H as ->. auto.
Qed.

Lemma string_length_app a b : String.length (a +:+ b) = String.length a + String.length b.
Proof.
  induction a as [|c a IH]; [reflexivity|].
  rewrite append_cons. cbn [String.length]. rewrite IH. reflexivity.
Qed.

Lemma drop_chars_app a b : drop_chars (String.length a) (a +:+ b) = b.
Proof. induction a as [|c a IH]; [by destruct b|exact IH]. Qed.

Lemma drop_chars_add n k s : drop_chars (n + k) s = drop_chars k (drop_chars n s).
Proof.
  revert s; induction n as [|n IH]; intros s; [by destruct s, k|].
  destruct s as [|c r]; [by destruct k|]. apply IH.
Qed.

(** Induction on a text by way of its shorter texts. *)
Lemma shorter_ind (P : string -> Prop) :
  (∀ s, (∀ t, String.length t < String.length s -> P t) -> P s) -> ∀ s, P s.
Proof.
  intros H s. remember (String.length s) as n eqn:E.
  revert s E. induction n as [n IH] using lt_wf_ind. intros s ->.
  apply H. intros t Ht. exact (IH _ Ht t eq_refl).
Qed.

(** ** Blanks *)

Lemma after_any_some prefixes s p t :
  Py.after_any prefixes s = Some (p, t) -> p ∈ prefixes ∧ s = p +:+ t.
Proof.
  induction prefixes as [|q others IH]; [discriminate|]. cbn [Py.after_any].
  destruct (Py.after_prefix q s) as [u|] eqn:E.
  - intros [= <- <-]. split; [left|]. by apply after_prefix_app.
  - intros [H ->]%IH. split; [by right|reflexivity].
Qed.

Lemma after_any_none prefixes s p :
  Py.after_any prefixes s = None -> p ∈ prefixes -> Py.after_prefix p s = None.
Proof.
  induction prefixes as [|q others IH]; [intros _ H; inversion H|]. cbn [Py.after_any].
  destruct (Py.after_prefix q s) as [u|] eqn:E; [discriminate|].
  intros H [-> | Hp]%elem_of_cons; auto.
Qed.

Lemma blank_widths : Forall (fun b => 1 ≤ String.length b ≤ 3) Py.spaces.
Proof. repeat constructor. Qed.

Lemma after_space_found s t :
  Py.after_space s = Some t ->
  ∃ b, Py.after_any Py.spaces s = Some (b, t) ∧ b ∈ Py.spaces ∧ s = b +:+ t
       ∧ Py.space_width s = String.length b ∧ 1 ≤ String.length b ≤ 3.
Proof.
  unfold Py.after_space, Py.space_width.
  destruct (Py.after_any Py.spaces s) as [[b u]|] eqn:E; [|discriminate].
  intros [= <-]. destruct (after_any_some _ _ _ _ E) as [Hb ->].
  exists b. repeat split; auto; pose proof blank_widths as W;
    rewrite Forall_forall in W; apply (W b Hb).
Qed.

Lemma after_space_none s : Py.after_space s = None -> Py.space_width s = 0.
Proof.
  unfold Py.after_space, Py.space_width.
  by destruct (Py.after_any Py.spaces s) as [[b u]|].
Qed.

Lemma after_space_shorter s t :
  Py.after_space s = Some t -> String.length t < String.length s.
Proof.
  intros (b & _ & _ & -> & _ & L)%after_space_found. rewrite string_length_app. lia.
Qed.

Lemma after_space_drop s t :
  Py.after_space s = Some t -> t = drop_chars (Py.space_width s) s.
Proof.
  intros (b & _ & _ & -> & -> & _)%after_space_found. by rewrite drop_chars_app.
Qed.

Lemma after_space_start c r t :
  Py.after_space (String c r) = Some t -> starts_blank c = true.
Proof.
  intros (b & _ & Hb & E & _ & L)%after_space_found.
  destruct b as [|d b]; [cbn in L; lia|]. injection E as <- _.
  unfold starts_blank. apply existsb_exists. exists (String c b).
  split; [by apply list_elem_of_In|].
  unfold Py.startswith. cbn. by rewrite Ascii.eqb_refl.
Qed.

Lemma starts_blank_special c :
  starts_blank c = true ->
  is_trait_char c = false ∧ Py.is_continuation c = false
  ∧ Py.is_AZ c || Py.is_09 c = false.
Proof. each_char c. Qed.

(** The three texts a blank of one, two, three bytes leaves. *)
Lemma skip_blanks_step s :
  skip_blanks s = match Py.after_space s with
                  | Some t => skip_blanks t
                  | None => s
                  end.
Proof.
  destruct (Py.after_space s) as [t|] eqn:E.
  - destruct (after_space_found _ _ E) as (b & _ & _ & -> & W & L).
    destruct b as [|b1 [|b2 [|b3 [|b4 b]]]]; cbn in L; try lia;
      rewrite ?append_cons, ?append_empty in *; cbn [String.length] in W;
      cbn [skip_blanks]; rewrite W; reflexivity.
  - destruct s as [|c r]; [reflexivity|]. cbn [skip_blanks].
    rewrite (after_space_none _ E). reflexivity.
Qed.

Lemma cpu_processor_step s :
  _CPU_PROCESSOR_PATTERN s
  = match Py.after_space s with
    | Some t => spaces_then (Py.space_width s) t (_CPU_PROCESSOR_PATTERN t)
    | None => None
    end.
Proof.
  destruct (Py.after_space s) as [t|] eqn:E.
  - destruct (after_space_found _ _ E) as (b & _ & _ & -> & W & L).
    destruct b as [|b1 [|b2 [|b3 [|b4 b]]]]; cbn in L; try lia;
      rewrite ?append_cons, ?append_empty in *; cbn [String.length] in W;
      cbn [_CPU_PROCESSOR_PATTERN]; rewrite W; reflexivity.
  - destruct s as [|c r]; [reflexivity|]. cbn [_CPU_PROCESSOR_PATTERN].
    rewrite (after_space_none _ E). reflexivity.
Qed.

(** ** Substitution skips the rest of a match *)

Lemma sub_from_skip p repl k s :
  Py.sub_from p repl k s = Py.sub_from p repl 0 (drop_chars k s).
Proof.
  revert s; induction k as [|k IH]; intros s.
  - destruct s; reflexivity.
  - destruct s as [|c r]; [reflexivity|]. simpl. apply IH.
Qed.

(** ** The three substitutions of [generate_trait_name], each as a plain
       function on the text *)

Lemma width_cons c r : ∃ k, Py.width (String c r) = S k ∧ Py.width (String c r) - 1 = k.
Proof.
  cbn [Py.width]. destruct (Py.continued _ r); eexists; split; try reflexivity;
    cbn; lia.
Qed.

Lemma sub_special_chars s :
  Py.sub _SPECIAL_CHARS_PATTERN "_" s = replace_specials s.
Proof.
  unfold Py.sub, replace_specials. generalize 0 as k.
  induction s as [|c r IH]; intros k; [reflexivity|].
  cbn [Py.sub_from replace_specials_from]. destruct k as [|k]; [|apply IH].
  unfold _SPECIAL_CHARS_PATTERN at 1.
  destruct (Py.is_AZ c || Py.is_09 c); [by rewrite IH|].
  destruct (width_cons c r) as (k & -> & ->). by rewrite IH.
Qed.

Lemma underscores_match s :
  _MULTIPLE_UNDERSCORES_PATTERN s =
  match leading_underscores s with O => None | n => Some n end.
Proof.
  induction s as [|c r IH]; [reflexivity|]. simpl.
  destruct (Ascii.eqb c "_"); [|reflexivity].
  rewrite IH. destruct (leading_underscores r); reflexivity.
Qed.

Lemma drop_leading_underscores s :
  drop_chars (leading_underscores s) s = skip_underscores s.
Proof.
  induction s as [|c r IH]; [reflexivity|]. simpl.
  destruct (Ascii.eqb c "_"); [exact IH|reflexivity].
Qed.

Lemma collapse_run r :
  collapse_underscores (String "_" r) =
  String "_" (collapse_underscores (skip_underscores r)).
Proof.
  induction r as [|d r IH]; [reflexivity|].
  change (collapse_underscores (String "_" (String d r)))
    with (if Ascii.eqb "_" "_" && Ascii.eqb d "_"
          then collapse_underscores (String d r)
          else String "_" (collapse_underscores (String d r))).
  simpl skip_underscores. destruct (Ascii.eqb d "_") eqn:E.
  - apply Ascii.eqb_eq in E as ->. simpl andb. cbv iota. exact IH.
  - reflexivity.
Qed.

Lemma collapse_other c r :
  Ascii.eqb c "_" = false ->
  collapse_underscores (String c r) = String c (collapse_underscores r).
Proof.
  intros E. destruct r as [|d r]; [reflexivity|].
  change (collapse_underscores (String c (String d r)))
    with (if Ascii.eqb c "_" && Ascii.eqb d "_"
          then collapse_underscores (String d r)
          else String c (collapse_underscores (String d r))).
  rewrite E. reflexivity.
Qed.

Lemma sub_multiple_underscores s :
  Py.sub _MULTIPLE_UNDERSCORES_PATTERN "_" s = collapse_underscores s.
Proof.
  unfold Py.sub.
  enough (Py.sub_from _MULTIPLE_UNDERSCORES_PATTERN "_" 0 s = collapse_underscores s
          ∧ Py.sub_from _MULTIPLE_UNDERSCORES_PATTERN "_" 0 (skip_underscores s)
            = collapse_underscores (skip_underscores s)) by tauto.
  induction s as [|c r [IH1 IH2]]; [split; reflexivity|].
  assert (H1 : Py.sub_from _MULTIPLE_UNDERSCORES_PATTERN "_" 0 (String c r)
               = collapse_underscores (String c r)).
  { cbn [Py.sub_from]. rewrite underscores_match. cbn [leading_underscores].
    destruct (Ascii.eqb c "_") eqn:E.
    - apply Ascii.eqb_eq in E as ->. rewrite sub_from_skip, drop_leading_underscores.
      rewrite IH2, collapse_run. reflexivity.
    - rewrite IH1, collapse_other by exact E. reflexivity. }
  split; [exact H1|].
  cbn [skip_underscores]. destruct (Ascii.eqb c "_"); [exact IH2|exact H1].
Qed.

(** The words behind which step two fires, and what the matcher finds there. *)
Lemma behind_token_cases t rest :
  behind_token t = Some rest ->
  (t = "CPU" ∧ rest = "") ∨ (t = "PROCESSOR" ∧ rest = "")
  ∨ (t = "CPU" +:+ LF ∧ rest = LF) ∨ (t = "PROCESSOR" +:+ LF ∧ rest = LF).
Proof.
  unfold behind_token, is_token.
  destruct (String.eqb t "CPU") eqn:E1.
  { apply String.eqb_eq in E1. intros [= <-]. auto. }
  destruct (String.eqb t "PROCESSOR") eqn:E2.
  { apply String.eqb_eq in E2. intros [= <-]. auto. }
  destruct (String.eqb t ("CPU" +:+ LF)) eqn:E3.
  { apply String.eqb_eq in E3. intros [= <-]. auto. }
  destruct (String.eqb t ("PROCESSOR" +:+ LF)) eqn:E4.
  { apply String.eqb_eq in E4. intros [= <-]. auto 6. }
  discriminate.
Qed.

Lemma word_then_dollar_cases w s n :
  word_then_dollar w s = Some n ->
  n = String.length w ∧ (s = w ∨ s = w +:+ LF).
Proof.
  unfold word_then_dollar. destruct (Py.after_prefix w s) as [t|] eqn:E; [|discriminate].
  destruct (Py.at_dollar t) eqn:D; [|discriminate]. intros [= <-].
  apply after_prefix_app in E. apply at_dollar_cases in D as [-> | ->]; subst s.
  - split; [reflexivity|left]. clear. induction w; [reflexivity|].
    rewrite append_cons. f_equal. assumption.
  - auto.
Qed.

Lemma word_at_dollar_spec s :
  match word_at_dollar s with
  | Some n => behind_token s = Some (drop_chars n s)
  | None => behind_token s = None
  end.
Proof.
  destruct (word_at_dollar s) as [n|] eqn:W.
  - unfold word_at_dollar in W.
    destruct (word_then_dollar "CPU" s) as [k|] eqn:W1.
    + injection W as <-. apply word_then_dollar_cases in W1 as [-> [-> | ->]]; reflexivity.
    + apply word_then_dollar_cases in W as [-> [-> | ->]]; reflexivity.
  - destruct (behind_token s) as [rest|] eqn:B; [|reflexivity].
    apply behind_token_cases in B as [[-> _] | [[-> _] | [[-> _] | [-> _]]]];
      vm_compute in W; discriminate.
Qed.

Lemma word_at_dollar_blank s t :
  Py.after_space s = Some t -> word_at_dollar s = None.
Proof.
  destruct s as [|c r]; [discriminate|].
  intros B%after_space_start. unfold word_at_dollar, word_then_dollar.
  cbn [Py.after_prefix].
  destruct (Ascii.eqb "C" c) eqn:E1.
  { apply Ascii.eqb_eq in E1 as <-. discriminate B. }
  destruct (Ascii.eqb "P" c) eqn:E2.
  { apply Ascii.eqb_eq in E2 as <-. discriminate B. }
  reflexivity.
Qed.

(** At a blank, the matcher of [\s+(CPU|PROCESSOR)$] succeeds exactly when the
    token, and then the end, stand behind the blanks. *)
Lemma cpu_processor_match s : ∀ t,
  Py.after_space s = Some t ->
  match _CPU_PROCESSOR_PATTERN s with
  | Some n => 0 < n ∧ behind_token (skip_blanks t) = Some (drop_chars n s)
  | None => behind_token (skip_blanks t) = None
  end.
Proof.
  induction s as [s IH] using shorter_ind. intros t E.
  rewrite cpu_processor_step, E.
  destruct (after_space_found _ _ E) as (b & _ & _ & Es & W & L).
  assert (D : ∀ n, drop_chars (Py.space_width s + n) s = drop_chars n t).
  { intros n. rewrite drop_chars_add, W, Es, drop_chars_app. reflexivity. }
  rewrite skip_blanks_step. destruct (Py.after_space t) as [t'|] eqn:E'.
  - specialize (IH t (after_space_shorter _ _ E) t' E').
    destruct (_CPU_PROCESSOR_PATTERN t) as [n|]; cbn [spaces_then].
    + rewrite D. split; [lia|apply IH].
    + rewrite (word_at_dollar_blank _ _ E'). exact IH.
  - rewrite (cpu_processor_step t), E'. cbn [spaces_then].
    pose proof (word_at_dollar_spec t) as Wd.
    destruct (word_at_dollar t) as [n|]; cbn [option_map]; [|exact Wd].
    rewrite D. split; [lia|exact Wd].
Qed.

Lemma cpu_processor_no_match s :
  Py.after_space s = None -> _CPU_PROCESSOR_PATTERN s = None.
Proof. intros E. by rewrite cpu_processor_step, E. Qed.

Lemma sub_cpu_processor s :
  Py.sub _CPU_PROCESSOR_PATTERN "" s = strip_token_before_end s.
Proof.
  unfold Py.sub. induction s as [|c r IH]; [reflexivity|].
  cbn [Py.sub_from strip_token_before_end].
  destruct (Py.after_space (String c r)) as [t|] eqn:B.
  - pose proof (cpu_processor_match _ t B) as M.
    destruct (_CPU_PROCESSOR_PATTERN (String c r)) as [[|k]|].
    + destruct M as [M _]. lia.
    + destruct M as [_ M]. rewrite M, append_empty, sub_from_skip.
      change (drop_chars (S k) (String c r)) with (drop_chars k r) in *.
      apply behind_token_cases in M as [[_ ->] | [[_ ->] | [[_ ->] | [_ ->]]]];
        reflexivity.
    + rewrite M, IH. reflexivity.
  - rewrite cpu_processor_no_match by exact B. rewrite IH. reflexivity.
Qed.

(** The method is the chain of the plain steps. *)
Lemma generate_trait_name_steps s :
  generate_trait_name (Some s) = spec_trait_name_by_steps strip_token_before_end s.
Proof.
  destruct s as [|c r]; [reflexivity|].
  unfold generate_trait_name, spec_trait_name_by_steps, spec_clean_by_steps, vendor_prefix.
  cbn [Py.falsy default from_option id].
  rewrite sub_cpu_processor, sub_special_chars, sub_multiple_underscores.
  cbv zeta.
  destruct (Py.contains "INTEL" _); [reflexivity|].
  destruct (Py.contains "AMD" _); reflexivity.
Qed.

(** ** The shape of a cleaned name *)

Lemma contains_doubled c r :
  doubled_underscore (String c r) =
  (Ascii.eqb c "_" && leading_underscore r) || doubled_underscore r.
Proof.
  unfold doubled_underscore, leading_underscore. cbn [Py.contains]. f_equal.
  unfold Py.startswith. cbn [Py.after_prefix]. rewrite (Ascii.eqb_sym "_" c).
  destruct (Ascii.eqb c "_"); reflexivity.
Qed.

Lemma leading_underscore_cons c r : leading_underscore (String c r) = Ascii.eqb c "_".
Proof.
  unfold leading_underscore, Py.startswith. cbn [Py.after_prefix].
  rewrite (Ascii.eqb_sym "_" c). destruct (Ascii.eqb c "_"); reflexivity.
Qed.

Lemma collapse_cases c r :
  collapse_underscores (String c r) = collapse_underscores r
  ∨ collapse_underscores (String c r) = String c (collapse_underscores r).
Proof.
  destruct r as [|d r]; [right; reflexivity|]. cbn [collapse_underscores].
  destruct (Ascii.eqb c "_" && Ascii.eqb d "_"); auto.
Qed.

Lemma all_chars_replace s : all_chars is_trait_char (replace_specials s) = true.
Proof.
  unfold replace_specials. generalize 0 as k.
  induction s as [|c r IH]; intros k; [reflexivity|]. cbn [replace_specials_from].
  destruct k as [|k]; [|apply IH].
  destruct (Py.is_AZ c || Py.is_09 c) eqn:E; cbn [all_chars]; rewrite IH;
    [|reflexivity].
  unfold is_trait_char. rewrite E. reflexivity.
Qed.

Lemma all_chars_collapse P s :
  all_chars P s = true -> all_chars P (collapse_underscores s) = true.
Proof.
  induction s as [|c r IH]; [done|]. cbn [all_chars]. intros [Hc Hr]%andb_prop.
  destruct (collapse_cases c r) as [-> | ->]; [auto|].
  cbn [all_chars]. rewrite Hc. auto.
Qed.

Lemma lstrip_underscores s : Py.lstrip "_" s = skip_underscores s.
Proof.
  induction s as [|c r IH]; [reflexivity|]. cbn [Py.lstrip skip_underscores Py.char_in].
  rewrite orb_false_r, IH. reflexivity.
Qed.

Lemma all_chars_skip P s :
  all_chars P s = true -> all_chars P (skip_underscores s) = true.
Proof.
  induction s as [|c r IH]; [done|]. cbn [all_chars skip_underscores].
  intros H. destruct (Ascii.eqb c "_"); [|exact H].
  apply andb_prop in H as [_ H]. auto.
Qed.

Lemma rstrip_cons chars c r :
  Py.rstrip chars (String c r) =
  match Py.rstrip chars r with
  | EmptyString => if Py.char_in c chars then EmptyString else String c EmptyString
  | r' => String c r'
  end.
Proof. reflexivity. Qed.

Lemma all_chars_rstrip P chars s :
  all_chars P s = true -> all_chars P (Py.rstrip chars s) = true.
Proof.
  induction s as [|c r IH]; [done|]. cbn [all_chars]. intros [Hc Hr]%andb_prop.
  rewrite rstrip_cons. specialize (IH Hr).
  destruct (Py.rstrip chars r) as [|d t].
  - destruct (Py.char_in c chars); [reflexivity|]. cbn [all_chars]. rewrite Hc. reflexivity.
  - cbn [all_chars] in *. rewrite Hc. exact IH.
Qed.

Lemma leading_skip s : leading_underscore (skip_underscores s) = false.
Proof.
  induction s as [|c r IH]; [reflexivity|]. cbn [skip_underscores].
  destruct (Ascii.eqb c "_") eqn:E; [exact IH|].
  rewrite leading_underscore_cons. exact E.
Qed.

Lemma leading_collapse s :
  leading_underscore (collapse_underscores s) = leading_underscore s.
Proof.
  destruct s as [|c r]; [reflexivity|]. destruct (Ascii.eqb c "_") eqn:E.
  - apply Ascii.eqb_eq in E as ->. rewrite collapse_run. reflexivity.
  - rewrite collapse_other by exact E. rewrite !leading_underscore_cons. reflexivity.
Qed.

Lemma doubled_collapse s : doubled_underscore (collapse_underscores s) = false.
Proof.
  enough (doubled_underscore (collapse_underscores s) = false
          ∧ doubled_underscore (collapse_underscores (skip_underscores s)) = false)
    by tauto.
  induction s as [|c r [IH1 IH2]]; [split; reflexivity|].
  assert (H1 : doubled_underscore (collapse_underscores (String c r)) = false).
  { destruct (Ascii.eqb c "_") eqn:E.
    - apply Ascii.eqb_eq in E as ->. rewrite collapse_run, contains_doubled.
      rewrite leading_collapse, leading_skip, IH2. reflexivity.
    - rewrite collapse_other by exact E. rewrite contains_doubled, E, IH1. reflexivity. }
  split; [exact H1|]. cbn [skip_underscores].
  destruct (Ascii.eqb c "_"); [exact IH2|exact H1].
Qed.

Lemma doubled_tail c r :
  doubled_underscore (String c r) = false -> doubled_underscore r = false.
Proof. rewrite contains_doubled. intros H. apply orb_false_elim in H. tauto. Qed.

Lemma doubled_skip s :
  doubled_underscore s = false -> doubled_underscore (skip_underscores s) = false.
Proof.
  induction s as [|c r IH]; [done|]. cbn [skip_underscores]. intros H.
  destruct (Ascii.eqb c "_"); [|exact H]. apply IH. exact (doubled_tail _ _ H).
Qed.

Lemma rstrip_head chars s d t :
  Py.rstrip chars s = String d t -> ∃ t', s = String d t'.
Proof.
  destruct s as [|c r]; [discriminate|]. rewrite rstrip_cons.
  destruct (Py.rstrip chars r); [destruct (Py.char_in c chars)|];
    intros [= -> _] || discriminate; eauto.
Qed.

Lemma leading_rstrip chars s :
  leading_underscore s = false -> leading_underscore (Py.rstrip chars s) = false.
Proof.
  intros H. destruct (Py.rstrip chars s) as [|d t] eqn:E; [reflexivity|].
  apply rstrip_head in E as [t' ->]. rewrite leading_underscore_cons in *. exact H.
Qed.

Lemma doubled_rstrip chars s :
  doubled_underscore s = false -> doubled_underscore (Py.rstrip chars s) = false.
Proof.
  induction s as [|c r IH]; [done|]. intros H. rewrite rstrip_cons.
  rewrite contains_doubled in H. apply orb_false_elim in H as [H1 H2].
  specialize (IH H2). destruct (Py.rstrip chars r) as [|d t] eqn:E.
  - destruct (Py.char_in c chars); [reflexivity|].
    rewrite contains_doubled, andb_false_r. reflexivity.
  - rewrite contains_doubled, IH, orb_false_r.
    destruct (Ascii.eqb c "_"); [|reflexivity]. cbn [andb] in *.
    rewrite <- E. apply leading_rstrip. exact H1.
Qed.

Lemma trailing_rstrip s : trailing_underscore (Py.rstrip "_" s) = false.
Proof.
  unfold trailing_underscore. apply bool_decide_eq_false.
  induction s as [|c r IH]; [discriminate|]. rewrite rstrip_cons.
  destruct (Py.rstrip "_" r) as [|d t].
  - cbn [Py.char_in]. rewrite orb_false_r.
    destruct (Ascii.eqb c "_") eqn:E; [discriminate|].
    cbn [last_char]. intros [= ->]. discriminate E.
  - exact IH.
Qed.

(** What the four cleaning steps leave is tidy, whatever they start from. *)
Lemma cleaned_is_tidy s :
  tidy (Py.strip "_" (collapse_underscores (replace_specials s))) = true.
Proof.
  unfold tidy, Py.strip. rewrite lstrip_underscores.
  rewrite all_chars_rstrip
    by (apply all_chars_skip, all_chars_collapse, all_chars_replace).
  rewrite leading_rstrip by apply leading_skip.
  rewrite trailing_rstrip.
  rewrite doubled_rstrip by (apply doubled_skip, doubled_collapse).
  reflexivity.
Qed.

(** ** A prefix in front of a tidy name *)

Lemma all_chars_app P a b :
  all_chars P (a +:+ b) = all_chars P a && all_chars P b.
Proof.
  induction a as [|c a IH]; [reflexivity|].
  rewrite append_cons. cbn [all_chars]. rewrite IH, andb_assoc. reflexivity.
Qed.

Lemma last_char_app a b : b ≠ "" -> last_char (a +:+ b) = last_char b.
Proof.
  intros Hb. induction a as [|c a IH]; [reflexivity|].
  rewrite append_cons. cbn [last_char]. rewrite IH.
  destruct (a +:+ b) eqn:E; [|reflexivity].
  destruct a; [rewrite append_empty in E; contradiction|discriminate E].
Qed.

Lemma vendor_prefix_cases c :
  vendor_prefix c = "CUSTOM_" ∨ vendor_prefix c = "CUSTOM_UNKNOWN_".
Proof. unfold vendor_prefix. destruct (_ || _); auto. Qed.

Lemma well_formed_is_tidy t :
  well_formed_trait t = tidy t && Py.startswith "CUSTOM_" t.
Proof. reflexivity. Qed.

Lemma doubled_custom c :
  doubled_underscore ("CUSTOM_" +:+ c) = leading_underscore c || doubled_underscore c.
Proof. rewrite !append_cons, !contains_doubled, !leading_underscore_cons. reflexivity. Qed.

Lemma doubled_custom_unknown c :
  doubled_underscore ("CUSTOM_UNKNOWN_" +:+ c)
  = leading_underscore c || doubled_underscore c.
Proof. rewrite !append_cons, !contains_doubled, !leading_underscore_cons. reflexivity. Qed.

Lemma prefixed_tidy c :
  tidy c = true -> c ≠ "" ->
  tidy (vendor_prefix c +:+ c) = true
  ∧ Py.startswith "CUSTOM_" (vendor_prefix c +:+ c) = true.
Proof.
  unfold tidy. intros H Hc.
  apply andb_prop in H as [H Hd]. apply andb_prop in H as [H Ht].
  apply andb_prop in H as [Ha Hl].
  apply negb_true_iff in Hd, Ht, Hl.
  unfold trailing_underscore in *.
  destruct (vendor_prefix_cases c) as [-> | ->].
  - rewrite all_chars_app, Ha, last_char_app, Ht, doubled_custom, Hl, Hd by exact Hc.
    split; reflexivity.
  - rewrite all_chars_app, Ha, last_char_app, Ht, doubled_custom_unknown, Hl, Hd
      by exact Hc.
    split; reflexivity.
Qed.

Lemma trait_name_shape m :
  generate_trait_name m = "CUSTOM_UNKNOWN_EMPTY"
  ∨ ∃ c, tidy c = true ∧ generate_trait_name m = vendor_prefix c +:+ c.
Proof.
  destruct m as [[|a s]|]; [left; reflexivity| |left; reflexivity].
  right. rewrite generate_trait_name_steps. unfold spec_trait_name_by_steps.
  eexists. split; [|reflexivity]. apply cleaned_is_tidy.
Qed.

(** Apart from the one name that stops at the prefix, every trait name is
    well formed. *)
Lemma trait_name_well_formed m :
  generate_trait_name m ≠ "CUSTOM_UNKNOWN_" ->
  well_formed_trait (generate_trait_name m) = true.
Proof.
  destruct (trait_name_shape m) as [-> | (c & Hc & ->)]; [reflexivity|].
  intros Hne. destruct (decide (c = "")) as [-> | Hn]; [contradiction Hne; reflexivity|].
  rewrite well_formed_is_tidy.
  destruct (prefixed_tidy c Hc Hn) as [-> ->]. reflexivity.
Qed.

(** ** A tidy name is a fixed point of every cleaning step *)

Lemma tidy_parts t :
  tidy t = true ->
  all_chars is_trait_char t = true ∧ leading_underscore t = false
  ∧ trailing_underscore t = false ∧ doubled_underscore t = false.
Proof.
  unfold tidy. intros H.
  apply andb_prop in H as [H Hd]. apply andb_prop in H as [H Ht].
  apply andb_prop in H as [Ha Hl].
  apply negb_true_iff in Hd, Ht, Hl. auto.
Qed.

Lemma upper_trait_chars t : all_chars is_trait_char t = true -> Py.upper t = t.
Proof.
  unfold Py.upper. induction t as [|c r IH]; [done|]. cbn [all_chars Py.upper_from].
  intros [Hc Hr]%andb_prop.
  rewrite trait_char_ascii, trait_char_upper, IH by assumption. reflexivity.
Qed.

Lemma trait_char_not_blank c r : is_trait_char c = true -> Py.after_space (String c r) = None.
Proof.
  intros Hc. destruct (Py.after_space (String c r)) as [t|] eqn:E; [|reflexivity].
  apply after_space_start, starts_blank_special in E as [E _]. congruence.
Qed.

Lemma strip_token_trait_chars t :
  all_chars is_trait_char t = true -> strip_token_before_end t = t.
Proof.
  induction t as [|c r IH]; [done|]. cbn [all_chars strip_token_before_end].
  intros [Hc Hr]%andb_prop. rewrite trait_char_not_blank, IH by assumption. reflexivity.
Qed.

Lemma replace_trait_chars t :
  all_chars is_trait_char t = true -> replace_specials t = t.
Proof.
  unfold replace_specials.
  induction t as [|c r IH]; [done|]. cbn [all_chars replace_specials_from].
  intros [Hc Hr]%andb_prop.
  destruct (trait_char_cases c Hc) as [[-> _] | [-> _]].
  - rewrite IH by assumption. reflexivity.
  - change (Py.is_AZ "_" || Py.is_09 "_") with false. cbn [Py.width].
    change (Py.announced "_") with 0. cbn [Py.continued Nat.sub].
    rewrite IH by assumption. reflexivity.
Qed.

Lemma collapse_no_doubled t :
  doubled_underscore t = false -> collapse_underscores t = t.
Proof.
  induction t as [|c r IH]; [done|]. intros H.
  rewrite contains_doubled in H. apply orb_false_elim in H as [H1 H2].
  destruct r as [|d r]; [reflexivity|].
  rewrite leading_underscore_cons in H1.
  change (collapse_underscores (String c (String d r)))
    with (if Ascii.eqb c "_" && Ascii.eqb d "_"
          then collapse_underscores (String d r)
          else String c (collapse_underscores (String d r))).
  rewrite H1, IH by exact H2. reflexivity.
Qed.

Lemma lstrip_no_leading t : leading_underscore t = false -> Py.lstrip "_" t = t.
Proof.
  destruct t as [|c r]; [done|]. rewrite leading_underscore_cons. intros H.
  cbn [Py.lstrip Py.char_in]. rewrite H. reflexivity.
Qed.

Lemma rstrip_no_trailing t : trailing_underscore t = false -> Py.rstrip "_" t = t.
Proof.
  unfold trailing_underscore. intros H. apply bool_decide_eq_false in H.
  induction t as [|c r IH]; [reflexivity|]. rewrite rstrip_cons.
  destruct r as [|d r].
  - cbn [Py.rstrip Py.char_in]. rewrite orb_false_r.
    destruct (Ascii.eqb c "_") eqn:E; [|reflexivity].
    apply Ascii.eqb_eq in E as ->. contradiction H. reflexivity.
  - rewrite IH by exact H. reflexivity.
Qed.

Lemma strip_tidy t : tidy t = true -> Py.strip "_" t = t.
Proof.
  intros (_ & Hl & Ht & _)%tidy_parts. unfold Py.strip.
  rewrite lstrip_no_leading by exact Hl. apply rstrip_no_trailing. exact Ht.
Qed.

Lemma rederive_tidy t :
  tidy t = true -> generate_trait_name (Some t) = match t with
                                                   | EmptyString => "CUSTOM_UNKNOWN_EMPTY"
                                                   | _ => vendor_prefix t +:+ t
                                                   end.
Proof.
  intros H. rewrite generate_trait_name_steps. unfold spec_trait_name_by_steps.
  destruct t as [|c r] eqn:E; [reflexivity|]. rewrite <- E in *. clear E.
  pose proof (tidy_parts t H) as (Ha & _ & _ & Hd).
  unfold spec_clean_by_steps.
  rewrite upper_trait_chars, strip_token_trait_chars, replace_trait_chars,
    collapse_no_doubled, strip_tidy by assumption.
  reflexivity.
Qed.

(** ** The step of the specification and the step of the code *)

Lemma append_empty_r s : s +:+ "" = s.
Proof. induction s as [|c s IH]; [reflexivity|]. by rewrite append_cons, IH. Qed.

Lemma last_char_cons c r : last_char (String c r) = if r is "" then Some c else last_char r.
Proof. by destruct r. Qed.

Lemma skip_blanks_last r :
  skip_blanks r ≠ "" -> last_char (skip_blanks r) = last_char r.
Proof.
  induction r as [r IH] using shorter_ind. rewrite skip_blanks_step.
  destruct (Py.after_space r) as [t|] eqn:E; [|reflexivity].
  intros H. rewrite (IH t (after_space_shorter _ _ E) H).
  destruct (after_space_found _ _ E) as (b & _ & _ & -> & _).
  symmetry. apply last_char_app. intros ->. apply H. reflexivity.
Qed.

Lemma after_space_last s t : Py.after_space s = Some t -> t ≠ "" -> last_char s = last_char t.
Proof.
  intros (b & _ & _ & -> & _)%after_space_found Ht. by apply last_char_app.
Qed.

Lemma strip_token_without_line_feed s :
  last_char s ≠ Some "010"%char ->
  strip_token_before_end s = spec_strip_trailing_token s.
Proof.
  induction s as [|c r IH]; [reflexivity|]. intros H.
  cbn [strip_token_before_end spec_strip_trailing_token].
  assert (Hr : r ≠ "" -> last_char r ≠ Some "010"%char).
  { intros Hn. destruct r; [contradiction|exact H]. }
  assert (IH' : strip_token_before_end r = spec_strip_trailing_token r).
  { destruct r; [reflexivity|]. apply IH, Hr. discriminate. }
  destruct (Py.after_space (String c r)) as [t|] eqn:B; [|rewrite IH'; reflexivity].
  unfold behind_token. destruct (is_token (skip_blanks t)) eqn:T; [reflexivity|].
  destruct (_ || _) eqn:E; [|rewrite IH'; reflexivity].
  exfalso. assert (Hs : skip_blanks t ≠ "") by (intros Hs; rewrite Hs in E; discriminate E).
  assert (Hn : t ≠ "") by (intros ->; contradiction Hs; reflexivity).
  apply H. rewrite (after_space_last _ _ B Hn), <- (skip_blanks_last t Hs).
  apply orb_prop in E as [E | E]; apply String.eqb_eq in E; rewrite E; reflexivity.
Qed.

(** ** [str.upper] *)

Lemma upper_from_skip k s : Py.upper_from k s = Py.upper (drop_chars k s).
Proof.
  revert s; induction k as [|k IH]; intros s; [by destruct s|].
  destruct s as [|c r]; [reflexivity|]. apply IH.
Qed.

Lemma upper_cons c r :
  Py.upper (String c r)
  = if Py.is_ascii c then String (Py.upper_char c) (Py.upper r)
    else match Py.upper_at (String c r) with
         | Some (point, image) =>
             image +:+ Py.upper (drop_chars (String.length point - 1) r)
         | None => String c (Py.upper r)
         end.
Proof.
  unfold Py.upper at 1. cbn [Py.upper_from]. destruct (Py.is_ascii c); [reflexivity|].
  destruct (Py.upper_at (String c r)) as [[point image]|]; [|reflexivity].
  by rewrite upper_from_skip.
Qed.

Lemma upper_images_shape e : e ∈ Py.upper_images -> is_special_point e = true.
Proof.
  assert (H : forallb is_special_point Py.upper_images = true) by (vm_compute; reflexivity).
  rewrite forallb_forall in H. intros He. apply H. by apply list_elem_of_In.
Qed.

(** The entry found for a text: the text starts with its code point, whose
    first byte opens a code point and whose other bytes continue it. *)
Lemma upper_at_some s point image :
  Py.upper_at s = Some (point, image) ->
  ∃ a rest t,
    point = String a rest ∧ s = String a (rest +:+ t)
    ∧ all_chars Py.is_continuation rest = true
    ∧ image ≠ "" ∧ last_char image ≠ Some "010"%char.
Proof.
  unfold Py.upper_at. intros [Hin Hs]%find_some. cbn [fst] in Hs.
  apply list_elem_of_In, upper_images_shape in Hin.
  unfold is_special_point in Hin. cbn [fst snd] in Hin.
  destruct point as [|a rest]; [discriminate Hin|].
  apply andb_prop in Hin as [[[[_ _]%andb_prop Hc]%andb_prop Hi]%andb_prop Hl].
  unfold Py.startswith in Hs.
  destruct (Py.after_prefix (String a rest) s) as [t|] eqn:E; [|discriminate].
  apply after_prefix_app in E. exists a, rest, t.
  split; [reflexivity|]. split; [exact E|]. split; [exact Hc|]. split.
  - intros ->. discriminate Hi.
  - clear -Hl. induction image as [|c im IH]; [discriminate|].
    cbn [all_chars] in Hl. apply andb_prop in Hl as [Hc Hl].
    rewrite last_char_cons. destruct im; [|by apply IH].
    intros [= ->]. discriminate Hc.
Qed.

Lemma upper_empty s : Py.upper s = "" -> s = "".
Proof.
  destruct s as [|c r]; [done|]. rewrite upper_cons.
  destruct (Py.is_ascii c); [discriminate|].
  destruct (Py.upper_at (String c r)) as [[point image]|] eqn:E; [|discriminate].
  apply upper_at_some in E as (_ & _ & _ & _ & _ & _ & Hi & _).
  destruct image; [contradiction|discriminate].
Qed.

Lemma upper_line_feed c : Py.upper_char c = "010"%char -> c = "010"%char.
Proof. each_char c. Qed.

Lemma line_feed_ascii c : Py.is_ascii c = false -> c ≠ "010"%char.
Proof. by intros H ->. Qed.

(** Uppercasing puts no line feed at the end of a text that has none. *)
Lemma last_char_upper s :
  last_char (Py.upper s) = Some "010"%char -> last_char s = Some "010"%char.
Proof.
  induction s as [s IH] using shorter_ind. destruct s as [|c r]; [done|].
  assert (Tail : ∀ x, last_char (String x (Py.upper r)) = Some "010"%char ->
                 (x = "010"%char -> c = "010"%char) ->
                 last_char (String c r) = Some "010"%char).
  { intros x. rewrite !last_char_cons. destruct r as [|d r'].
    - cbn. intros [= ->] H. by rewrite H.
    - destruct (Py.upper (String d r')) eqn:U; [by apply upper_empty in U|].
      rewrite <- U. intros H _. apply IH; [cbn; lia|exact H]. }
  rewrite upper_cons. destruct (Py.is_ascii c) eqn:A.
  { intros H. apply (Tail _ H), upper_line_feed. }
  destruct (Py.upper_at (String c r)) as [[point image]|] eqn:E.
  2:{ intros H. apply (Tail _ H). intros ->. discriminate A. }
  apply upper_at_some in E as (a & rest & t & -> & [= <- ->] & Hc & Hi & Hl).
  cbn [String.length Nat.sub]. rewrite Nat.sub_0_r, drop_chars_app.
  destruct t as [|d t'].
  - change (Py.upper "") with "". rewrite append_empty_r. intros H. by destruct Hl.
  - intros H. rewrite last_char_app in H by (intros U; by apply upper_empty in U).
    apply IH in H;
      [|cbn [String.length]; rewrite string_length_app; cbn [String.length]; lia].
    change (String c (rest +:+ String d t')) with (String c rest +:+ String d t').
    by rewrite last_char_app.
Qed.

(** ** The vendor pattern *)

Lemma take_app a b : Py.take (String.length a) (a +:+ b) = a.
Proof.
  induction a as [|c a IH]; [by destruct b|].
  rewrite append_cons. cbn [String.length Py.take]. by rewrite IH.
Qed.

Lemma append_assoc a b c : (a +:+ b) +:+ c = a +:+ (b +:+ c).
Proof. induction a as [|x a IH]; [reflexivity|]. by rewrite !append_cons, IH. Qed.

(** A match of a word under [(?i)] is one of its spellings. *)
Lemma literal_i_some p : ∀ s n,
  Py.literal_i p s = Some n ->
  ∃ g t, g ∈ spellings p ∧ s = g +:+ t ∧ n = String.length g.
Proof.
  induction p as [|a p IH]; intros s n.
  - intros [= <-]. exists "", s. split; [left|]. by split.
  - cbn [Py.literal_i].
    destruct (Py.after_any (Py.ignorecase a) s) as [[x u]|] eqn:E; [|discriminate].
    destruct (after_any_some _ _ _ _ E) as [Hx ->].
    destruct (Py.literal_i p u) as [k|] eqn:L; [|discriminate]. intros [= <-].
    destruct (IH u k L) as (g & t & Hg & -> & ->).
    exists (x +:+ g), t. split; [|split].
    + cbn [spellings]. apply list_elem_of_bind. exists x. split; [|exact Hx].
      apply list_elem_of_bind. exists g. split; [left|exact Hg].
    + by rewrite append_assoc.
    + by rewrite string_length_app.
Qed.

Lemma vendor_spellings_checked :
  Forall (fun g => vendor_spelling "intel" g = true) (spellings "intel")
  ∧ Forall (fun g => vendor_spelling "amd" g = true) (spellings "amd").
Proof.
  split; apply Forall_forall; intros g Hg; apply list_elem_of_In in Hg;
    revert g Hg; apply forallb_forall; vm_compute; reflexivity.
Qed.

(** The text of a match of the vendor pattern. *)
Lemma vendor_match s n :
  _INTEL_AMD_PATTERN s = Some n ->
  ∃ vendor g t,
    (vendor = "intel" ∨ vendor = "amd")
    ∧ s = g +:+ t ∧ n = String.length g ∧ vendor_spelling vendor g = true.
Proof.
  unfold _INTEL_AMD_PATTERN. destruct vendor_spellings_checked as [Ci Ca].
  rewrite Forall_forall in Ci, Ca.
  destruct (Py.literal_i "intel" s) as [k|] eqn:E.
  - intros [= <-]. apply literal_i_some in E as (g & t & Hg & -> & ->).
    exists "intel", g, t. auto.
  - intros (g & t & Hg & -> & ->)%literal_i_some. exists "amd", g, t. auto.
Qed.

(** [search] finds a match that starts some tail of the text, and none when
    no tail has one. *)
Lemma search_some p s g :
  Py.search p s = Some g -> ∃ x z n, s = x +:+ z ∧ p z = Some n ∧ g = Py.take n z.
Proof.
  induction s as [|c r IH]; cbn [Py.search].
  - destruct (p "") as [n|] eqn:E; [|discriminate]. intros [= <-]. by exists "", "", n.
  - destruct (p (String c r)) as [n|] eqn:E.
    + intros [= <-]. by exists "", (String c r), n.
    + intros (x & z & n & -> & Hz & ->)%IH. by exists (String c x), z, n.
Qed.


(** The vendor found in a text: a spelling of a vendor somewhere in it. *)
Lemma search_vendor s g :
  Py.search _INTEL_AMD_PATTERN s = Some g ->
  ∃ vendor x t,
    (vendor = "intel" ∨ vendor = "amd")
    ∧ s = x +:+ g +:+ t ∧ vendor_spelling vendor g = true.
Proof.
  intros (x & z & n & -> & (vendor & g' & t & V & -> & -> & Sp)%vendor_match & ->)%search_some.
  rewrite take_app. by exists vendor, x, t.
Qed.

(** *** Texts of ASCII *)

Lemma lower_app a b : Py.lower (a +:+ b) = Py.lower a +:+ Py.lower b.
Proof.
  induction a as [|c a IH]; [reflexivity|]. rewrite append_cons. cbn [Py.lower].
  by rewrite IH.
Qed.

Lemma startswith_cons a p b s :
  Py.startswith (String a p) (String b s) = Ascii.eqb a b && Py.startswith p s.
Proof.
  unfold Py.startswith. cbn [Py.after_prefix]. destruct (Ascii.eqb a b); reflexivity.
Qed.

Lemma startswith_app p t : Py.startswith p (p +:+ t) = true.
Proof.
  induction p as [|c p IH]; [reflexivity|].
  by rewrite append_cons, startswith_cons, Ascii.eqb_refl.
Qed.

Lemma contains_cons p c r :
  Py.contains p (String c r) = Py.startswith p (String c r) || Py.contains p r.
Proof. reflexivity. Qed.

Lemma contains_start p s : Py.startswith p s = true -> Py.contains p s = true.
Proof. intros H. destruct s; cbn [Py.contains]; by rewrite H. Qed.

Lemma contains_app_r p a b : Py.contains p b = true -> Py.contains p (a +:+ b) = true.
Proof.
  intros H. induction a as [|c a IH]; [exact H|].
  rewrite append_cons, contains_cons, IH. apply orb_true_r.
Qed.

Lemma contains_mid p x t : Py.contains p (x +:+ p +:+ t) = true.
Proof. apply contains_app_r, contains_start, startswith_app. Qed.






(** In a text of ASCII the spelling found lowers to the vendor, which the
    text then mentions, and uppercases to its capitals. *)
Lemma ascii_spelling vendor g x t :
  vendor_spelling vendor g = true -> ascii_text (x +:+ g +:+ t) = true ->
  Py.upper g = Py.upper vendor ∧ mentions vendor (x +:+ g +:+ t) = true.
Proof.
  unfold vendor_spelling, ascii_text. rewrite !all_chars_app.
  intros [_ H]%andb_prop [_ [A _]%andb_prop]%andb_prop.
  rewrite A in H. apply andb_prop in H as [L U].
  apply String.eqb_eq in L, U. split; [exact U|].
  unfold mentions. rewrite !lower_app, L. apply contains_mid.
Qed.

Lemma spelling_upper vendor g :
  (vendor = "intel" ∨ vendor = "amd") -> vendor_spelling vendor g = true ->
  Py.upper g = "INTEL" ∨ Py.upper g = "AMD" ∨ Py.upper g = "İNTEL".
Proof.
  unfold vendor_spelling. intros V [_ H]%andb_prop.
  destruct (ascii_text g).
  - apply andb_prop in H as [_ U]. apply String.eqb_eq in U. rewrite U.
    destruct V as [-> | ->]; auto.
  - apply andb_prop in H as [_ [U | U]%orb_prop]; apply String.eqb_eq in U; auto.
Qed.

(** ** Claims on [generate_trait_name] and [get_cpu_vendor] *)

(** C3.  The three derivations the specification lists: the Xeon model string,
    the EPYC model string, and the empty string. *)
Theorem trait_name_examples :
  generate_trait_name (Some "Intel(R) Xeon(R) CPU E5-2680 v4 @ 2.40GHz")
    = "CUSTOM_INTEL_R_XEON_R_CPU_E5_2680_V4_2_40GHZ"
  ∧ generate_trait_name (Some "AMD EPYC 7551P 32-Core Processor")
    = "CUSTOM_AMD_EPYC_7551P_32_CORE"
  ∧ generate_trait_name (Some "") = "CUSTOM_UNKNOWN_EMPTY".
Proof. repeat split; vm_compute; reflexivity. Qed.

(** C2.  A model string with nothing left after cleaning, here a lone hyphen,
    gets the bare prefix [CUSTOM_UNKNOWN_], which ends in an underscore and so
    is not well formed; every trait name other than this bare prefix contains
    only [A-Z0-9_], has no leading, trailing or doubled underscore, and starts
    with [CUSTOM_]. *)
Theorem trait_name_bare_prefix :
  generate_trait_name (Some "-") = "CUSTOM_UNKNOWN_"
  ∧ well_formed_trait (generate_trait_name (Some "-")) = false
  ∧ ∀ cpu_model,
      generate_trait_name cpu_model ≠ "CUSTOM_UNKNOWN_" ->
      well_formed_trait (generate_trait_name cpu_model) = true.
Proof.
  split; [vm_compute; reflexivity|]. split; [vm_compute; reflexivity|].
  exact trait_name_well_formed.
Qed.

Lemma trait_name_bare_prefix_witness :
  generate_trait_name (Some "Intel Core i7-8700K CPU @ 3.70GHz") ≠ "CUSTOM_UNKNOWN_"
  ∧ well_formed_trait
      (generate_trait_name (Some "Intel Core i7-8700K CPU @ 3.70GHz")) = true.
Proof.
  assert (H : generate_trait_name (Some "Intel Core i7-8700K CPU @ 3.70GHz")
              ≠ "CUSTOM_UNKNOWN_") by (vm_compute; discriminate).
  split; [exact H|].
  exact (proj2 (proj2 trait_name_bare_prefix) _ H).
Defined.

(** C4 as stated fails, whichever way the trailing token is read.  Read as
    the token that ends the text: with a line feed behind the token the code
    strips it, the steps do not.  Read as the last word of the text: with a
    space behind the token the steps strip it, the code does not. *)
Lemma trait_name_steps_differ :
  (generate_trait_name (Some ("Intel CPU" +:+ LF)) = "CUSTOM_INTEL"
   ∧ spec_trait_name_by_steps spec_strip_trailing_token ("Intel CPU" +:+ LF)
     = "CUSTOM_INTEL_CPU")
  ∧ (generate_trait_name (Some "Intel CPU ") = "CUSTOM_INTEL_CPU"
     ∧ spec_trait_name_by_steps spec_strip_last_word "Intel CPU " = "CUSTOM_INTEL").
Proof. repeat split; vm_compute; reflexivity. Qed.

(** C4, amended.  For every model string the trait name is the composition of
    the steps in order (uppercase, strip the token, replace, collapse, trim,
    prefix; the empty string gives the literal), where step two strips a run
    of blanks followed by CPU or PROCESSOR that stands at the end of the text
    or right before a line feed ending it.  With step two as the specification
    words it (the token at the very end) the equation holds for every model
    string that does not end in a line feed. *)
Theorem trait_name_by_the_steps :
  (∀ cpu_model : string,
     generate_trait_name (Some cpu_model)
     = spec_trait_name_by_steps strip_token_before_end cpu_model)
  ∧ (∀ cpu_model : string,
       last_char cpu_model ≠ Some "010"%char ->
       generate_trait_name (Some cpu_model)
       = spec_trait_name_by_steps spec_strip_trailing_token cpu_model).
Proof.
  split; [exact generate_trait_name_steps|].
  intros s H. rewrite generate_trait_name_steps.
  unfold spec_trait_name_by_steps, spec_clean_by_steps.
  rewrite strip_token_without_line_feed; [reflexivity|].
  intros E. apply H, last_char_upper, E.
Qed.

Lemma trait_name_by_the_steps_witness :
  last_char "AMD Ryzen 7 3700X 8-Core Processor" ≠ Some "010"%char
  ∧ generate_trait_name (Some "AMD Ryzen 7 3700X 8-Core Processor")
    = spec_trait_name_by_steps spec_strip_trailing_token "AMD Ryzen 7 3700X 8-Core Processor".
Proof.
  assert (H : last_char "AMD Ryzen 7 3700X 8-Core Processor" ≠ Some "010"%char)
    by (vm_compute; discriminate).
  split; [exact H|].
  exact (proj2 trait_name_by_the_steps _ H).
Defined.

(** C5 as stated fails: deriving again from a derived name gives another
    name. *)
Lemma rederive_intel_xeon :
  generate_trait_name (Some (generate_trait_name (Some "Intel Xeon")))
  ≠ generate_trait_name (Some "Intel Xeon").
Proof. vm_compute. discriminate. Qed.

(** C5, amended.  Deriving from a derived name [t] cleans nothing but an
    underscore at the end of [t] and puts a prefix in front once more:
    [CUSTOM_] when the name contains INTEL or AMD, [CUSTOM_UNKNOWN_] when not.
    The result is never [t] itself. *)
Theorem rederive_adds_prefix (cpu_model : option string) :
  let t := generate_trait_name cpu_model in
  generate_trait_name (Some t)
  = vendor_prefix (Py.strip "_" t) +:+ Py.strip "_" t
  ∧ generate_trait_name (Some t) ≠ t.
Proof.
  cbv zeta.
  destruct (trait_name_shape cpu_model) as [-> | (c & Hc & ->)].
  { split; [vm_compute; reflexivity|vm_compute; discriminate]. }
  destruct (decide (c = "")) as [-> | Hn].
  { split; [vm_compute; reflexivity|vm_compute; discriminate]. }
  destruct (prefixed_tidy c Hc Hn) as [T S].
  set (t := vendor_prefix c +:+ c) in *.
  rewrite strip_tidy by exact T. rewrite rederive_tidy by exact T.
  destruct t as [|a r] eqn:E; [discriminate S|]. rewrite <- E. clear E.
  split; [reflexivity|].
  intros H. apply (f_equal String.length) in H. rewrite string_length_app in H.
  destruct (vendor_prefix_cases t) as [P | P]; rewrite P in H; cbn [String.length] in H; lia.
Qed.




(** ** [filter_machines] *)

Lemma tags_set_of_elem tags t : t ∈ tags_set_of tags ↔ t ∈ tags.
Proof. destruct tags; [set_solver|]. unfold tags_set_of. set_solver. Qed.

Lemma tags_set_of_empty tags : tags_set_of tags = ∅ ↔ tags = [].
Proof.
  split; [|intros ->; reflexivity].
  destruct tags as [|t ts]; [done|]. intros H.
  assert (t ∈ tags_set_of (t :: ts)) by (apply tags_set_of_elem; left).
  rewrite H in *. set_solver.
Qed.

Lemma bare_strings_tail t l : bare_strings (t :: l) -> bare_strings l.
Proof. intros H x Hx. apply H. right. exact Hx. Qed.

Lemma named_records_tail t l : named_records (t :: l) -> named_records l.
Proof. intros H x Hx. apply H. right. exact Hx. Qed.

Lemma py_set_bare l :
  bare_strings l -> ∃ X, py_set l = Ok X ∧ ∀ s, s ∈ X ↔ TagStr s ∈ l.
Proof.
  induction l as [|t l IH]; intros H.
  - exists ∅. split; [reflexivity|]. intros s. set_solver.
  - destruct (IH (bare_strings_tail _ _ H)) as (X & E & HX).
    destruct (H t) as [s ->]; [left|]. cbn [py_set]. rewrite E.
    exists ({[ s ]} ∪ X). split; [reflexivity|]. intros s'.
    rewrite elem_of_union, elem_of_singleton, HX, elem_of_cons.
    split; (intros [-> | ?]; [left; reflexivity|right; assumption])
      || (intros [[= ->] | ?]; [left; reflexivity|right; assumption]).
Qed.

Lemma names_of_named l :
  named_records l ->
  ∃ l', names_of_dicts l = Ok l' ∧ bare_strings l'
        ∧ ∀ s, TagStr s ∈ l' ↔ TagDict (Some s) ∈ l.
Proof.
  induction l as [|t l IH]; intros H.
  - exists []. split; [reflexivity|]. split; [intros x Hx; inversion Hx|].
    intros s. split; intros Hs; inversion Hs.
  - destruct (IH (named_records_tail _ _ H)) as (l' & E & B & HL).
    destruct (H t) as [s ->]; [left|]. cbn [names_of_dicts]. rewrite E.
    exists (TagStr s :: l'). split; [reflexivity|]. split.
    + intros x [-> | Hx]%elem_of_cons; [eauto|auto].
    + intros s'. rewrite !elem_of_cons, HL.
      split; (intros [[= ->] | ?]; [left; reflexivity|right; assumption]).
Qed.

(** The tag test of the code, on a tag list in either format, is the overlap
    of the labels with the wanted tags. *)
Lemma tag_test l :
  bare_strings l ∨ named_records l ->
  ∃ X, ((if first_is_dict l then names_of_dicts l else Ok l) ≫= py_set) = Ok X
       ∧ ∀ s, s ∈ X ↔ Some s ∈ tag_label <$> l.
Proof.
  intros [B | N].
  - assert (first_is_dict l = false) as ->.
    { destruct l as [|t l]; [reflexivity|]. destruct (B t) as [s ->]; [left|reflexivity]. }
    destruct (py_set_bare l B) as (X & E & HX). exists X. split; [exact E|].
    intros s. rewrite HX, list_elem_of_fmap. split.
    + intros Hs. exists (TagStr s). auto.
    + intros (t & Ht & Hin). destruct (B t Hin) as [s' ->]. cbn in Ht.
      injection Ht as ->. exact Hin.
  - destruct (names_of_named l N) as (l' & E & B & HL).
    destruct (py_set_bare l' B) as (X & E' & HX).
    exists X. split.
    + destruct l as [|t l]; [cbn in *; injection E as <-; exact E'|].
      destruct (N t) as [s ->]; [left|]. cbn [first_is_dict]. rewrite E. exact E'.
    + intros s. rewrite HX, HL, list_elem_of_fmap. split.
      * intros Hs. exists (TagDict (Some s)). auto.
      * intros (t & Ht & Hin). destruct (N t Hin) as [s' ->]. cbn in Ht.
        injection Ht as ->. exact Hin.
Qed.

Lemma shares_tag_overlap tags m (X : gset string) :
  (∀ s, s ∈ X ↔ Some s ∈ tag_label <$> default [] (tag_names m)) ->
  shares_tag tags m = negb (bool_decide (tags_set_of tags ∩ X = ∅)).
Proof.
  intros HX. unfold shares_tag.
  destruct (existsb _ tags) eqn:E.
  - apply existsb_exists in E as (t & Ht & Hs). apply bool_decide_eq_true in Hs.
    symmetry. apply negb_true_iff, bool_decide_eq_false.
    assert (Hin : t ∈ tags_set_of tags ∩ X);
      [|intros Hempty; rewrite Hempty in Hin; exact (not_elem_of_empty t Hin)].
    apply elem_of_intersection. split.
    + apply tags_set_of_elem, list_elem_of_In. exact Ht.
    + apply HX. exact Hs.
  - symmetry. apply negb_false_iff, bool_decide_eq_true.
    apply set_eq. intros t. split; [|set_solver].
    intros [Ht Hx]%elem_of_intersection. exfalso.
    apply tags_set_of_elem, list_elem_of_In in Ht.
    assert (existsb (λ t, bool_decide (Some t ∈ tag_label <$> default [] (tag_names m)))
              tags = true); [|congruence].
    apply existsb_exists. exists t. split; [exact Ht|].
    apply bool_decide_eq_true, HX. exact Hx.
Qed.

Lemma well_tagged_cases m :
  well_tagged m = true ->
  bare_strings (default [] (tag_names m)) ∨ named_records (default [] (tag_names m)).
Proof.
  unfold well_tagged. intros [H | H]%orb_prop; [left|right];
    rewrite forallb_forall in H; intros t Ht; apply list_elem_of_In, H in Ht.
  - destruct t; [eauto|discriminate].
  - destruct t as [|[s|]]; [discriminate|eauto|discriminate].
Qed.

Lemma should_include_passes zone_arg deployed_only tags m :
  well_tagged m = true ->
  should_include_machine zone_arg deployed_only (tags_set_of tags) m
  = Ok (passes zone_arg deployed_only tags m).
Proof.
  intros W%well_tagged_cases.
  unfold should_include_machine, passes, zone_supplied, in_zone, is_deployed.
  assert (Z : negb (Py.falsy zone_arg) = true ->
              bool_decide (zone_name (default {| zone_name := None |} (zone m)) = zone_arg)
              = match zone m with
                | Some z => bool_decide (zone_name z = zone_arg)
                | None => false
                end).
  { destruct (zone m); [reflexivity|]. destruct zone_arg; [reflexivity|discriminate]. }
  assert (T : ∀ t ts,
            (if negb (bool_decide (tags_set_of (t :: ts) = ∅))
             then
               machine_tags ← (if first_is_dict (default [] (tag_names m))
                               then names_of_dicts (default [] (tag_names m))
                               else Ok (default [] (tag_names m)));
               machine_tags_set ← py_set machine_tags;
               if bool_decide (tags_set_of (t :: ts) ∩ machine_tags_set = ∅)
               then Ok false else Ok true
             else Ok true)
            = Ok (shares_tag (t :: ts) m)).
  { intros t ts.
    rewrite bool_decide_eq_false_2 by (rewrite tags_set_of_empty; discriminate).
    cbn [negb]. destruct (tag_test _ W) as (X & E & HX).
    rewrite (shares_tag_overlap _ _ X HX).
    unfold mbind in E |- *. unfold result_bind in E |- *.
    destruct (if first_is_dict _ then _ else _); [|discriminate E].
    rewrite E. destruct (bool_decide (tags_set_of (t :: ts) ∩ X = ∅)); reflexivity. }
  destruct (negb (Py.falsy zone_arg)) eqn:F; cbn [negb andb orb].
  - rewrite <- Z by reflexivity.
    destruct (bool_decide (zone_name _ = zone_arg)); cbn [negb andb]; [|reflexivity].
    destruct deployed_only; cbn [negb andb orb].
    + destruct (bool_decide (status_name m = Some "Deployed")); cbn [negb andb];
        [|reflexivity].
      destruct tags as [|t ts]; [reflexivity|apply T].
    + destruct tags as [|t ts]; [reflexivity|apply T].
  - destruct deployed_only; cbn [negb andb orb].
    + destruct (bool_decide (status_name m = Some "Deployed")); cbn [negb andb];
        [|reflexivity].
      destruct tags as [|t ts]; [reflexivity|apply T].
    + destruct tags as [|t ts]; [reflexivity|apply T].
Qed.

Lemma comprehension_filter keep f machines :
  (∀ m, m ∈ machines -> keep m = Ok (f m)) ->
  comprehension keep machines = Ok (List.filter f machines).
Proof.
  induction machines as [|m ms IH]; intros H; [reflexivity|].
  cbn [comprehension List.filter]. rewrite (H m) by left.
  rewrite IH by (intros x Hx; apply H; right; exact Hx).
  reflexivity.
Qed.

Lemma comprehension_sublist keep machines : ∀ kept,
  comprehension keep machines = Ok kept -> kept `sublist_of` machines.
Proof.
  induction machines as [|m ms IH]; intros kept.
  - intros [= <-]. constructor.
  - cbn [comprehension]. destruct (keep m) as [b|e]; [|discriminate].
    cbn. destruct (comprehension keep ms) as [rest|e]; [|discriminate].
    cbn. intros [= <-]. destruct b; [apply sublist_skip|apply sublist_cons]; auto.
Qed.

Lemma filter_none {A} (l : list A) : List.filter (λ _, false) l = [].
Proof. induction l; [reflexivity|assumption]. Qed.

Lemma filter_all {A} (l : list A) : List.filter (λ _, true) l = l.
Proof. induction l; cbn [List.filter]; congruence. Qed.

Lemma filter_machines_comprehension machines zone_arg deployed_only tags :
  filter_machines machines zone_arg deployed_only tags
  = comprehension (should_include_machine zone_arg deployed_only (tags_set_of tags))
      machines.
Proof. destruct machines; reflexivity. Qed.

Lemma filter_machines_passes machines zone_arg deployed_only tags :
  forallb well_tagged machines = true ->
  filter_machines machines zone_arg deployed_only tags
  = Ok (List.filter (passes zone_arg deployed_only tags) machines).
Proof.
  intros W. rewrite filter_machines_comprehension. apply comprehension_filter.
  intros m Hm. apply should_include_passes.
  rewrite forallb_forall in W. apply W, list_elem_of_In, Hm.
Qed.

Lemma out_of_zone zone_arg deployed_only tags_set m :
  zone_supplied zone_arg = true -> in_zone zone_arg m = false ->
  should_include_machine zone_arg deployed_only tags_set m = Ok false.
Proof.
  unfold zone_supplied, in_zone, should_include_machine. intros Z H. rewrite Z.
  destruct (zone m) as [z|]; cbn [default from_option id andb].
  - rewrite H. reflexivity.
  - destruct zone_arg; [reflexivity|discriminate Z].
Qed.

(** C6.  On machines whose tag lists are bare strings or named records,
    [filter_machines] returns exactly the machines, in order, that pass every
    supplied predicate: the zone name is the wanted zone when one is supplied,
    the status is "Deployed" when the flag is set, and a tag of the machine is
    among the wanted tags when there are any.  With a zone supplied that no
    machine has, it returns the empty list. *)
Theorem filter_machines_exact
    (machines : list machine) (zone_arg : option string) (deployed_only : bool)
    (tags : list string) :
  (forallb well_tagged machines = true ->
   filter_machines machines zone_arg deployed_only tags
   = Ok (List.filter (passes zone_arg deployed_only tags) machines))
  ∧ (zone_supplied zone_arg = true ->
     (∀ m, m ∈ machines -> in_zone zone_arg m = false) ->
     filter_machines machines zone_arg deployed_only tags = Ok []).
Proof.
  split; [apply filter_machines_passes|].
  intros Z H. rewrite filter_machines_comprehension.
  rewrite (comprehension_filter _ (λ _, false)).
  - rewrite filter_none. reflexivity.
  - intros m Hm. apply out_of_zone; auto.
Qed.

(** C7.  With no zone supplied (absent or empty), the flag off and no tags,
    [filter_machines] returns the list it was given. *)
Theorem filter_machines_no_predicate (machines : list machine) :
  filter_machines machines None false [] = Ok machines
  ∧ filter_machines machines (Some "") false [] = Ok machines.
Proof.
  split; rewrite filter_machines_comprehension;
    rewrite (comprehension_filter _ (λ _, true)) by reflexivity;
    rewrite filter_all; reflexivity.
Qed.

(** C10.  Whatever the arguments, a list that [filter_machines] returns is a
    subsequence of the machines given: the same records, none twice over, in
    the same order; and on machines whose tag lists are in one of the two
    formats it does return a list. *)
Theorem filter_machines_subsequence
    (machines : list machine) (zone_arg : option string) (deployed_only : bool)
    (tags : list string) :
  (∀ kept,
     filter_machines machines zone_arg deployed_only tags = Ok kept ->
     kept `sublist_of` machines)
  ∧ (forallb well_tagged machines = true ->
     ∃ kept, filter_machines machines zone_arg deployed_only tags = Ok kept).
Proof.
  split.
  - intros kept. rewrite filter_machines_comprehension. apply comprehension_sublist.
  - intros W. eexists. apply filter_machines_passes. exact W.
Qed.

Lemma filter_machines_exact_witness :
  filter_machines (sample_maas_machines ++ [record_tagged_machine])
    (Some "zone-1") true ["compute"]
  = Ok (List.filter (passes (Some "zone-1") true ["compute"])
          (sample_maas_machines ++ [record_tagged_machine]))
  ∧ filter_machines sample_maas_machines (Some "zone-9") false [] = Ok [].
Proof.
  split.
  - apply (proj1 (filter_machines_exact _ _ _ _)). reflexivity.
  - apply (proj2 (filter_machines_exact _ _ _ _)); [reflexivity|].
    intros m Hm. apply list_elem_of_In in Hm.
    repeat (destruct Hm as [<- | Hm]; [reflexivity|]). destruct Hm.
Defined.

Lemma filter_machines_subsequence_witness :
  (∃ kept, filter_machines sample_maas_machines None false ["gpu"; "storage"] = Ok kept)
  ∧ [record_tagged_machine]
    `sublist_of` (sample_maas_machines ++ [record_tagged_machine]).
Proof.
  split.
  - apply (proj2 (filter_machines_subsequence _ _ _ _)). reflexivity.
  - apply (proj1 (filter_machines_subsequence
                    (sample_maas_machines ++ [record_tagged_machine]) None false ["nvme"])).
    vm_compute. reflexivity.
Defined.

(** ** [_set_resource_provider_traits] *)

Section PlacementProperties.

Context {World : Type}.
Variable api : World -> api_request -> api_outcome * World.

Lemma writes_app (a b : list call) : writes (a ++ b) = writes a ++ writes b.
Proof. unfold writes. apply List.filter_app. Qed.

(** What the loop adds to the exchange: reads and writes in pairs, no more
    writes than attempts. *)
Lemma retry_loop_adds rp trait_names attempts : ∀ w done,
  ∃ new,
    calls (retry_loop api rp trait_names attempts w done) = done ++ new
    ∧ reads_before_writes (read_request rp) (write_request rp trait_names) new = true
    ∧ length (writes new) ≤ length attempts.
Proof.
  set (ordered := reads_before_writes (read_request rp) (write_request rp trait_names)).
  induction attempts as [|attempt later IH]; intros w done.
  - exists []. cbn. rewrite app_nil_r. auto.
  - cbn [retry_loop].
    destruct (api w (read_request rp)) as [rp_response w1].
    assert (R1 : ordered [(read_request rp, rp_response)] = true).
    { cbn. rewrite bool_decide_eq_true_2 by reflexivity. reflexivity. }
    destruct rp_response as [|status_code body].
    { eexists. split; [reflexivity|]. split; [exact R1|cbn; lia]. }
    destruct (is_success status_code) eqn:S1; cbn [negb].
    2: { eexists. split; [reflexivity|]. split; [exact R1|cbn; lia]. }
    destruct body as [|g].
    { eexists. split; [reflexivity|]. split; [exact R1|cbn; lia]. }
    destruct (api w1 (write_request rp trait_names (default 0%Z g))) as [response w2].
    assert (R2 : ∀ rest, ordered rest = true ->
                ordered ((read_request rp, Response status_code (Provider g))
                         :: (write_request rp trait_names (default 0%Z g), response) :: rest)
                = true).
    { intros rest Hr. unfold ordered. cbn [reads_before_writes].
      rewrite !bool_decide_eq_true_2 by reflexivity. rewrite S1. exact Hr. }
    assert (Stop : ∀ (b : bool) (w' : World),
              ∃ new,
                calls {| returned := b; world := w';
                         calls := (done ++ [(read_request rp, Response status_code (Provider g))])
                                  ++ [(write_request rp trait_names (default 0%Z g), response)] |}
                = done ++ new
                ∧ ordered new = true
                ∧ length (writes new) ≤ S (length later)).
    { intros b w'. eexists. split; [cbn [calls]; rewrite <- app_assoc; reflexivity|].
      split; [apply R2; reflexivity|cbn; lia]. }
    destruct response as [|status_code2 body2]; [apply Stop|].
    destruct (is_success status_code2); [apply Stop|].
    destruct ((status_code2 =? 409)%Z && (attempt <? MAX_RETRIES - 1)%nat); [|apply Stop].
    destruct (IH w2 ((done ++ [(read_request rp, Response status_code (Provider g))])
                     ++ [(write_request rp trait_names (default 0%Z g),
                          Response status_code2 body2)]))
      as (new & E & Hr & Hl).
    eexists. split; [rewrite E, <- !app_assoc; reflexivity|].
    split; [apply R2; exact Hr|].
    cbn [app]. change (?a :: ?b :: new) with ([a; b] ++ new).
    rewrite writes_app, length_app. cbn. lia.
Qed.

Lemma set_traits_bound w rp trait_names :
  length (writes (calls (_set_resource_provider_traits api w rp trait_names)))
    ≤ MAX_RETRIES
  ∧ reads_before_writes (read_request rp) (write_request rp trait_names)
      (calls (_set_resource_provider_traits api w rp trait_names)) = true.
Proof.
  unfold _set_resource_provider_traits.
  destruct (retry_loop_adds rp trait_names (seq 0 MAX_RETRIES) w []) as (new & E & Hr & Hl).
  rewrite E. cbn [app]. split; [|exact Hr].
  rewrite length_seq in Hl. exact Hl.
Qed.

(** Two conflicts, then the answer [last] to the third write: the third
    answer decides, and nothing is sent behind it. *)
Lemma set_traits_third_attempt w w' rp trait_names s1 g1 b1 s2 g2 b2 s3 g3 status_code b3 :
  is_success s1 = true -> is_success s2 = true -> is_success s3 = true ->
  let attempt := attempt_calls (read_request rp) (write_request rp trait_names) in
  serves api w
    (attempt s1 g1 (conflict b1) ++ attempt s2 g2 (conflict b2)
     ++ attempt s3 g3 (Response status_code b3)) w' ->
  _set_resource_provider_traits api w rp trait_names
  = {| returned := is_success status_code;
       world := w';
       calls := attempt s1 g1 (conflict b1) ++ attempt s2 g2 (conflict b2)
                ++ attempt s3 g3 (Response status_code b3) |}.
Proof.
  intros S1 S2 S3 attempt H. cbn in H.
  destruct H as (w1 & E1 & w2 & E2 & w3 & E3 & w4 & E4 & w5 & E5 & w6 & E6 & ->).
  unfold _set_resource_provider_traits. cbn [seq MAX_RETRIES retry_loop].
  unfold found, conflict in *.
  rewrite E1, S1. cbn [negb]. rewrite E2. cbn [is_success].
  change (is_success 409) with false. cbn [Z.eqb Pos.eqb andb Nat.ltb Nat.leb Nat.sub].
  rewrite E3, S2. cbn [negb]. rewrite E4.
  change (is_success 409) with false. cbn [Z.eqb Pos.eqb andb Nat.ltb Nat.leb Nat.sub].
  rewrite E5, S3. cbn [negb]. rewrite E6.
  destruct (is_success status_code); [reflexivity|].
  rewrite andb_false_r. reflexivity.
Qed.

End PlacementProperties.

(** C1.  For every placement service, provider id and trait list, the
    exchange of [_set_resource_provider_traits] is made of reads, each a GET
    of [/resource_providers/{id}] without a body, and of writes, each a PUT
    of [/resource_providers/{id}/traits] with the trait list and a
    generation.  There are at most three writes, each right behind a read
    that succeeded and with the generation that read returned.  When the
    first two writes are answered with a conflict (409) and the third with a
    success code, it returns [True] after two retries; when all three are
    answered with a conflict, it returns [False] and sends nothing more. *)
Theorem set_traits_bounded_retry {World : Type}
    (api : World -> api_request -> api_outcome * World)
    (w : World) (resource_provider_id : string) (trait_names : list string) :
  let r := _set_resource_provider_traits api w resource_provider_id trait_names in
  let read :=
    {| method := GET;
       endpoint := "/resource_providers/" +:+ resource_provider_id;
       data := None |} in
  let write (generation : Z) :=
    {| method := PUT;
       endpoint := "/resource_providers/" +:+ resource_provider_id +:+ "/traits";
       data := Some {| traits := trait_names;
                       resource_provider_generation := generation |} |} in
  (length (writes (calls r)) ≤ 3 ∧ reads_before_writes read write (calls r) = true)
  ∧ (∀ w' s1 g1 b1 s2 g2 b2 s3 g3 status_code b3,
       is_success s1 = true -> is_success s2 = true -> is_success s3 = true ->
       is_success status_code = true ->
       serves api w
         (attempt_calls read write s1 g1 (conflict b1)
          ++ attempt_calls read write s2 g2 (conflict b2)
          ++ attempt_calls read write s3 g3 (Response status_code b3)) w' ->
       returned r = true ∧ retries r = 2 ∧ world r = w')
  ∧ (∀ w' s1 g1 b1 s2 g2 b2 s3 g3 b3,
       is_success s1 = true -> is_success s2 = true -> is_success s3 = true ->
       serves api w
         (attempt_calls read write s1 g1 (conflict b1)
          ++ attempt_calls read write s2 g2 (conflict b2)
          ++ attempt_calls read write s3 g3 (conflict b3)) w' ->
       returned r = false ∧ length (writes (calls r)) = 3 ∧ length (calls r) = 6
       ∧ world r = w').
Proof.
  cbv zeta.
  change {| method := GET; endpoint := _; data := None |}
    with (read_request resource_provider_id).
  change (fun generation : Z => {| method := PUT; endpoint := _; data := _ |})
    with (write_request resource_provider_id trait_names).
  split; [apply set_traits_bound|]. split.
  - intros w' s1 g1 b1 s2 g2 b2 s3 g3 status_code b3 S1 S2 S3 S H.
    rewrite (set_traits_third_attempt api _ _ _ _ _ _ _ _ _ _ _ _ _ _ S1 S2 S3 H).
    rewrite S. repeat split.
  - intros w' s1 g1 b1 s2 g2 b2 s3 g3 b3 S1 S2 S3 H.
    rewrite (set_traits_third_attempt api _ _ _ _ _ _ _ _ _ _ _ _ _ _ S1 S2 S3 H).
    repeat split.
Qed.

Lemma set_traits_bounded_retry_witness :
  (returned (_set_resource_provider_traits
               (scripted [found 200 (Some 7%Z); conflict Unreadable;
                          found 200 (Some 8%Z); conflict Unreadable;
                          found 200 (Some 9%Z); Response 204 Unreadable])
               0 "rp-1" ["CUSTOM_AMD_EPYC_7551P_32_CORE"]) = true
   ∧ retries (_set_resource_provider_traits
               (scripted [found 200 (Some 7%Z); conflict Unreadable;
                          found 200 (Some 8%Z); conflict Unreadable;
                          found 200 (Some 9%Z); Response 204 Unreadable])
               0 "rp-1" ["CUSTOM_AMD_EPYC_7551P_32_CORE"]) = 2)
  ∧ returned (_set_resource_provider_traits
                (scripted [found 200 (Some 7%Z); conflict Unreadable;
                           found 200 (Some 8%Z); conflict Unreadable;
                           found 200 (Some 9%Z); conflict Unreadable;
                           found 200 (Some 10%Z); Response 204 Unreadable])
                0 "rp-1" ["CUSTOM_AMD_EPYC_7551P_32_CORE"]) = false.
Proof.
  split.
  - destruct (proj1 (proj2 (set_traits_bounded_retry
                (scripted [found 200 (Some 7%Z); conflict Unreadable;
                           found 200 (Some 8%Z); conflict Unreadable;
                           found 200 (Some 9%Z); Response 204 Unreadable])
                0 "rp-1" ["CUSTOM_AMD_EPYC_7551P_32_CORE"]))
              6 200%Z (Some 7%Z) Unreadable 200%Z (Some 8%Z) Unreadable
              200%Z (Some 9%Z) 204%Z Unreadable
              eq_refl eq_refl eq_refl eq_refl) as (R & N & _).
    + cbn. repeat (eexists; split; [reflexivity|]). reflexivity.
    + split; [exact R|exact N].
  - apply (proj2 (proj2 (set_traits_bounded_retry
                (scripted [found 200 (Some 7%Z); conflict Unreadable;
                           found 200 (Some 8%Z); conflict Unreadable;
                           found 200 (Some 9%Z); conflict Unreadable;
                           found 200 (Some 10%Z); Response 204 Unreadable])
                0 "rp-1" ["CUSTOM_AMD_EPYC_7551P_32_CORE"]))
              6 200%Z (Some 7%Z) Unreadable 200%Z (Some 8%Z) Unreadable
              200%Z (Some 9%Z) Unreadable
              eq_refl eq_refl eq_refl).
    cbn. repeat (eexists; split; [reflexivity|]). reflexivity.
Defined.

(** ** [fetch_maas_data] *)

Lemma falsy_unset (v : option string) : v = None -> Py.falsy v = true.
Proof. intros ->. reflexivity. Qed.

(** C8.  When [MAAS_URL] or [MAAS_API_KEY] is not set, or the key does not
    split at its colons into exactly three parts, [fetch_maas_data] ends the
    process with status 1, its last line on standard error names what is
    wrong with the configuration, and no request has been sent. *)
Theorem fetch_maas_data_needs_configuration {Json : Type}
    (verbose : bool) (log_prefix : string) (environ : gmap string string)
    (session_get : maas_get -> get_outcome Json) :
  environ !! "MAAS_URL" = None
  ∨ environ !! "MAAS_API_KEY" = None
  ∨ (∃ key, environ !! "MAAS_API_KEY" = Some key ∧ length (Py.split ":" key) ≠ 3) ->
  let r := fetch_maas_data verbose log_prefix environ session_get in
  ended r = SysExit 1
  ∧ requests r = []
  ∧ (last (stderr r)
       = Some "Error: MAAS_URL and MAAS_API_KEY environment variables must be set"
     ∨ last (stderr r)
       = Some "Error: MAAS_API_KEY must be in format 'consumer_key:token_key:token_secret'").
Proof.
  intros H. cbv zeta. unfold fetch_maas_data.
  destruct (Py.falsy (environ !! "MAAS_URL") || Py.falsy (environ !! "MAAS_API_KEY"))
    eqn:F.
  { cbn [ended requests stderr]. rewrite last_snoc. auto. }
  apply orb_false_elim in F as [F1 F2].
  destruct H as [H | [H | (key & H & L)]];
    [rewrite (falsy_unset _ H) in F1; discriminate
    |rewrite (falsy_unset _ H) in F2; discriminate|].
  rewrite H. cbn [default from_option id].
  destruct (Py.split ":" key) as [|p1 [|p2 [|p3 [|p4 ps]]]];
    try (cbn [ended requests stderr]; rewrite last_snoc; auto).
  contradiction L. reflexivity.
Qed.

Lemma fetch_maas_data_needs_configuration_witness :
  ended (fetch_maas_data (Json := unit) false "[2026-01-01 00:00:00]"
           {[ "MAAS_API_KEY" := "test:key:secret" ]}
           (λ _, RequestException "unreachable" None))
  = SysExit 1
  ∧ requests (fetch_maas_data (Json := unit) false "[2026-01-01 00:00:00]"
                {[ "MAAS_URL" := "http://test:5240/MAAS";
                   "MAAS_API_KEY" := "invalid_format" ]}
                (λ _, RequestException "unreachable" None))
    = [].
Proof.
  split.
  - apply (fetch_maas_data_needs_configuration (Json := unit) false
             "[2026-01-01 00:00:00]" {[ "MAAS_API_KEY" := "test:key:secret" ]}
             (λ _, RequestException "unreachable" None)).
    left. reflexivity.
  - apply (fetch_maas_data_needs_configuration (Json := unit) false
             "[2026-01-01 00:00:00]"
             {[ "MAAS_URL" := "http://test:5240/MAAS";
                "MAAS_API_KEY" := "invalid_format" ]}
             (λ _, RequestException "unreachable" None)).
    right; right. exists "invalid_format". split; [reflexivity|].
    vm_compute. discriminate.
Defined.

(** With the configuration in place the request goes out. *)
Example fetch_maas_data_sends_request :
  requests (fetch_maas_data (Json := unit) false "[2026-01-01 00:00:00]"
              {[ "MAAS_URL" := "http://test:5240/MAAS/";
                 "MAAS_API_KEY" := "test:key:secret" ]}
              (λ _, RequestException "unreachable" None))
  = [ {| url := "http://test:5240/MAAS/api/2.0/machines/";
         auth := {| client_key := "test"; client_secret := "";
                    resource_owner_key := "key"; resource_owner_secret := "secret";
                    signature_method := "PLAINTEXT"; signature_type := "AUTH_HEADER" |};
         timeout := 30 |} ].
Proof. vm_compute. reflexivity. Qed.

(** ** The embedding on the cases of the unit tests *)

Example test_generate_trait_name_intel :
  generate_trait_name (Some "Intel Core i7-8700K CPU @ 3.70GHz")
    = "CUSTOM_INTEL_CORE_I7_8700K_CPU_3_70GHZ"
  ∧ generate_trait_name (Some "Intel(R) Core(TM) i5-8400 CPU @ 2.80GHz")
    = "CUSTOM_INTEL_R_CORE_TM_I5_8400_CPU_2_80GHZ".
Proof. split; vm_compute; reflexivity. Qed.

Example test_generate_trait_name_amd :
  generate_trait_name (Some "AMD Ryzen 7 3700X 8-Core Processor")
    = "CUSTOM_AMD_RYZEN_7_3700X_8_CORE".
Proof. vm_compute. reflexivity. Qed.

Example test_generate_trait_name_unknown :
  generate_trait_name (Some "Unknown CPU Model") = "CUSTOM_UNKNOWN_UNKNOWN_CPU_MODEL"
  ∧ generate_trait_name (Some "Some Random CPU") = "CUSTOM_UNKNOWN_SOME_RANDOM"
  ∧ generate_trait_name None = "CUSTOM_UNKNOWN_EMPTY".
Proof. repeat split; vm_compute; reflexivity. Qed.

Example test_get_cpu_vendor_known :
  get_cpu_vendor (Some "Intel(R) Xeon(R) CPU E5-2680 v4 @ 2.40GHz") = Some "INTEL"
  ∧ get_cpu_vendor (Some "AMD EPYC 7551P 32-Core Processor") = Some "AMD".
Proof. split; vm_compute; reflexivity. Qed.

(** Where [test_get_cpu_vendor_unknown] expects "UNKNOWN" for a model without
    a vendor, the method answers [None]. *)
Example get_cpu_vendor_unknown_model :
  get_cpu_vendor (Some "Unknown CPU Model") = None.
Proof. vm_compute. reflexivity. Qed.

(** Model strings beyond ASCII: a no-break space before the token, the
    sharp s, which becomes two letters, and the two other i that [(?i)]
    takes for the i of the pattern. *)
Example trait_name_beyond_ascii :
  generate_trait_name (Some ("Intel" +:+ Py.chr 0xA0 +:+ "CPU")) = "CUSTOM_INTEL"
  ∧ generate_trait_name (Some "ß") = "CUSTOM_UNKNOWN_SS"
  ∧ generate_trait_name (Some "İntel Xeon") = "CUSTOM_UNKNOWN_NTEL_XEON"
  ∧ generate_trait_name (Some "ıntel Xeon") = "CUSTOM_INTEL_XEON".
Proof. repeat split; vm_compute; reflexivity. Qed.

Example test_filter_machines_by_zone :
  hostname <$> default [] (match filter_machines sample_maas_machines (Some "zone-2") false []
                           with Ok kept => Some kept | Raise _ => None end)
  = [Some "test-machine-3"].
Proof. vm_compute. reflexivity. Qed.

Example test_filter_machines_combined_filters :
  hostname <$> default [] (match filter_machines sample_maas_machines (Some "zone-1") true
                                   ["compute"]
                           with Ok kept => Some kept | Raise _ => None end)
  = [Some "test-machine-1"; Some "test-machine-2"].
Proof. vm_compute. reflexivity. Qed.

(** A tag list that mixes the two formats makes the tag test raise. *)
Example filter_machines_mixed_tags :
  filter_machines
    [sample_machine "test-machine-6" "Deployed" "zone-1" "AMD EPYC 7551P 32-Core Processor"
       [TagStr "compute"; TagDict (Some "gpu")]]
    None false ["gpu"]
  = Raise TypeError.
Proof. vm_compute. reflexivity. Qed.

(* ================================================================== *)
(** * Part III.  Further properties of the code                         *)
(* ================================================================== *)

(** ** Trait names: letter case, the CUSTOM pattern, vendor models *)

Lemma continuation_not_ascii c : Py.is_continuation c = true -> Py.is_ascii c = false.
Proof. each_char c. Qed.

Lemma ascii_not_continuation c : Py.is_ascii c = true -> Py.is_continuation c = false.
Proof. each_char c. Qed.

Lemma find_same {A : Type} (P Q : A -> bool) (l : list A) :
  (∀ e, e ∈ l -> P e = Q e) -> List.find P l = List.find Q l.
Proof.
  induction l as [|e l IH]; [reflexivity|]. intros H. cbn [List.find].
  rewrite (H e) by left. destruct (Q e); [reflexivity|].
  apply IH. intros e' He'. apply H. by right.
Qed.

Lemma drop_chars_shorter k s : String.length (drop_chars k s) ≤ String.length s.
Proof.
  revert s; induction k as [|k IH]; intros [|c r]; cbn; try lia.
  specialize (IH r). lia.
Qed.

(** A change of the letters of ASCII, byte by byte, is lost in the
    uppercase form. *)
Section CaseChange.

Variable f : ascii -> ascii.
Variable change : string -> string.
Hypothesis change_empty : change "" = "".
Hypothesis change_cons : ∀ c r, change (String c r) = String (f c) (change r).
Hypothesis f_beyond : ∀ c, Py.is_ascii c = false -> f c = c.
Hypothesis f_ascii : ∀ c,
  Py.is_ascii c = true -> Py.is_ascii (f c) = true ∧ Py.upper_char (f c) = Py.upper_char c.

Lemma startswith_changed q : ∀ r,
  all_chars Py.is_continuation q = true ->
  Py.startswith q (change r) = Py.startswith q r.
Proof.
  induction q as [|a q IH]; intros r Hq; [reflexivity|].
  cbn [all_chars] in Hq. apply andb_prop in Hq as [Ha Hq].
  destruct r as [|b r]; [by rewrite change_empty|].
  rewrite change_cons, !startswith_cons, (IH r Hq). f_equal.
  destruct (Py.is_ascii b) eqn:B; [|by rewrite f_beyond].
  destruct (f_ascii b B) as [B' _]. apply continuation_not_ascii in Ha.
  destruct (Ascii.eqb a (f b)) eqn:E1; [apply Ascii.eqb_eq in E1; congruence|].
  destruct (Ascii.eqb a b) eqn:E2; [apply Ascii.eqb_eq in E2; congruence|reflexivity].
Qed.

Lemma upper_at_changed c r :
  Py.upper_at (String c (change r)) = Py.upper_at (String c r).
Proof.
  unfold Py.upper_at. apply find_same. intros [point image] He. cbn [fst].
  apply upper_images_shape in He. unfold is_special_point in He. cbn [fst snd] in He.
  destruct point as [|a rest]; [discriminate He|].
  apply andb_prop in He as [[[_ Hc]%andb_prop _]%andb_prop _].
  by rewrite !startswith_cons, startswith_changed.
Qed.

Lemma drop_chars_changed k : ∀ r, drop_chars k (change r) = change (drop_chars k r).
Proof.
  induction k as [|k IH]; intros [|c r]; try reflexivity.
  - by rewrite change_empty.
  - rewrite change_cons. apply IH.
Qed.

Lemma upper_case_change s : Py.upper (change s) = Py.upper s.
Proof.
  induction s as [s IH] using shorter_ind. destruct s as [|c r].
  { by rewrite change_empty. }
  assert (IHr : ∀ k, Py.upper (change (drop_chars k r)) = Py.upper (drop_chars k r)).
  { intros k. apply IH. pose proof (drop_chars_shorter k r). cbn. lia. }
  pose proof (IHr 0) as IH0. change (drop_chars 0 r) with r in IH0.
  rewrite change_cons, !upper_cons. destruct (Py.is_ascii c) eqn:A.
  - destruct (f_ascii c A) as [-> ->]. by rewrite IH0.
  - rewrite (f_beyond c A), A, upper_at_changed.
    destruct (Py.upper_at (String c r)) as [[point image]|].
    + by rewrite drop_chars_changed, IHr.
    + by rewrite IH0.
Qed.

End CaseChange.

Lemma upper_of_lower s : Py.upper (Py.lower s) = Py.upper s.
Proof.
  apply (upper_case_change Py.lower_char); try reflexivity.
  - intros c. each_char c.
  - intros c. each_char c.
Qed.

(** *** Uppercasing twice *)

Lemma startswith_app_cases p : ∀ x z,
  Py.startswith p (x +:+ z) = true ->
  Py.startswith p x = true ∨ Py.startswith x p = true.
Proof.
  induction p as [|a p IH]; intros x z H; [by left|].
  destruct x as [|b x]; [by right|].
  rewrite append_cons, startswith_cons in H. rewrite !startswith_cons.
  apply andb_prop in H as [E H]. rewrite (Ascii.eqb_sym b a), E.
  exact (IH x z H).
Qed.

Lemma find_nothing {A : Type} (P : A -> bool) (l : list A) :
  (∀ e, e ∈ l -> P e = false) -> List.find P l = None.
Proof.
  intros H. destruct (List.find P l) as [e|] eqn:E; [|reflexivity].
  apply find_some in E as [Hin He]. apply list_elem_of_In in Hin.
  by rewrite (H e Hin) in He.
Qed.

(** The images of the case table stay as they are, and open a code point. *)
Lemma upper_images_settled e :
  e ∈ Py.upper_images -> settled e.2 = true ∧ at_boundary e.2 = true.
Proof.
  assert (H : forallb (fun e : string * string => settled e.2 && at_boundary e.2)
                Py.upper_images = true) by (vm_compute; reflexivity).
  rewrite forallb_forall in H. intros He.
  apply andb_prop, H. by apply list_elem_of_In.
Qed.

Lemma upper_settled x : ∀ z,
  settled x = true -> Py.upper (x +:+ z) = x +:+ Py.upper z.
Proof.
  induction x as [|c r IH]; intros z H; [reflexivity|].
  cbn [settled] in H. apply andb_prop in H as [Hc Hr].
  rewrite !append_cons, upper_cons, (IH z Hr).
  destruct (Py.is_ascii c).
  { apply Ascii.eqb_eq in Hc. by rewrite Hc. }
  assert (N : Py.upper_at (String c (r +:+ z)) = None).
  { unfold Py.upper_at. apply find_nothing. intros e He. rewrite forallb_forall in Hc.
    specialize (Hc e (proj1 (list_elem_of_In _ _) He)).
    apply andb_prop in Hc as [N1 N2]. rewrite <- append_cons.
    destruct (Py.startswith e.1 (String c r +:+ z)) eqn:S; [|reflexivity].
    apply startswith_app_cases in S as [S | S]; rewrite S in *; discriminate. }
  by rewrite N.
Qed.

Lemma startswith_upper q : ∀ r,
  all_chars Py.is_continuation q = true ->
  Py.startswith q (Py.upper r) = Py.startswith q r.
Proof.
  induction q as [|d q IH]; intros r Hq; [reflexivity|].
  cbn [all_chars] in Hq. apply andb_prop in Hq as [Hd Hq].
  destruct r as [|b r]; [reflexivity|].
  assert (Nb : ∀ a, Py.is_continuation a = false -> Ascii.eqb d a = false).
  { intros a Ha. destruct (Ascii.eqb d a) eqn:E; [|reflexivity].
    apply Ascii.eqb_eq in E as <-. congruence. }
  rewrite upper_cons. destruct (Py.is_ascii b) eqn:B.
  { rewrite !startswith_cons, !Nb; [reflexivity|by apply ascii_not_continuation|].
    apply ascii_not_continuation. revert B. each_char b. }
  destruct (Py.upper_at (String b r)) as [[point image]|] eqn:E.
  2:{ by rewrite !startswith_cons, IH. }
  pose proof E as [Hin _]%find_some. apply list_elem_of_In in Hin.
  destruct (upper_images_settled _ Hin) as [_ Hb]. cbn [snd] in Hb.
  pose proof (upper_images_shape _ Hin) as Hs. unfold is_special_point in Hs.
  cbn [fst snd] in Hs.
  apply upper_at_some in E as (a & rest & t & -> & [= <- ->] & _ & Hi & _).
  apply andb_prop in Hs as [[[[_ Ha]%andb_prop _]%andb_prop _]%andb_prop _].
  apply negb_true_iff in Ha.
  destruct image as [|i image]; [done|]. cbn [at_boundary] in Hb.
  apply negb_true_iff in Hb.
  by rewrite append_cons, !startswith_cons, !Nb.
Qed.

Lemma upper_at_upper c r : Py.upper_at (String c (Py.upper r)) = Py.upper_at (String c r).
Proof.
  unfold Py.upper_at. apply find_same. intros [point image] He. cbn [fst].
  apply upper_images_shape in He. unfold is_special_point in He. cbn [fst snd] in He.
  destruct point as [|a rest]; [discriminate He|].
  apply andb_prop in He as [[[_ Hc]%andb_prop _]%andb_prop _].
  by rewrite !startswith_cons, startswith_upper.
Qed.

Lemma upper_of_upper s : Py.upper (Py.upper s) = Py.upper s.
Proof.
  induction s as [s IH] using shorter_ind. destruct s as [|c r]; [reflexivity|].
  rewrite (upper_cons c r). destruct (Py.is_ascii c) eqn:A.
  { rewrite upper_cons. replace (Py.is_ascii (Py.upper_char c)) with true
      by (revert A; each_char c).
    rewrite IH by (cbn; lia). f_equal. revert A. each_char c. }
  destruct (Py.upper_at (String c r)) as [[point image]|] eqn:E.
  - pose proof E as [Hin _]%find_some. apply list_elem_of_In in Hin.
    destruct (upper_images_settled _ Hin) as [Hs _]. cbn [snd] in Hs.
    rewrite (upper_settled _ _ Hs), IH; [reflexivity|].
    pose proof (drop_chars_shorter (String.length point - 1) r). cbn. lia.
  - rewrite upper_cons, A, upper_at_upper, E, IH by (cbn; lia). reflexivity.
Qed.

(** The trait name depends on the model string through its uppercase form
    only. *)
Lemma trait_name_of_upper s s' :
  Py.upper s = Py.upper s' ->
  generate_trait_name (Some s) = generate_trait_name (Some s').
Proof.
  intros H. unfold generate_trait_name. cbn [default from_option id].
  rewrite H. destruct s, s'; try reflexivity.
  - symmetry in H. by apply upper_empty in H.
  - by apply upper_empty in H.
Qed.

(** Model strings that differ in the case of their letters get the same trait
    name. *)
Theorem trait_name_ignores_case (cpu_model : string) :
  generate_trait_name (Some (Py.upper cpu_model)) = generate_trait_name (Some cpu_model)
  ∧ generate_trait_name (Some (Py.lower cpu_model)) = generate_trait_name (Some cpu_model).
Proof.
  split; apply trait_name_of_upper; [apply upper_of_upper|apply upper_of_lower].
Qed.

(** Every trait name the method derives is one the CUSTOM pattern matches, so
    the filters of [clear_openstack_traits] and of the assignment find it. *)
Lemma trait_name_custom (cpu_model : option string) :
  Py.re_match _CUSTOM_TRAIT_PATTERN (generate_trait_name cpu_model) = Some "CUSTOM_".
Proof.
  destruct (trait_name_shape cpu_model) as [-> | (c & _ & ->)]; [reflexivity|].
  destruct (vendor_prefix_cases c) as [-> | ->]; reflexivity.
Qed.

Lemma startswith_empty p : Py.startswith p "" = true -> p = "".
Proof. destruct p; [reflexivity|discriminate]. Qed.

Lemma contains_empty p : p ≠ "" -> Py.contains p "" = false.
Proof. destruct p; [contradiction|reflexivity]. Qed.

(** *** Uppercasing, part by part *)

Lemma startswith_behind q : ∀ x z,
  all_chars Py.is_continuation q = true -> at_boundary z = true ->
  Py.startswith q (x +:+ z) = Py.startswith q x.
Proof.
  induction q as [|d q IH]; intros x z Hq Hz; [reflexivity|].
  cbn [all_chars] in Hq. apply andb_prop in Hq as [Hd Hq].
  destruct x as [|e x].
  - rewrite append_empty. destruct z as [|e z]; [reflexivity|].
    rewrite startswith_cons. cbn [at_boundary] in Hz.
    destruct (Ascii.eqb d e) eqn:E; [|reflexivity].
    apply Ascii.eqb_eq in E as ->. by rewrite Hd in Hz.
  - by rewrite append_cons, !startswith_cons, IH.
Qed.

Lemma upper_at_behind c x z :
  at_boundary z = true ->
  Py.upper_at (String c (x +:+ z)) = Py.upper_at (String c x).
Proof.
  intros Hz. unfold Py.upper_at. apply find_same. intros [point image] He. cbn [fst].
  apply upper_images_shape in He. unfold is_special_point in He. cbn [fst snd] in He.
  destruct point as [|a rest]; [discriminate He|].
  apply andb_prop in He as [[[_ Hc]%andb_prop _]%andb_prop _].
  by rewrite !startswith_cons, startswith_behind.
Qed.

Lemma drop_chars_app_l k x z :
  k ≤ String.length x -> drop_chars k (x +:+ z) = drop_chars k x +:+ z.
Proof.
  revert x; induction k as [|k IH]; intros [|c x] H; try reflexivity; cbn in H; [lia|].
  rewrite append_cons. apply IH. lia.
Qed.

(** In front of a text that opens a code point, the uppercase form of the
    whole is that of the parts. *)
Lemma upper_app x z :
  at_boundary z = true -> Py.upper (x +:+ z) = Py.upper x +:+ Py.upper z.
Proof.
  intros Hz. induction x as [x IH] using shorter_ind. destruct x as [|c x]; [reflexivity|].
  rewrite append_cons, !upper_cons, upper_at_behind by exact Hz.
  destruct (Py.is_ascii c).
  { rewrite append_cons, IH by (cbn; lia). reflexivity. }
  destruct (Py.upper_at (String c x)) as [[point image]|] eqn:E.
  2:{ rewrite append_cons, IH by (cbn; lia). reflexivity. }
  apply upper_at_some in E as (a & rest & t & -> & [= <- ->] & _).
  cbn [String.length Nat.sub]. rewrite Nat.sub_0_r.
  rewrite drop_chars_app_l by (rewrite string_length_app; lia).
  rewrite drop_chars_app, IH, append_assoc; [reflexivity|].
  cbn [String.length]. rewrite string_length_app. lia.
Qed.

Lemma last_char_split g l : last_char g = Some l -> ∃ g', g = g' +:+ String l "".
Proof.
  induction g as [|c g IH]; [discriminate|]. rewrite last_char_cons.
  destruct g as [|d g].
  - intros [= ->]. by exists "".
  - intros (g' & E)%IH. exists (String c g'). by rewrite append_cons, <- E.
Qed.

(** A spelling of a vendor is uppercased by itself, wherever it stands. *)
Lemma upper_around vendor g x t :
  vendor_spelling vendor g = true ->
  Py.upper (x +:+ g +:+ t) = Py.upper x +:+ Py.upper g +:+ Py.upper t.
Proof.
  unfold vendor_spelling. intros [[B L]%andb_prop _]%andb_prop.
  destruct (last_char g) as [l|] eqn:E; [|discriminate].
  apply last_char_split in E as (g' & ->).
  assert (Hl : ∀ u, at_boundary (String l u) = true).
  { intros u. cbn. by rewrite ascii_not_continuation. }
  rewrite upper_app.
  2:{ destruct g'; [apply Hl|exact B]. }
  f_equal. rewrite append_assoc, append_cons, append_empty.
  rewrite !upper_app by apply Hl. rewrite append_assoc. f_equal.
  rewrite !upper_cons, L. reflexivity.
Qed.

(** A word of capital letters that no token holds survives the cleaning. *)
Section WordSurvives.

Variable word : string.
Hypothesis word_capital : all_chars Py.is_AZ word = true.
Hypothesis word_not_empty : word ≠ "".
Hypothesis word_not_in_token :
  ∀ t rest, behind_token t = Some rest -> Py.contains word t = false.

Lemma capital_not_underscore a : Py.is_AZ a = true -> Ascii.eqb a "_" = false.
Proof. each_char a. Qed.

Lemma capital_not_continuation a : Py.is_AZ a = true -> Py.is_continuation a = false.
Proof. each_char a. Qed.

Lemma capital_not_blank a : Py.is_AZ a = true -> starts_blank a = false.
Proof. each_char a. Qed.

Lemma capital_kept a : Py.is_AZ a = true -> Py.is_AZ a || Py.is_09 a = true.
Proof. by intros ->. Qed.

Lemma word_not_at c r : Py.is_AZ c = false -> Py.startswith word (String c r) = false.
Proof.
  intros Hc. destruct word as [|a p] eqn:E; [contradiction|].
  cbn [all_chars] in word_capital. apply andb_prop in word_capital as [Ha _].
  rewrite startswith_cons. destruct (Ascii.eqb a c) eqn:Eq; [|reflexivity].
  apply Ascii.eqb_eq in Eq as ->. congruence.
Qed.

Lemma word_not_at_underscore r : Py.startswith word (String "_" r) = false.
Proof. by apply word_not_at. Qed.

Lemma word_behind b t :
  all_chars (fun c => negb (Py.is_AZ c)) b = true ->
  Py.contains word (b +:+ t) = true -> Py.contains word t = true.
Proof.
  induction b as [|c b IH]; [done|]. cbn [all_chars].
  intros [Hc Hb]%andb_prop. rewrite append_cons, contains_cons.
  rewrite word_not_at by (by apply negb_true_iff). apply IH, Hb.
Qed.

Lemma blanks_hold_no_capital b :
  b ∈ Py.spaces -> all_chars (fun c => negb (Py.is_AZ c)) b = true.
Proof.
  revert b. apply Forall_forall. repeat constructor.
Qed.

Lemma word_behind_blank s t :
  Py.after_space s = Some t -> Py.contains word s = true -> Py.contains word t = true.
Proof.
  intros (b & _ & Hb & -> & _)%after_space_found. by apply word_behind, blanks_hold_no_capital.
Qed.

Lemma word_behind_blanks r :
  Py.contains word r = true -> Py.contains word (skip_blanks r) = true.
Proof.
  induction r as [r IH] using shorter_ind. rewrite skip_blanks_step.
  destruct (Py.after_space r) as [t|] eqn:E; [|done].
  intros H. apply IH; [by apply after_space_shorter|]. by apply (word_behind_blank r).
Qed.

Lemma start_survives_strip_token q : ∀ s,
  all_chars Py.is_AZ q = true ->
  Py.startswith q s = true -> Py.startswith q (strip_token_before_end s) = true.
Proof.
  induction q as [|a q IH]; intros s Hq H; [reflexivity|].
  cbn [all_chars] in Hq. apply andb_prop in Hq as [Ha Hq].
  destruct s as [|b s]; [discriminate|]. rewrite startswith_cons in H.
  apply andb_prop in H as [H1 H2]. apply Ascii.eqb_eq in H1 as <-.
  cbn [strip_token_before_end].
  destruct (Py.after_space (String a s)) as [t|] eqn:B.
  { apply after_space_start in B. by rewrite capital_not_blank in B. }
  rewrite startswith_cons, Ascii.eqb_refl. apply IH; assumption.
Qed.

Lemma word_survives_strip_token s :
  Py.contains word s = true -> Py.contains word (strip_token_before_end s) = true.
Proof.
  induction s as [|c r IH]; [done|]. intros H.
  cbn [strip_token_before_end]. destruct (Py.after_space (String c r)) as [t|] eqn:B.
  - destruct (behind_token (skip_blanks t)) as [rest|] eqn:T.
    + exfalso. apply (word_behind_blank _ _ B), word_behind_blanks in H.
      rewrite (word_not_in_token _ _ T) in H. discriminate.
    + rewrite contains_cons in H. rewrite word_not_at in H.
      * rewrite contains_cons, (IH H). apply orb_true_r.
      * apply after_space_start in B. destruct (Py.is_AZ c) eqn:Hc; [|reflexivity].
        by rewrite capital_not_blank in B.
  - rewrite contains_cons in *. apply orb_prop in H as [H | H].
    + apply (start_survives_strip_token word _ word_capital) in H.
      cbn [strip_token_before_end] in H. rewrite B in H. rewrite H. reflexivity.
    + rewrite (IH H). apply orb_true_r.
Qed.

Lemma replace_specials_skip k s :
  replace_specials_from k s = replace_specials (drop_chars k s).
Proof.
  revert s; induction k as [|k IH]; intros s; [by destruct s|].
  destruct s as [|c r]; [reflexivity|]. apply IH.
Qed.

Lemma replace_specials_cons c r :
  replace_specials (String c r)
  = if Py.is_AZ c || Py.is_09 c then String c (replace_specials r)
    else String "_" (replace_specials
                       (drop_chars (if Py.continued (Py.announced c) r
                                    then Py.announced c else 0) r)).
Proof.
  unfold replace_specials at 1. cbn [replace_specials_from].
  destruct (Py.is_AZ c || Py.is_09 c); [reflexivity|].
  rewrite replace_specials_skip. cbn [Py.width].
  destruct (Py.continued (Py.announced c) r); cbn [Nat.sub]; by rewrite ?Nat.sub_0_r.
Qed.

Lemma start_survives_replace q : ∀ s,
  all_chars Py.is_AZ q = true ->
  Py.startswith q s = true -> Py.startswith q (replace_specials s) = true.
Proof.
  induction q as [|a q IH]; intros s Hq H; [reflexivity|].
  cbn [all_chars] in Hq. apply andb_prop in Hq as [Ha Hq].
  destruct s as [|b s]; [discriminate|]. rewrite startswith_cons in H.
  apply andb_prop in H as [H1 H2]. apply Ascii.eqb_eq in H1 as <-.
  rewrite replace_specials_cons, (capital_kept a Ha), startswith_cons, Ascii.eqb_refl.
  apply IH; assumption.
Qed.

Lemma word_behind_continued k : ∀ r,
  Py.continued k r = true -> Py.contains word r = true ->
  Py.contains word (drop_chars k r) = true.
Proof.
  induction k as [|k IH]; intros r; [by destruct r|].
  destruct r as [|d r]; [discriminate|]. cbn [Py.continued drop_chars].
  intros [Hd Hr]%andb_prop. rewrite contains_cons, word_not_at.
  - by apply IH.
  - destruct (Py.is_AZ d) eqn:E; [|reflexivity]. by rewrite capital_not_continuation in Hd.
Qed.

Lemma word_survives_replace s :
  Py.contains word s = true -> Py.contains word (replace_specials s) = true.
Proof.
  induction s as [s IH] using shorter_ind. destruct s as [|c r]; [done|].
  rewrite contains_cons. intros [H | H]%orb_prop.
  - by apply contains_start, start_survives_replace, H.
  - rewrite replace_specials_cons. destruct (Py.is_AZ c || Py.is_09 c).
    + rewrite contains_cons, IH; [apply orb_true_r|cbn; lia|exact H].
    + rewrite contains_cons, IH; [apply orb_true_r| |].
      * pose proof (drop_chars_shorter
                      (if Py.continued (Py.announced c) r then Py.announced c else 0) r).
        cbn [String.length]. lia.
      * destruct (Py.continued (Py.announced c) r) eqn:K; [|by destruct r].
        by apply word_behind_continued.
Qed.

Lemma start_survives_collapse q : ∀ s,
  all_chars Py.is_AZ q = true ->
  Py.startswith q s = true -> Py.startswith q (collapse_underscores s) = true.
Proof.
  induction q as [|a q IH]; intros s Hq H; [reflexivity|].
  cbn [all_chars] in Hq. apply andb_prop in Hq as [Ha Hq].
  destruct s as [|b s]; [discriminate|]. rewrite startswith_cons in H.
  apply andb_prop in H as [H1 H2]. apply Ascii.eqb_eq in H1 as <-.
  rewrite collapse_other by (apply capital_not_underscore; exact Ha).
  rewrite startswith_cons, Ascii.eqb_refl. apply IH; assumption.
Qed.

Lemma word_survives_collapse s :
  Py.contains word s = true -> Py.contains word (collapse_underscores s) = true.
Proof.
  induction s as [|c r IH]; [done|]. rewrite contains_cons.
  intros [H | H]%orb_prop.
  - apply (start_survives_collapse word _ word_capital) in H.
    destruct (collapse_underscores (String c r)) as [|d u];
      [apply startswith_empty in H; contradiction|].
    rewrite contains_cons, H. reflexivity.
  - destruct (collapse_cases c r) as [-> | ->]; [exact (IH H)|].
    rewrite contains_cons, (IH H). apply orb_true_r.
Qed.

Lemma word_survives_skip s :
  Py.contains word s = true -> Py.contains word (skip_underscores s) = true.
Proof.
  induction s as [|c r IH]; [done|]. cbn [skip_underscores].
  destruct (Ascii.eqb c "_") eqn:E; [|done].
  apply Ascii.eqb_eq in E as ->.
  rewrite contains_cons, word_not_at_underscore. exact IH.
Qed.

Lemma start_survives_rstrip q : ∀ s,
  all_chars Py.is_AZ q = true ->
  Py.startswith q s = true -> Py.startswith q (Py.rstrip "_" s) = true.
Proof.
  induction q as [|a q IH]; intros s Hq H; [reflexivity|].
  cbn [all_chars] in Hq. apply andb_prop in Hq as [Ha Hq].
  destruct s as [|b s]; [discriminate|]. rewrite startswith_cons in H.
  apply andb_prop in H as [H1 H2]. apply Ascii.eqb_eq in H1 as <-.
  specialize (IH s Hq H2). rewrite rstrip_cons.
  destruct (Py.rstrip "_" s) as [|d u].
  - apply startswith_empty in IH as ->. cbn [Py.char_in].
    rewrite (capital_not_underscore a Ha). cbn [orb].
    rewrite startswith_cons, Ascii.eqb_refl. reflexivity.
  - rewrite startswith_cons, Ascii.eqb_refl. exact IH.
Qed.

Lemma word_survives_rstrip s :
  Py.contains word s = true -> Py.contains word (Py.rstrip "_" s) = true.
Proof.
  induction s as [|c r IH]; [done|]. rewrite contains_cons.
  intros [H | H]%orb_prop.
  - apply (start_survives_rstrip word _ word_capital) in H.
    destruct (Py.rstrip "_" (String c r)) as [|d u];
      [apply startswith_empty in H; contradiction|].
    rewrite contains_cons, H. reflexivity.
  - specialize (IH H). rewrite rstrip_cons.
    destruct (Py.rstrip "_" r) as [|d u];
      [rewrite contains_empty in IH by exact word_not_empty; discriminate|].
    rewrite contains_cons, IH. apply orb_true_r.
Qed.

Lemma word_survives_cleaning s :
  Py.contains word s = true ->
  Py.contains word
    (Py.strip "_" (collapse_underscores (replace_specials (strip_token_before_end s))))
  = true.
Proof.
  intros H. unfold Py.strip. rewrite lstrip_underscores.
  apply word_survives_rstrip, word_survives_skip, word_survives_collapse,
    word_survives_replace, word_survives_strip_token, H.
Qed.

End WordSurvives.

Lemma no_token_holds t rest word :
  word = "INTEL" ∨ word = "AMD" ∨ word = "NTEL" ->
  behind_token t = Some rest -> Py.contains word t = false.
Proof.
  intros W [[-> _] | [[-> _] | [[-> _] | [-> _]]]]%behind_token_cases;
    destruct W as [-> | [-> | ->]]; reflexivity.
Qed.

(** A model string the vendor pattern matches is cleaned to a name that is
    not empty, and that holds the vendor found when this is INTEL or AMD. *)
Lemma vendor_model_cleaned s g :
  Py.search _INTEL_AMD_PATTERN s = Some g ->
  let c := spec_clean_by_steps strip_token_before_end s in
  (Py.upper g = "INTEL" ∨ Py.upper g = "AMD" ∨ Py.upper g = "İNTEL")
  ∧ Py.contains (vendor_word (Py.upper g)) c = true
  ∧ c ≠ ""
  ∧ (ascii_text s = true -> Py.upper g ≠ "İNTEL").
Proof.
  intros (vendor & x & t & Hv & -> & Sp)%search_vendor c.
  pose proof (spelling_upper vendor g Hv Sp) as U.
  assert (W : vendor_word (Py.upper g) = "INTEL" ∨ vendor_word (Py.upper g) = "AMD"
              ∨ vendor_word (Py.upper g) = "NTEL").
  { destruct U as [-> | [-> | ->]]; auto. }
  assert (Hc : Py.contains (vendor_word (Py.upper g)) c = true).
  { apply word_survives_cleaning.
    - destruct W as [-> | [-> | ->]]; reflexivity.
    - destruct W as [-> | [-> | ->]]; discriminate.
    - intros t0 rest. by apply no_token_holds.
    - rewrite (upper_around vendor g x t Sp). apply contains_app_r.
      destruct U as [-> | [-> | ->]].
      + apply contains_start, startswith_app.
      + apply contains_start, startswith_app.
      + apply (contains_mid "NTEL" "İ"). }
  split; [exact U|]. split; [exact Hc|]. split.
  - intros E. rewrite E in Hc. destruct W as [W | [W | W]]; rewrite W in Hc; discriminate Hc.
  - intros Ha. destruct (ascii_spelling vendor g x t Sp Ha) as [-> _].
    destruct Hv as [-> | ->]; discriminate.
Qed.

Lemma vendor_name_facts (cpu_model : string) :
  has_vendor_text cpu_model = true ->
  well_formed_trait (generate_trait_name (Some cpu_model)) = true
  ∧ ∃ vendor,
      get_cpu_vendor (Some cpu_model) = Some vendor
      ∧ (vendor = "INTEL" ∨ vendor = "AMD" ∨ vendor = "İNTEL")
      ∧ (ascii_text cpu_model = true -> vendor ≠ "İNTEL")
      ∧ (vendor ≠ "İNTEL" ->
         generate_trait_name (Some cpu_model)
         = "CUSTOM_" +:+ spec_clean_by_steps strip_token_before_end cpu_model
         ∧ Py.contains vendor (generate_trait_name (Some cpu_model)) = true).
Proof.
  unfold has_vendor_text.
  destruct (Py.search _INTEL_AMD_PATTERN cpu_model) as [g|] eqn:S; [|discriminate].
  intros _. destruct (vendor_model_cleaned cpu_model g S) as (U & Hc & Hn & Ha).
  set (c := spec_clean_by_steps strip_token_before_end cpu_model) in *.
  assert (Hm : cpu_model ≠ "").
  { intros ->. vm_compute in S. discriminate S. }
  assert (E : generate_trait_name (Some cpu_model) = vendor_prefix c +:+ c).
  { rewrite generate_trait_name_steps. unfold spec_trait_name_by_steps.
    destruct cpu_model; [contradiction|reflexivity]. }
  assert (G : get_cpu_vendor (Some cpu_model) = Some (Py.upper g)).
  { unfold get_cpu_vendor. destruct cpu_model; [contradiction|].
    cbn [Py.falsy default from_option id]. by rewrite S. }
  split.
  - apply trait_name_well_formed. rewrite E. intros X.
    destruct (vendor_prefix_cases c) as [P | P]; rewrite P in X.
    + rewrite !append_cons, append_empty in X. injection X as X.
      rewrite X in P. vm_compute in P. discriminate P.
    + apply (f_equal String.length) in X. rewrite string_length_app in X.
      destruct c; [contradiction|]. cbn [String.length] in X. lia.
  - exists (Py.upper g). split; [exact G|]. split; [exact U|]. split; [exact Ha|].
    intros N. rewrite E.
    assert (V : Py.contains (Py.upper g) c = true).
    { destruct U as [U | [U | U]]; [| |contradiction]; rewrite U in Hc |- *; exact Hc. }
    assert (P : vendor_prefix c = "CUSTOM_").
    { unfold vendor_prefix. destruct U as [U | [U | U]]; [| |contradiction];
        rewrite U in V; rewrite V, ?orb_true_r; reflexivity. }
    rewrite P. split; [reflexivity|]. by apply contains_app_r.
Qed.

(** For a model string with a vendor, the one kind the callers derive names
    from, the trait name is well formed.  The vendor [get_cpu_vendor]
    reports is INTEL or AMD, or İNTEL for a model string that spells the i
    as U+0130, which a string of ASCII does not; but for this last vendor,
    the name is CUSTOM_ and the cleaned string, and the vendor stands in
    it. *)
Theorem vendor_trait_name (cpu_model : string) :
  has_vendor_text cpu_model = true ->
  well_formed_trait (generate_trait_name (Some cpu_model)) = true
  ∧ ∃ vendor,
      get_cpu_vendor (Some cpu_model) = Some vendor
      ∧ (vendor = "INTEL" ∨ vendor = "AMD" ∨ vendor = "İNTEL")
      ∧ (ascii_text cpu_model = true -> vendor ≠ "İNTEL")
      ∧ (vendor ≠ "İNTEL" ->
         generate_trait_name (Some cpu_model)
         = "CUSTOM_" +:+ spec_clean_by_steps strip_token_before_end cpu_model
         ∧ Py.contains vendor (generate_trait_name (Some cpu_model)) = true).
Proof. exact (vendor_name_facts cpu_model). Qed.

Lemma vendor_trait_name_witness :
  well_formed_trait
    (generate_trait_name (Some "Intel(R) Core(TM) i7-8700K CPU @ 3.70GHz")) = true.
Proof.
  apply (vendor_trait_name "Intel(R) Core(TM) i7-8700K CPU @ 3.70GHz"). reflexivity.
Defined.

Lemma trait_names_facts (filtered_machines : list machine) (t : string) :
  t ∈ trait_names_of filtered_machines ->
  well_formed_trait t = true
  ∧ Py.re_match _CUSTOM_TRAIT_PATTERN t = Some "CUSTOM_"
  ∧ ∃ m, m ∈ filtered_machines ∧ has_vendor m = true
         ∧ t = generate_trait_name (Some (cpu_model_of m)).
Proof.
  unfold trait_names_of. rewrite elem_of_list_to_set, list_elem_of_fmap.
  intros (m & -> & Hm). apply list_elem_of_In, filter_In in Hm as [Hm V].
  split; [apply vendor_name_facts, V|].
  split; [apply trait_name_custom|].
  exists m. split; [apply list_elem_of_In, Hm|]. auto.
Qed.

(** Every name in the set [trait_names] of [create_openstack_traits] comes
    from a machine with a vendor model, is well formed, and is one the CUSTOM
    pattern matches: the bare prefix never reaches the placement service. *)
Theorem created_trait_names_well_formed (filtered_machines : list machine) (t : string) :
  t ∈ trait_names_of filtered_machines ->
  well_formed_trait t = true
  ∧ Py.re_match _CUSTOM_TRAIT_PATTERN t = Some "CUSTOM_"
  ∧ ∃ m, m ∈ filtered_machines ∧ has_vendor m = true
         ∧ t = generate_trait_name (Some (cpu_model_of m)).
Proof. exact (trait_names_facts filtered_machines t). Qed.

Lemma created_trait_names_well_formed_witness :
  well_formed_trait "CUSTOM_AMD_EPYC_7551P_32_CORE" = true.
Proof.
  apply (created_trait_names_well_formed sample_maas_machines).
  unfold trait_names_of. apply elem_of_list_to_set, list_elem_of_In.
  vm_compute. right. left. reflexivity.
Defined.

(** ** [filter_machines], once more *)

Lemma comprehension_kept keep machines : ∀ kept,
  comprehension keep machines = Ok kept -> ∀ m, m ∈ kept -> keep m = Ok true.
Proof.
  induction machines as [|x ms IH]; intros kept.
  - intros [= <-] m Hm. inversion Hm.
  - cbn [comprehension]. destruct (keep x) as [b|e] eqn:K; [|discriminate].
    cbn. destruct (comprehension keep ms) as [rest|e]; [|discriminate].
    cbn. intros [= <-] m Hm. destruct b.
    + apply elem_of_cons in Hm as [-> | Hm]; [exact K|]. exact (IH rest eq_refl m Hm).
    + exact (IH rest eq_refl m Hm).
Qed.

(** Filtering what the filter returned changes nothing. *)
Theorem filter_machines_idempotent
    (machines kept : list machine) (zone_arg : option string) (deployed_only : bool)
    (tags : list string) :
  filter_machines machines zone_arg deployed_only tags = Ok kept ->
  filter_machines kept zone_arg deployed_only tags = Ok kept.
Proof.
  rewrite !filter_machines_comprehension. intros H.
  rewrite (comprehension_filter _ (λ _, true)); [rewrite filter_all; reflexivity|].
  apply (comprehension_kept _ _ _ H).
Qed.

Lemma filter_machines_idempotent_witness :
  filter_machines
    (List.filter (passes (Some "zone-1") true ["compute"]) sample_maas_machines)
    (Some "zone-1") true ["compute"]
  = Ok (List.filter (passes (Some "zone-1") true ["compute"]) sample_maas_machines).
Proof.
  apply (filter_machines_idempotent sample_maas_machines). vm_compute. reflexivity.
Defined.

Lemma tags_set_of_same tags1 tags2 :
  (∀ t, t ∈ tags1 ↔ t ∈ tags2) -> tags_set_of tags1 = tags_set_of tags2.
Proof.
  intros H. apply set_eq. intros t. rewrite !tags_set_of_elem. apply H.
Qed.

(** The filter sees the tags as a set and an empty zone as no zone: the order
    of the wanted tags and their repetitions do not matter, whatever the
    machines, also where the filter raises. *)
Theorem filter_machines_tags_as_set
    (machines : list machine) (zone_arg : option string) (deployed_only : bool)
    (tags1 tags2 : list string) :
  (∀ t, t ∈ tags1 ↔ t ∈ tags2) ->
  filter_machines machines zone_arg deployed_only tags1
  = filter_machines machines zone_arg deployed_only tags2
  ∧ filter_machines machines (Some "") deployed_only tags1
    = filter_machines machines None deployed_only tags2.
Proof.
  intros H. rewrite !filter_machines_comprehension, (tags_set_of_same _ _ H).
  split; reflexivity.
Qed.

Lemma filter_machines_tags_as_set_witness :
  filter_machines sample_maas_machines None false ["gpu"; "storage"; "gpu"]
  = filter_machines sample_maas_machines None false ["storage"; "gpu"].
Proof.
  apply (filter_machines_tags_as_set sample_maas_machines None false
           ["gpu"; "storage"; "gpu"] ["storage"; "gpu"]).
  intros t. rewrite !elem_of_cons. split; intros H; tauto.
Defined.

Lemma should_include_deployed zone_arg tags_set m :
  should_include_machine zone_arg true tags_set m
  = if is_deployed m then should_include_machine zone_arg false tags_set m else Ok false.
Proof.
  unfold should_include_machine, is_deployed.
  destruct (negb (Py.falsy zone_arg) && _); cbn [andb negb].
  - destruct (bool_decide (status_name m = Some "Deployed")); reflexivity.
  - destruct (bool_decide (status_name m = Some "Deployed")); reflexivity.
Qed.

Lemma comprehension_deployed zone_arg tags_set machines : ∀ kept,
  comprehension (should_include_machine zone_arg false tags_set) machines = Ok kept ->
  comprehension (should_include_machine zone_arg true tags_set) machines
  = Ok (List.filter is_deployed kept).
Proof.
  induction machines as [|x ms IH]; intros kept.
  - intros [= <-]. reflexivity.
  - cbn [comprehension]. rewrite should_include_deployed.
    destruct (should_include_machine zone_arg false tags_set x) as [b|e]; [|discriminate].
    cbn. destruct (comprehension _ ms) as [rest|e] eqn:R; [|discriminate].
    cbn. intros [= <-]. rewrite (IH rest eq_refl).
    destruct (is_deployed x) eqn:D; cbn.
    + destruct b; cbn [List.filter]; [rewrite D|]; reflexivity.
    + destruct b; cbn [List.filter]; [rewrite D|]; reflexivity.
Qed.

Lemma deployed_machines_of_deployed l :
  deployed_machines_of (List.filter is_deployed l) = deployed_machines_of l.
Proof.
  unfold deployed_machines_of, is_deployed.
  induction l as [|m l IH]; [reflexivity|]. cbn [List.filter].
  destruct (bool_decide (status_name m = Some "Deployed")) eqn:D;
    cbn [List.filter andb]; rewrite ?D; cbn [andb]; rewrite IH; reflexivity.
Qed.

(** When the filter returns without the deployed-only flag, it returns with
    the flag too, namely the deployed machines among them; and the machines
    [assign_cpu_traits_to_hypervisors] goes on with are the same either way. *)
Theorem deployed_only_and_assignment
    (machines kept : list machine) (zone_arg : option string) (tags : list string) :
  filter_machines machines zone_arg false tags = Ok kept ->
  filter_machines machines zone_arg true tags = Ok (List.filter is_deployed kept)
  ∧ deployed_machines_of (List.filter is_deployed kept) = deployed_machines_of kept.
Proof.
  rewrite !filter_machines_comprehension. intros H.
  split; [apply comprehension_deployed, H|apply deployed_machines_of_deployed].
Qed.

Lemma deployed_only_and_assignment_witness :
  filter_machines sample_maas_machines None true ["compute"; "storage"]
  = Ok (List.filter is_deployed
          (List.filter (passes None false ["compute"; "storage"]) sample_maas_machines)).
Proof.
  apply (deployed_only_and_assignment sample_maas_machines). vm_compute. reflexivity.
Defined.

(** ** [fetch_maas_data], once more *)

Lemma split_not_empty sep s : Py.split sep s ≠ [].
Proof.
  induction s as [|c r IH]; [discriminate|]. cbn [Py.split].
  destruct (Ascii.eqb c sep); [discriminate|].
  destruct (Py.split sep r); discriminate.
Qed.

Lemma join_cons sep p q rest :
  Py.join sep (p :: q :: rest) = p +:+ sep +:+ Py.join sep (q :: rest).
Proof. reflexivity. Qed.

(** Splitting at a separator and joining with it gives the text back. *)
Lemma join_split sep s : Py.join (String sep "") (Py.split sep s) = s.
Proof.
  induction s as [|c r IH]; [reflexivity|]. cbn [Py.split].
  pose proof (split_not_empty sep r) as N.
  destruct (Ascii.eqb c sep) eqn:E.
  - apply Ascii.eqb_eq in E as ->.
    destruct (Py.split sep r) as [|q rest]; [contradiction|].
    rewrite join_cons, IH. reflexivity.
  - destruct (Py.split sep r) as [|q [|q' rest]]; [contradiction| |].
    + cbn [Py.join] in *. rewrite IH. reflexivity.
    + rewrite join_cons in *. rewrite append_cons, IH. reflexivity.
Qed.

Lemma rstrip_app_char chars c s :
  Py.char_in c chars = true -> Py.rstrip chars (s +:+ String c "") = Py.rstrip chars s.
Proof.
  intros H. induction s as [|a r IH].
  - rewrite append_empty. cbn [Py.rstrip]. rewrite H. reflexivity.
  - rewrite append_cons, !rstrip_cons, IH. reflexivity.
Qed.

(** A run sends one request at most; the request goes to the machines path
    under [MAAS_URL] without its trailing slashes, and its three credentials,
    joined by colons, are [MAAS_API_KEY] as it is set. *)
Theorem fetch_maas_data_request {Json : Type}
    (verbose : bool) (log_prefix : string) (environ : gmap string string)
    (session_get : maas_get -> get_outcome Json) :
  let r := fetch_maas_data verbose log_prefix environ session_get in
  length (requests r) ≤ 1
  ∧ ∀ rq, rq ∈ requests r ->
      ∃ maas_url maas_api_key,
        environ !! "MAAS_URL" = Some maas_url
        ∧ environ !! "MAAS_API_KEY" = Some maas_api_key
        ∧ url rq = Py.rstrip "/" maas_url +:+ "/api/2.0/machines/"
        ∧ client_key (auth rq) +:+ ":" +:+ resource_owner_key (auth rq) +:+ ":"
            +:+ resource_owner_secret (auth rq) = maas_api_key
        ∧ client_secret (auth rq) = ""
        ∧ timeout rq = 30%Z.
Proof.
  cbv zeta. unfold fetch_maas_data.
  destruct (Py.falsy (environ !! "MAAS_URL") || Py.falsy (environ !! "MAAS_API_KEY"))
    eqn:F.
  { cbn [requests]. split; [cbn; lia|]. intros rq Hrq. inversion Hrq. }
  apply orb_false_elim in F as [F1 F2].
  destruct (environ !! "MAAS_URL") as [maas_url|]; [|discriminate F1].
  destruct (environ !! "MAAS_API_KEY") as [maas_api_key|]; [|discriminate F2].
  cbn [default from_option id].
  pose proof (join_split ":" maas_api_key) as J.
  destruct (Py.split ":" maas_api_key) as [|p1 [|p2 [|p3 [|p4 ps]]]];
    try (cbn [requests]; split; [cbn; lia|]; intros rq Hrq; inversion Hrq).
  assert (R : ∀ (r : fetch_run Json) rq0,
            requests r = [rq0] ->
            url rq0 = Py.rstrip "/" maas_url +:+ "/api/2.0/machines/" ->
            client_key (auth rq0) = p1 -> resource_owner_key (auth rq0) = p2 ->
            resource_owner_secret (auth rq0) = p3 -> client_secret (auth rq0) = "" ->
            timeout rq0 = 30%Z ->
            length (requests r) ≤ 1
            ∧ ∀ rq, rq ∈ requests r ->
                ∃ u k, Some maas_url = Some u ∧ Some maas_api_key = Some k
                       ∧ url rq = Py.rstrip "/" u +:+ "/api/2.0/machines/"
                       ∧ client_key (auth rq) +:+ ":" +:+ resource_owner_key (auth rq)
                           +:+ ":" +:+ resource_owner_secret (auth rq) = k
                       ∧ client_secret (auth rq) = "" ∧ timeout rq = 30%Z).
  { intros r rq0 -> U K1 K2 K3 K4 T. split; [cbn; lia|].
    intros rq ->%list_elem_of_singleton. exists maas_url, maas_api_key.
    rewrite U, K1, K2, K3, K4, T. repeat split. exact J. }
  destruct (session_get _) as [e response|response].
  { eapply R; reflexivity. }
  destruct (bool_decide (400 ≤ maas_status response < 600)%Z).
  { eapply R; reflexivity. }
  destruct (maas_json response) as [data|[|] e]; eapply R; reflexivity.
Qed.

(** A run either ends the process with status 1, or returns: then exactly one
    request went out, it was answered with a status outside 400..599, and what
    is returned is the parsed body of that answer. *)
Theorem fetch_maas_data_outcome {Json : Type}
    (verbose : bool) (log_prefix : string) (environ : gmap string string)
    (session_get : maas_get -> get_outcome Json) :
  let r := fetch_maas_data verbose log_prefix environ session_get in
  ended r = SysExit 1
  ∨ ∃ data rq response,
      ended r = Returns data
      ∧ requests r = [rq]
      ∧ session_get rq = Answered response
      ∧ ¬ (400 ≤ maas_status response < 600)%Z
      ∧ maas_json response = Parsed data.
Proof.
  cbv zeta. unfold fetch_maas_data.
  destruct (Py.falsy (environ !! "MAAS_URL") || Py.falsy (environ !! "MAAS_API_KEY"));
    [left; reflexivity|].
  destruct (Py.split ":" _) as [|p1 [|p2 [|p3 [|p4 ps]]]]; try (left; reflexivity).
  destruct (session_get _) as [e response|response] eqn:G; [left; reflexivity|].
  destruct (bool_decide (400 ≤ maas_status response < 600)%Z) eqn:B;
    [left; reflexivity|].
  apply bool_decide_eq_false in B.
  destruct (maas_json response) as [data|[|] e] eqn:J; try (left; reflexivity).
  right. eexists _, _, _. repeat split; [exact G|exact B|exact J].
Qed.

(** A slash more at the end of [MAAS_URL] changes nothing in a run. *)
Theorem fetch_maas_data_trailing_slash {Json : Type}
    (verbose : bool) (log_prefix : string) (environ : gmap string string)
    (session_get : maas_get -> get_outcome Json) (maas_url : string) :
  maas_url ≠ "" ->
  fetch_maas_data verbose log_prefix (<["MAAS_URL" := maas_url +:+ "/"]> environ)
    session_get
  = fetch_maas_data verbose log_prefix (<["MAAS_URL" := maas_url]> environ) session_get.
Proof.
  intros Hn. unfold fetch_maas_data.
  rewrite !lookup_insert_eq, !lookup_insert_ne by discriminate.
  cbn [default from_option id].
  rewrite (rstrip_app_char "/" "/" maas_url eq_refl).
  destruct maas_url as [|a u]; [contradiction|]. reflexivity.
Qed.

Lemma fetch_maas_data_trailing_slash_witness :
  fetch_maas_data (Json := unit) false "[2026-01-01 00:00:00]"
    (<["MAAS_URL" := "http://test:5240/MAAS" +:+ "/"]>
       {[ "MAAS_API_KEY" := "test:key:secret" ]})
    (λ _, RequestException "unreachable" None)
  = fetch_maas_data (Json := unit) false "[2026-01-01 00:00:00]"
      (<["MAAS_URL" := "http://test:5240/MAAS"]>
         {[ "MAAS_API_KEY" := "test:key:secret" ]})
      (λ _, RequestException "unreachable" None).
Proof.
  apply (fetch_maas_data_trailing_slash (Json := unit) false "[2026-01-01 00:00:00]"
           {[ "MAAS_API_KEY" := "test:key:secret" ]}
           (λ _, RequestException "unreachable" None) "http://test:5240/MAAS").
  discriminate.
Defined.

(** ** Strings: suffixes *)

Lemma rstrip_idem chars s : Py.rstrip chars (Py.rstrip chars s) = Py.rstrip chars s.
Proof.
  induction s as [|c r IH]; [reflexivity|]. rewrite rstrip_cons.
  destruct (Py.rstrip chars r) as [|d r'] eqn:E.
  - destruct (Py.char_in c chars) eqn:C; [reflexivity|].
    rewrite rstrip_cons. cbn [Py.rstrip]. by rewrite C.
  - rewrite rstrip_cons, IH. reflexivity.
Qed.

Lemma rstrip_app_keep chars s t :
  Py.rstrip chars t = t -> t ≠ "" -> Py.rstrip chars (s +:+ t) = s +:+ t.
Proof.
  intros H N. induction s as [|c r IH]; [exact H|].
  rewrite append_cons, rstrip_cons, IH.
  destruct (r +:+ t) eqn:E; [|reflexivity].
  destruct r; [|discriminate]. by rewrite append_empty in E.
Qed.

Lemma endswith_refl s : Py.endswith s s = true.
Proof. destruct s; cbn [Py.endswith]; by rewrite String.eqb_refl. Qed.

Lemma endswith_app suffix s : Py.endswith suffix (s +:+ suffix) = true.
Proof.
  induction s as [|c r IH]; [apply endswith_refl|].
  rewrite append_cons. cbn [Py.endswith]. rewrite IH. apply orb_true_r.
Qed.

Lemma endswith_inv suffix s : Py.endswith suffix s = true -> ∃ p, s = p +:+ suffix.
Proof.
  induction s as [|c r IH]; cbn [Py.endswith].
  - rewrite orb_false_r. intros ->%String.eqb_eq. by exists "".
  - intros [->%String.eqb_eq | H]%orb_prop; [by exists ""|].
    destruct (IH H) as (p & ->). by exists (String c p).
Qed.

Lemma rstrip_no_slash s : Py.endswith "/" s = false -> Py.rstrip "/" s = s.
Proof.
  induction s as [|c r IH]; [reflexivity|]. cbn [Py.endswith].
  intros [H1 H2]%orb_false_elim. rewrite rstrip_cons, (IH H2).
  destruct r as [|d r]; [|reflexivity].
  cbn [Py.char_in]. rewrite orb_false_r.
  destruct (Ascii.eqb c "/") eqn:E; [|reflexivity].
  apply Ascii.eqb_eq in E as ->. discriminate H1.
Qed.

Lemma with_v3_slash u : with_v3 (u +:+ "/") = with_v3 u.
Proof. unfold with_v3. by rewrite (rstrip_app_char "/" "/" u eq_refl). Qed.

Lemma with_v3_ends u : Py.endswith "/v3" (with_v3 u) = true.
Proof.
  unfold with_v3. destruct (Py.endswith "/v3" (Py.rstrip "/" u)) eqn:E; cbn [negb];
    [exact E|apply endswith_app].
Qed.

Lemma with_v3_fixed u : Py.endswith "/v3" u = true -> with_v3 u = u.
Proof.
  intros H. unfold with_v3. destruct (endswith_inv _ _ H) as (p & ->).
  rewrite rstrip_app_keep by done. by rewrite endswith_app.
Qed.

Lemma with_v3_idem u : with_v3 (with_v3 u) = with_v3 u.
Proof. apply with_v3_fixed, with_v3_ends. Qed.

Lemma with_v3_plain u :
  Py.endswith "/" u = false -> Py.endswith "/v3" u = false -> with_v3 u = u +:+ "/v3".
Proof. intros H1 H2. unfold with_v3. by rewrite (rstrip_no_slash u H1), H2. Qed.


(** ** The OpenStack client *)

Section ClientProperties.

Context {World : Type}.
Variable environ : gmap string string.
Variable session : World -> http_request -> http_outcome * World.

Lemma emits_weaken {A} (m : client World A) (P Q : http_request -> Prop) :
  (∀ rq, P rq -> Q rq) -> emits m P -> emits m Q.
Proof.
  intros PQ H st. destruct (H st) as (new & E & F). exists new. split; [done|].
  eapply Forall_impl; eauto.
Qed.

Lemma emits_ret {A} (a : A) P : emits (mret a : client World A) P.
Proof. intros st. exists []. cbn. by rewrite app_nil_r. Qed.

Lemma emits_raise {A} e P : emits (raise e : client World A) P.
Proof. intros st. exists []. cbn. by rewrite app_nil_r. Qed.

Lemma emits_get_self P : emits (get_self : client World analyzer) P.
Proof. intros st. exists []. cbn. by rewrite app_nil_r. Qed.

Lemma emits_update_self f P : emits (update_self f : client World unit) P.
Proof. intros st. exists []. cbn. by rewrite app_nil_r. Qed.

Lemma emits_send rq (P : http_request -> Prop) : P rq -> emits (send session rq) P.
Proof.
  intros H st. exists [rq]. unfold send.
  destruct (session (net st) rq) as [[|r] w]; cbn; split; auto.
Qed.

Lemma emits_bind {A B} (m : client World A) (k : A -> client World B) P :
  emits m P -> (∀ a, emits (k a) P) -> emits (m ≫= k) P.
Proof.
  intros Hm Hk st. unfold mbind, client_bind.
  destruct (Hm st) as (n1 & E1 & F1).
  destruct (m st) as [[a|e] st1]; cbn in *.
  - destruct (Hk a st1) as (n2 & E2 & F2).
    exists (n1 ++ n2). rewrite E2, E1, app_assoc. split; [done|].
    by apply Forall_app.
  - by exists n1.
Qed.

Lemma emits_try {A} (m : client World A) (h : py_exception -> client World A) P :
  emits m P -> (∀ e, emits (h e) P) -> emits (try_except m h) P.
Proof.
  intros Hm Hk st. unfold try_except.
  destruct (Hm st) as (n1 & E1 & F1).
  destruct (m st) as [[a|e] st1]; cbn in *.
  - by exists n1.
  - destruct (Hk e st1) as (n2 & E2 & F2).
    exists (n1 ++ n2). rewrite E2, E1, app_assoc. split; [done|].
    by apply Forall_app.
Qed.

Lemma emits_json_of r P : emits (json_of r : client World json_object) P.
Proof. unfold json_of. destruct (http_json r); [apply emits_raise..|apply emits_ret]. Qed.

(** Pieces of a method body, taken apart. *)
Ltac emits_step :=
  lazymatch goal with
  | |- emits (mret _) _ => apply emits_ret
  | |- emits (raise _) _ => apply emits_raise
  | |- emits get_self _ => apply emits_get_self
  | |- emits (update_self _) _ => apply emits_update_self
  | |- emits (json_of _) _ => apply emits_json_of
  | |- emits (_ ≫= _) _ => apply emits_bind; [|intros ?]
  | |- emits (try_except _ _) _ => apply emits_try; [|intros ?]
  | |- emits (if ?b then _ else _) _ => destruct b
  | |- emits (match ?x with _ => _ end) _ => destruct x
  | |- emits (let _ := _ in _) _ => cbv zeta
  end.

Lemma token_emits :
  emits (_get_openstack_token environ session) (fun rq => rq = token_post environ).
Proof.
  unfold _get_openstack_token. repeat emits_step.
  apply emits_send. reflexivity.
Qed.

Lemma truthy_some (v : option string) :
  Py.falsy v = false -> ∃ s, v = Some s ∧ s ≠ "".
Proof. destruct v as [[|c s]|]; try discriminate. intros _. by eexists. Qed.

Lemma set_auth_token_same a t : _auth_token a = t -> set_auth_token t a = a.
Proof. destruct a. cbn. by intros ->. Qed.

(** The three ways of [_get_openstack_token]: the cached token; no token and
    a variable missing; no token and one request. *)
Lemma token_cases (st : session_state World) :
  let o := (_get_openstack_token environ session st).1 in
  let st' := (_get_openstack_token environ session st).2 in
  (∃ t, _auth_token (self st) = Some t ∧ t ≠ "" ∧ o = Done (Some t) ∧ st' = st)
  ∨ (Py.falsy (_auth_token (self st)) = true ∧ configured environ = false
     ∧ o = Raising (ValueError "Missing required OpenStack environment variables")
     ∧ st' = st)
  ∨ (Py.falsy (_auth_token (self st)) = true ∧ configured environ = true
     ∧ net st' = (session (net st) (token_post environ)).2
     ∧ sent st' = sent st ++ [token_post environ]
     ∧ ((∃ t response, t ≠ "" ∧ o = Done (Some t)
              ∧ (session (net st) (token_post environ)).1 = Answers response
              ∧ http_status response = 201%Z
              ∧ x_subject_token response = Some t
              ∧ self st' = set_auth_token (Some t) (self st))
        ∨ (o = Done None ∧ self st' = self st))).
Proof.
  cbv zeta. unfold _get_openstack_token, mbind, client_bind, get_self.
  cbn [fst snd].
  destruct (Py.falsy (_auth_token (self st))) eqn:C; cbn [negb].
  2:{ left. apply truthy_some in C as (t & E & N). exists t. rewrite E. auto. }
  right.
  change (forallb _ _) with (configured environ).
  destruct (configured environ) eqn:K; cbn [negb]; [right|left; auto].
  split; [reflexivity|]. split; [reflexivity|].
  unfold try_except, mbind, client_bind, send.
  change {| rq_method := "POST"; rq_url := _; rq_headers := _; rq_json := _;
            rq_timeout := _ |} with (token_post environ).
  destruct (session (net st) (token_post environ)) as [[|response] w] eqn:S; cbn.
  - do 2 (split; [reflexivity|]). right. auto.
  - destruct (http_status response =? 201)%Z eqn:E; cbn.
    + destruct (Py.falsy (x_subject_token response)) eqn:T; cbn.
      * do 2 (split; [reflexivity|]). right. auto.
      * apply truthy_some in T as (t & X & N). rewrite X.
        do 2 (split; [reflexivity|]).
        left. exists t, response. apply Z.eqb_eq in E. repeat split; auto.
    + do 2 (split; [reflexivity|]). right. auto.
Qed.

Lemma identity_of_token rq : rq = token_post environ -> identity_request environ rq.
Proof. by left. Qed.

Lemma catalog_emits :
  emits (_get_service_catalog environ session) (identity_request environ).
Proof.
  unfold _get_service_catalog.
  repeat first
    [ emits_step
    | apply (emits_weaken _ _ _ identity_of_token), token_emits
    | apply emits_send; right; eexists; reflexivity ].
Qed.

(** [_get_service_catalog] leaves the endpoints alone, and the token too when
    it answers with a catalog. *)
Lemma catalog_frame (st : session_state World) :
  let o := (_get_service_catalog environ session st).1 in
  let st' := (_get_service_catalog environ session st).2 in
  _placement_endpoint (self st') = _placement_endpoint (self st)
  ∧ _service_endpoints (self st') = _service_endpoints (self st)
  ∧ (∀ c, o = Done (Some c) -> has_token st ->
       _auth_token (self st') = _auth_token (self st)).
Proof.
  cbv zeta. unfold _get_service_catalog, mbind, client_bind, get_self. cbn [fst snd].
  destruct (_service_catalog (self st)) as [cached|]; [by cbn|].
  destruct (Py.falsy (environ !! "OS_AUTH_URL")); [by cbn|].
  pose proof (token_cases st) as T. cbv zeta in T.
  destruct (_get_openstack_token environ session st) as [[token|e] st1]; cbn [fst snd] in *.
  2:{ destruct T as [(t & _ & _ & [=] & _) | [(_ & _ & _ & ->) | (_ & _ & _ & _ & [X | X])]].
      - by cbn.
      - by destruct X as (? & ? & ? & [=] & _).
      - by destruct X as [[=] _]. }
  assert (F : _placement_endpoint (self st1) = _placement_endpoint (self st)
              ∧ _service_endpoints (self st1) = _service_endpoints (self st)
              ∧ (has_token st -> st1 = st)).
  { destruct T as [(t & _ & _ & _ & ->) | [(_ & _ & [=] & _) | (C & _ & _ & _ & X)]].
    - auto.
    - unfold has_token. rewrite C.
      destruct X as [(? & ? & _ & _ & _ & _ & _ & ->) | [_ ->]]; cbn; auto.
      all: repeat split; auto; discriminate. }
  destruct F as (F1 & F2 & F3).
  destruct (Py.falsy token); [by cbn|].
  unfold try_except, mbind, client_bind, send.
  destruct (session (net st1) _) as [[|response] w]; cbn; [auto|].
  - repeat split; auto. discriminate.
  - destruct (http_status response =? 200)%Z.
    + destruct (http_json response) as [| |o]; cbn; try (repeat split; auto; discriminate).
      destruct (key_catalog o); cbn; [|repeat split; auto; discriminate].
      repeat split; auto. intros c _ H. by rewrite (F3 H).
    + destruct (http_status response =? 401)%Z; cbn; repeat split; auto; discriminate.
Qed.

Lemma service_endpoint_emits service_name interface :
  emits (_get_service_endpoint environ session service_name interface)
    (identity_request environ).
Proof.
  unfold _get_service_endpoint.
  repeat first [ emits_step | apply catalog_emits ].
Qed.

(** [_get_service_endpoint]: an endpoint it answers with is in the cache
    under the key of the service; the placement endpoint is left alone, and
    so is a token when an endpoint is found. *)
Lemma service_endpoint_frame service_name interface (st : session_state World) :
  let o := (_get_service_endpoint environ session service_name interface st).1 in
  let st' := (_get_service_endpoint environ session service_name interface st).2 in
  _placement_endpoint (self st') = _placement_endpoint (self st)
  ∧ (∀ e, o = Done (Some e) ->
       _service_endpoints (self st') !! (service_name +:+ ":" +:+ interface) = Some e
       ∧ (has_token st -> _auth_token (self st') = _auth_token (self st))
       ∧ (_service_endpoints (self st) !! (service_name +:+ ":" +:+ interface) = None ->
          ∃ u, e = Py.rstrip "/" u)).
Proof.
  cbv zeta. unfold _get_service_endpoint, mbind, client_bind, get_self. cbn [fst snd].
  destruct (_service_endpoints (self st) !! _) as [cached|] eqn:C.
  { cbn. split; [done|]. intros e [= <-]. by rewrite C. }
  pose proof (catalog_frame st) as (F1 & F2 & F3).
  destruct (_get_service_catalog environ session st) as [[catalog|e] st1];
    cbn [fst snd] in *; [|split; [done|discriminate]].
  destruct catalog as [services|]; [|split; [done|discriminate]].
  destruct services as [|service services]; [split; [done|discriminate]|].
  destruct (first_service_url _ _) as [u|]; cbn; [|split; [done|discriminate]].
  split; [done|]. intros e [= <-]. rewrite lookup_insert_eq.
  split; [done|]. split; [|by eexists]. intros H. by apply (F3 _ eq_refl).
Qed.

Lemma placement_endpoint_emits :
  emits (_get_placement_endpoint environ session) (identity_request environ).
Proof.
  unfold _get_placement_endpoint.
  repeat first [ emits_step | apply service_endpoint_emits ].
Qed.

(** [_get_placement_endpoint]: an endpoint it answers with is not empty and
    is cached; a token is left alone then. *)
Lemma placement_endpoint_frame (st : session_state World) :
  let o := (_get_placement_endpoint environ session st).1 in
  let st' := (_get_placement_endpoint environ session st).2 in
  (∀ r, o = Done r -> Py.falsy r = false ->
     _placement_endpoint (self st') = r
     ∧ (has_token st -> _auth_token (self st') = _auth_token (self st)))
  ∧ (has_endpoint st -> o = Done (_placement_endpoint (self st)) ∧ st' = st).
Proof.
  cbv zeta. unfold _get_placement_endpoint, mbind, client_bind, get_self. cbn [fst snd].
  unfold has_endpoint.
  destruct (Py.falsy (_placement_endpoint (self st))) eqn:C; cbn [negb].
  2:{ cbn. split; [|done]. by intros r [= <-] _. }
  split; [|discriminate].
  pose proof (service_endpoint_frame "placement" "public" st) as (F1 & F2).
  destruct (_get_service_endpoint environ session "placement" "public" st)
    as [[found_endpoint|e] st1]; cbn [fst snd] in *; [|discriminate].
  destruct (Py.falsy found_endpoint) eqn:T; cbn.
  - by intros r [= <-].
  - intros r [= <-] _. split; [done|].
    apply truthy_some in T as (e & -> & _).
    destruct (F2 e eq_refl) as (_ & K & _). exact K.
Qed.

Lemma request_emits http_verb path json :
  emits (_make_placement_api_request environ session http_verb path json)
    (fun rq => identity_request environ rq
               ∨ ∃ endpoint token, rq = placement_request endpoint token http_verb path json).
Proof.
  unfold _make_placement_api_request.
  repeat first
    [ emits_step
    | eapply emits_weaken; [|apply placement_endpoint_emits]; intros ? ?; by left
    | eapply emits_weaken; [|apply token_emits]; intros ? ->; left; by left
    | apply emits_send; right; eexists _, _; reflexivity ].
Qed.

(** With a token and a placement endpoint in the cache, a placement request
    is one call of the session and nothing else. *)
Lemma request_when_ready http_verb path json (st : session_state World) token endpoint :
  _auth_token (self st) = Some token -> token ≠ "" ->
  _placement_endpoint (self st) = Some endpoint -> endpoint ≠ "" ->
  _make_placement_api_request environ session http_verb path json st
  = send session (placement_request endpoint token http_verb path json) st.
Proof.
  intros T Tn E En.
  unfold _make_placement_api_request, _get_placement_endpoint, _get_openstack_token,
    mbind, client_bind, get_self.
  rewrite E. destruct endpoint as [|a endpoint]; [done|].
  cbn [Py.falsy negb mret client_ret fst snd]. rewrite T.
  destruct token as [|b token]; [done|]. reflexivity.
Qed.

Lemma send_self rq (st : session_state World) : self (send session rq st).2 = self st.
Proof. unfold send. by destruct (session (net st) rq) as [[|r] w]. Qed.

Lemma send_sent rq (st : session_state World) : sent (send session rq st).2 = sent st ++ [rq].
Proof. unfold send. by destruct (session (net st) rq) as [[|r] w]. Qed.

Lemma never_raises_try {A} (m : client World A) h :
  (∀ e, never_raises (h e)) -> never_raises (try_except m h).
Proof.
  intros H st. unfold try_except. destruct (m st) as [[a|e] st1]; cbn.
  - by exists a.
  - apply H.
Qed.

Lemma never_raises_ret {A} (a : A) : never_raises (mret a : client World A).
Proof. intros st. by exists a. Qed.

(** [check_openstack_environment] and the test of [_get_openstack_token] on
    the same four variables. *)
Lemma environment_cases :
  (configured environ = true ∧ check_openstack_environment environ = (Returns tt, []))
  ∨ (configured environ = false ∧ (check_openstack_environment environ).1 = SysExit 1).
Proof.
  unfold configured, check_openstack_environment, required_vars.
  cbn [forallb List.filter].
  destruct (Py.falsy (environ !! "OS_AUTH_URL")), (Py.falsy (environ !! "OS_USERNAME")),
    (Py.falsy (environ !! "OS_PASSWORD")), (Py.falsy (environ !! "OS_PROJECT_NAME"));
    cbn; auto.
Qed.

Lemma configured_spec :
  configured environ = true ↔ ∀ var, var ∈ required_vars -> Py.falsy (environ !! var) = false.
Proof.
  unfold configured. rewrite forallb_forall. split; intros H var Hv.
  - apply list_elem_of_In, H in Hv. by destruct (Py.falsy _).
  - apply list_elem_of_In, H in Hv. by rewrite Hv.
Qed.

Lemma environment_listing var :
  var ∈ required_vars ->
  "  - " +:+ var ∈ (check_openstack_environment environ).2
  ↔ Py.falsy (environ !! var) = true.
Proof.
  intros Hv. unfold check_openstack_environment.
  set (missing := List.filter _ required_vars).
  assert (M : var ∈ missing ↔ Py.falsy (environ !! var) = true).
  { unfold missing. rewrite list_elem_of_In, filter_In, <- list_elem_of_In. tauto. }
  rewrite <- M. clear M. destruct missing as [|m ms].
  { cbn [snd]. by rewrite !elem_of_nil. }
  cbn [snd]. rewrite !elem_of_app, list_elem_of_fmap, list_elem_of_singleton.
  change ("  - " +:+ var) with (String " " (String " " (String "-" (String " " var)))).
  split.
  - intros [H | [(y & Hy & Hin) | H]]; [discriminate H| |].
    + change ("  - " +:+ y) with (String " " (String " " (String "-" (String " " y))))
        in Hy. by injection Hy as ->.
    + exfalso. rewrite !elem_of_cons, elem_of_nil in H.
      repeat (destruct H as [H | H]; [discriminate H|]). exact H.
  - intros H. right. left. by exists var.
Qed.

(** [check_openstack_environment] returns exactly when the four variables
    are set and not empty, and then [_get_openstack_token] never raises;
    otherwise it ends the process with status 1 after naming the variables
    that are missing, those and no others, where [_get_openstack_token]
    without a cached token would raise [ValueError] before any request. *)
Theorem environment_check_guards_token :
  let checked := check_openstack_environment environ in
  (∀ var, var ∈ required_vars ->
     "  - " +:+ var ∈ checked.2 ↔ Py.falsy (environ !! var) = true)
  ∧ ((checked = (Returns tt, [])
      ∧ (∀ var, var ∈ required_vars -> Py.falsy (environ !! var) = false)
      ∧ ∀ st : session_state World,
          ∃ token, (_get_openstack_token environ session st).1 = Done token)
     ∨ (checked.1 = SysExit 1
        ∧ (∃ var, var ∈ required_vars ∧ Py.falsy (environ !! var) = true)
        ∧ ∀ st : session_state World,
            Py.falsy (_auth_token (self st)) = true ->
            _get_openstack_token environ session st
            = (Raising (ValueError "Missing required OpenStack environment variables"),
               st))).
Proof.
  cbv zeta. split; [exact environment_listing|].
  destruct environment_cases as [[K E] | [K E]]; [left|right].
  - split; [exact E|]. split; [by apply configured_spec|].
    intros st. pose proof (token_cases st) as T. cbv zeta in T.
    destruct T as [(t & _ & _ & -> & _) | [(_ & K' & _) | (_ & _ & _ & _ & X)]].
    + by eexists.
    + rewrite K in K'. discriminate K'.
    + destruct X as [(t & ? & _ & -> & _) | [-> _]]; by eexists.
  - split; [exact E|]. split.
    + unfold configured in K. apply not_true_iff_false in K.
      destruct (existsb (fun var => Py.falsy (environ !! var)) required_vars) eqn:X.
      * apply existsb_exists in X as (var & Hv & F). exists var.
        by rewrite list_elem_of_In.
      * exfalso. apply K, forallb_forall. intros var Hv.
        destruct (Py.falsy (environ !! var)) eqn:F; [|reflexivity].
        assert (existsb (fun var => Py.falsy (environ !! var)) required_vars = true)
          as Y by (apply existsb_exists; eauto).
        rewrite X in Y. discriminate Y.
    + intros st C. pose proof (token_cases st) as T. cbv zeta in T.
      destruct (_get_openstack_token environ session st) as [o st'].
      cbn [fst snd] in T.
      destruct T as [(t & Ht & N & _) | [(_ & _ & -> & ->) | (_ & K' & _)]].
      * rewrite Ht in C. destruct t; [done|discriminate C].
      * reflexivity.
      * rewrite K in K'. discriminate K'.
Qed.

(** A token that [_get_openstack_token] answers with is not empty and is in
    the cache behind the call, so that the next call answers with it again,
    sends nothing and changes nothing; the first call sent the token request,
    once, or nothing. *)
Theorem token_round_trip (st : session_state World) (token : string) :
  (_get_openstack_token environ session st).1 = Done (Some token) ->
  let st' := (_get_openstack_token environ session st).2 in
  token ≠ ""
  ∧ _auth_token (self st') = Some token
  ∧ _get_openstack_token environ session st' = (Done (Some token), st')
  ∧ (sent st' = sent st ∨ sent st' = sent st ++ [token_post environ]).
Proof.
  intros H. cbv zeta. pose proof (token_cases st) as T. cbv zeta in T.
  destruct (_get_openstack_token environ session st) as [o st']. cbn [fst snd] in *.
  subst o.
  assert (C : token ≠ "" ∧ _auth_token (self st') = Some token
              ∧ (sent st' = sent st ∨ sent st' = sent st ++ [token_post environ])).
  { destruct T as [(t & Ht & N & [= <-] & ->) | [(_ & _ & [=] & _) | (_ & _ & _ & S & X)]].
    - auto.
    - destruct X as [(t & r & N & [= <-] & _ & _ & _ & ->) | [[=] _]]. auto. }
  destruct C as (N & C & S). repeat split; auto.
  pose proof (token_cases st') as T'. cbv zeta in T'.
  destruct (_get_openstack_token environ session st') as [o' st'']. cbn [fst snd] in *.
  destruct T' as [(t & Ht & _ & -> & ->) | [(F & _) | (F & _)]].
  - rewrite C in Ht. by injection Ht as ->.
  - rewrite C in F. destruct token; [done|discriminate F].
  - rewrite C in F. destruct token; [done|discriminate F].
Qed.

(** An endpoint that [_get_service_endpoint] answers with is in the cache
    behind the call: the next call for the same service and interface answers
    with it again, sends nothing and changes nothing.  An endpoint that was
    not cached before comes from the catalog without the slashes at its end,
    and on the way only the identity service was asked. *)
Theorem service_endpoint_round_trip (service_name interface : string)
    (st : session_state World) (found_endpoint : string) :
  (_get_service_endpoint environ session service_name interface st).1
  = Done (Some found_endpoint) ->
  let st' := (_get_service_endpoint environ session service_name interface st).2 in
  _get_service_endpoint environ session service_name interface st'
  = (Done (Some found_endpoint), st')
  ∧ (_service_endpoints (self st) !! (service_name +:+ ":" +:+ interface) = None ->
     Py.rstrip "/" found_endpoint = found_endpoint)
  ∧ ∃ new, sent st' = sent st ++ new ∧ Forall (identity_request environ) new.
Proof.
  intros H. cbv zeta.
  pose proof (service_endpoint_frame service_name interface st) as (_ & F).
  cbv zeta in F. specialize (F _ H) as (C & _ & R).
  split; [|split].
  - unfold _get_service_endpoint at 1, mbind, client_bind, get_self.
    cbn [fst snd]. by rewrite C.
  - intros N. destruct (R N) as (u & ->). apply rstrip_idem.
  - apply service_endpoint_emits.
Qed.

Lemma connectivity_emits :
  emits (_check_openstack_connectivity environ session) (identity_request environ).
Proof.
  unfold _check_openstack_connectivity.
  repeat first
    [ emits_step
    | apply (emits_weaken _ _ _ identity_of_token), token_emits
    | apply placement_endpoint_emits ].
Qed.

Lemma connectivity_ready (st : session_state World) :
  let o := (_check_openstack_connectivity environ session st).1 in
  let st' := (_check_openstack_connectivity environ session st).2 in
  (∃ new, sent st' = sent st ++ new ∧ Forall (identity_request environ) new)
  ∧ ∃ connected : bool,
      o = Done connected
      ∧ (connected = true ->
         ∃ token endpoint,
           token ≠ "" ∧ endpoint ≠ ""
           ∧ _auth_token (self st') = Some token
           ∧ _placement_endpoint (self st') = Some endpoint
           ∧ ∀ http_verb path json,
               _make_placement_api_request environ session http_verb path json st'
               = send session (placement_request endpoint token http_verb path json) st').
Proof.
  cbv zeta. split; [apply connectivity_emits|].
  unfold _check_openstack_connectivity, try_except, mbind, client_bind.
  pose proof (token_cases st) as T. cbv zeta in T.
  destruct (_get_openstack_token environ session st) as [[token|e] st1];
    cbn [fst snd] in *; [|exists false; by cbn].
  destruct (Py.falsy token) eqn:Tk; [exists false; by cbn|].
  apply truthy_some in Tk as (t & -> & Tn).
  assert (C : _auth_token (self st1) = Some t).
  { destruct T as [(t' & Ht & _ & [= <-] & ->) | [(_ & _ & [=] & _) | (_ & _ & _ & _ & X)]];
      [done|].
    by destruct X as [(t' & r & _ & [= <-] & _ & _ & _ & ->) | [[=] _]]. }
  pose proof (placement_endpoint_frame st1) as (P & _). cbv zeta in P.
  destruct (_get_placement_endpoint environ session st1) as [[found_endpoint|e] st2];
    cbn [fst snd] in *; [|exists false; by cbn].
  destruct (Py.falsy found_endpoint) eqn:En; [exists false; by cbn|].
  exists true. cbn. split; [reflexivity|]. intros _.
  destruct (P _ eq_refl En) as (E & K).
  apply truthy_some in En as (endpoint & -> & En).
  assert (C2 : _auth_token (self st2) = Some t).
  { rewrite K; [exact C|]. unfold has_token. rewrite C. by destruct t. }
  exists t, endpoint. repeat split; auto.
  intros. by apply request_when_ready.
Qed.

(** [_check_openstack_connectivity] never raises and asks the identity
    service only.  When it answers True, a token and a placement endpoint,
    neither empty, are in the cache, and every placement request behind it is
    one call of the session: the method on the cached endpoint and the path,
    with the cached token and the placement version in its headers. *)
Theorem connectivity_check (st : session_state World) :
  let o := (_check_openstack_connectivity environ session st).1 in
  let st' := (_check_openstack_connectivity environ session st).2 in
  (∃ new, sent st' = sent st ++ new ∧ Forall (identity_request environ) new)
  ∧ ∃ connected : bool,
      o = Done connected
      ∧ (connected = true ->
         ∃ token endpoint,
           token ≠ "" ∧ endpoint ≠ ""
           ∧ _auth_token (self st') = Some token
           ∧ _placement_endpoint (self st') = Some endpoint
           ∧ ∀ http_verb path json,
               _make_placement_api_request environ session http_verb path json st'
               = send session (placement_request endpoint token http_verb path json) st').
Proof. exact (connectivity_ready st). Qed.

(** [OS_AUTH_URL] may be given with or without [/v3] and with or without a
    slash at its end: the token and the catalog are asked for in the same
    way, with the same result. *)
Theorem auth_url_forms (auth_url : string) (written : string) (st : session_state World) :
  auth_url ≠ "" ->
  Py.endswith "/" auth_url = false ->
  Py.endswith "/v3" auth_url = false ->
  written ∈ [auth_url +:+ "/"; auth_url +:+ "/v3"; auth_url +:+ "/v3/"] ->
  _get_openstack_token (<["OS_AUTH_URL" := written]> environ) session st
  = _get_openstack_token (<["OS_AUTH_URL" := auth_url]> environ) session st
  ∧ _get_service_catalog (<["OS_AUTH_URL" := written]> environ) session st
    = _get_service_catalog (<["OS_AUTH_URL" := auth_url]> environ) session st.
Proof.
  intros N S V W.
  assert (X : with_v3 written = with_v3 auth_url ∧ written ≠ "").
  { rewrite !elem_of_cons, elem_of_nil in W.
    destruct W as [-> | [-> | [-> | []]]].
    - split; [apply with_v3_slash|]. by destruct auth_url.
    - split; [|by destruct auth_url].
      rewrite (with_v3_plain auth_url S V). apply with_v3_fixed, endswith_app.
    - split; [|by destruct auth_url].
      change (auth_url +:+ "/v3/") with (auth_url +:+ ("/v3" +:+ "/")).
      rewrite <- append_assoc, with_v3_slash, (with_v3_plain auth_url S V).
      apply with_v3_fixed, endswith_app. }
  destruct X as [X Wn].
  assert (T : ∀ st, _get_openstack_token (<["OS_AUTH_URL" := written]> environ) session st
                    = _get_openstack_token (<["OS_AUTH_URL" := auth_url]> environ) session st).
  { intros st0. unfold _get_openstack_token.
    rewrite !lookup_insert_eq, !lookup_insert_ne by discriminate.
    cbn [default from_option id]. rewrite X.
    destruct written; [done|]. destruct auth_url; [done|]. reflexivity. }
  split; [apply T|].
  unfold _get_service_catalog, mbind, client_bind.
  rewrite !lookup_insert_eq. cbn [default from_option id]. rewrite X.
  destruct (get_self st) as [[a|e] st0]; [|reflexivity].
  destruct (_service_catalog a); [reflexivity|].
  destruct written; [done|]. destruct auth_url; [done|]. cbn [Py.falsy].
  by rewrite T.
Qed.

(** The state behind one call of the session. *)
Lemma send_run rq (st : session_state World) :
  send session rq st
  = (match (session (net st) rq).1 with
     | SessionRaises => Raising SessionError
     | Answers response => Done response
     end,
     {| self := self st; net := (session (net st) rq).2; sent := sent st ++ [rq] |}).
Proof. unfold send. by destruct (session (net st) rq) as [[|r] w]. Qed.

Lemma read_helpers_ready (st : session_state World)
    (token endpoint resource_provider_id : string) :
  _auth_token (self st) = Some token -> token ≠ "" ->
  _placement_endpoint (self st) = Some endpoint -> endpoint ≠ "" ->
  let behind rq :=
    {| self := self st; net := (session (net st) rq).2; sent := sent st ++ [rq] |} in
  let providers_get := placement_request endpoint token "GET" "/resource_providers" None in
  let traits_get :=
    placement_request endpoint token "GET"
      ("/resource_providers/" +:+ resource_provider_id +:+ "/traits") None in
  (∃ resource_providers,
     _get_resource_providers environ session st
     = (Done resource_providers, behind providers_get)
     ∧ (resource_providers ≠ [] ->
        ∃ response o,
          (session (net st) providers_get).1 = Answers response
          ∧ is_success (http_status response) = true
          ∧ http_json response = Object o
          ∧ key_resource_providers o = Some resource_providers)
     ∧ (∀ response o listed,
          (session (net st) providers_get).1 = Answers response ->
          is_success (http_status response) = true ->
          http_json response = Object o ->
          key_resource_providers o = Some listed ->
          resource_providers = listed))
  ∧ (∃ trait_names,
       _get_resource_provider_traits environ session resource_provider_id st
       = (Done trait_names, behind traits_get)
       ∧ (trait_names ≠ [] ->
          ∃ response o,
            (session (net st) traits_get).1 = Answers response
            ∧ is_success (http_status response) = true
            ∧ http_json response = Object o
            ∧ key_traits o = Some trait_names)
       ∧ (∀ response o listed,
            (session (net st) traits_get).1 = Answers response ->
            is_success (http_status response) = true ->
            http_json response = Object o ->
            key_traits o = Some listed ->
            trait_names = listed)).
Proof.
  intros T Tn E En. cbv zeta. split.
  - unfold _get_resource_providers, try_except, mbind, client_bind.
    rewrite (request_when_ready _ _ _ st token endpoint T Tn E En), send_run.
    destruct (session (net st) _) as [[|response] w]; cbn [fst snd].
    { exists []. split; [reflexivity|]. split; [done|]. intros r o l [=]. }
    destruct (is_success (http_status response)) eqn:S.
    2:{ exists []. split; [reflexivity|]. split; [done|].
        intros r o l [= <-] S'. rewrite S in S'. discriminate S'. }
    unfold json_of.
    destruct (http_json response) as [| |o] eqn:J; cbn.
    1,2: exists []; (split; [reflexivity|]); (split; [done|]);
         intros r o l [= <-] _ J'; rewrite J in J'; discriminate J'.
    exists (default [] (key_resource_providers o)). split; [reflexivity|]. split.
    + intros N. exists response, o. repeat split; auto.
      destruct (key_resource_providers o); [reflexivity|done].
    + intros r o' l [= <-] _ J' K'. rewrite J in J'. injection J' as <-.
      by rewrite K'.
  - unfold _get_resource_provider_traits, try_except, mbind, client_bind.
    rewrite (request_when_ready _ _ _ st token endpoint T Tn E En), send_run.
    destruct (session (net st) _) as [[|response] w]; cbn [fst snd].
    { exists []. split; [reflexivity|]. split; [done|]. intros r o l [=]. }
    destruct (is_success (http_status response)) eqn:S.
    2:{ exists []. split; [reflexivity|]. split; [done|].
        intros r o l [= <-] S'. rewrite S in S'. discriminate S'. }
    unfold json_of.
    destruct (http_json response) as [| |o] eqn:J; cbn.
    1,2: exists []; (split; [reflexivity|]); (split; [done|]);
         intros r o l [= <-] _ J'; rewrite J in J'; discriminate J'.
    exists (default [] (key_traits o)). split; [reflexivity|]. split.
    + intros N. exists response, o. repeat split; auto.
      destruct (key_traits o); [reflexivity|done].
    + intros r o' l [= <-] _ J' K'. rewrite J in J'. injection J' as <-.
      by rewrite K'.
Qed.

(** [_get_resource_providers] and [_get_resource_provider_traits] on an
    analyzer with token and endpoint cached: one GET and no exception,
    whatever the answer.  The list under the key of a JSON object answered
    with a success code is returned; in every other case the empty list. *)
Theorem read_helpers_when_connected (st : session_state World)
    (token endpoint resource_provider_id : string) :
  _auth_token (self st) = Some token -> token ≠ "" ->
  _placement_endpoint (self st) = Some endpoint -> endpoint ≠ "" ->
  let behind rq :=
    {| self := self st; net := (session (net st) rq).2; sent := sent st ++ [rq] |} in
  let providers_get := placement_request endpoint token "GET" "/resource_providers" None in
  let traits_get :=
    placement_request endpoint token "GET"
      ("/resource_providers/" +:+ resource_provider_id +:+ "/traits") None in
  (∃ resource_providers,
     _get_resource_providers environ session st
     = (Done resource_providers, behind providers_get)
     ∧ (resource_providers ≠ [] ->
        ∃ response o,
          (session (net st) providers_get).1 = Answers response
          ∧ is_success (http_status response) = true
          ∧ http_json response = Object o
          ∧ key_resource_providers o = Some resource_providers)
     ∧ (∀ response o listed,
          (session (net st) providers_get).1 = Answers response ->
          is_success (http_status response) = true ->
          http_json response = Object o ->
          key_resource_providers o = Some listed ->
          resource_providers = listed))
  ∧ (∃ trait_names,
       _get_resource_provider_traits environ session resource_provider_id st
       = (Done trait_names, behind traits_get)
       ∧ (trait_names ≠ [] ->
          ∃ response o,
            (session (net st) traits_get).1 = Answers response
            ∧ is_success (http_status response) = true
            ∧ http_json response = Object o
            ∧ key_traits o = Some trait_names)
       ∧ (∀ response o listed,
            (session (net st) traits_get).1 = Answers response ->
            is_success (http_status response) = true ->
            http_json response = Object o ->
            key_traits o = Some listed ->
            trait_names = listed)).
Proof. exact (read_helpers_ready st token endpoint resource_provider_id). Qed.

Lemma create_trait_ready (st : session_state World)
    (token endpoint trait_name : string) :
  _auth_token (self st) = Some token -> token ≠ "" ->
  _placement_endpoint (self st) = Some endpoint -> endpoint ≠ "" ->
  let rq := placement_request endpoint token "PUT" ("/traits/" +:+ trait_name) None in
  ∃ (success : bool) (status : string),
    _create_trait environ session trait_name st
    = (Done (success, status),
       {| self := self st; net := (session (net st) rq).2; sent := sent st ++ [rq] |})
    ∧ (success = true ∧ status = "created"
       ∨ success = true ∧ status = "already_exists"
       ∨ success = false ∧ status = "error")
    ∧ match (session (net st) rq).1 with
      | SessionRaises => status = "error"
      | Answers response =>
          (http_status response = 200%Z ∨ http_status response = 201%Z ->
           status = "created")
          ∧ (http_status response = 204%Z -> status = "already_exists")
          ∧ (is_success (http_status response) = false ->
             status ≠ "created"
             ∧ (status = "already_exists"
                ↔ ∃ keyword, keyword ∈ already_exists_keywords
                     ∧ Py.contains keyword (Py.lower (http_text response)) = true))
          ∧ (∀ keyword before mention after,
               keyword ∈ already_exists_keywords ->
               Py.lower mention = keyword ->
               http_text response = before +:+ mention +:+ after ->
               success = true)
      end.
Proof.
  intros T Tn E En. cbv zeta.
  unfold _create_trait, try_except, mbind, client_bind.
  rewrite (request_when_ready _ _ _ st token endpoint T Tn E En), send_run.
  destruct (session (net st) _) as [[|response] w]; cbn [fst snd].
  { exists false, "error". split; [reflexivity|]. split; [|reflexivity].
    right. right. done. }
  assert (M : ∀ keyword before mention after,
            keyword ∈ already_exists_keywords ->
            Py.lower mention = keyword ->
            http_text response = before +:+ mention +:+ after ->
            existsb (fun keyword => Py.contains keyword (Py.lower (http_text response)))
              already_exists_keywords = true).
  { intros keyword before mention after Hk <- ->.
    apply existsb_exists. exists (Py.lower mention).
    split; [by apply list_elem_of_In|].
    rewrite !lower_app. apply contains_mid. }
  assert (X : existsb (fun keyword => Py.contains keyword (Py.lower (http_text response)))
                already_exists_keywords = true
              ↔ ∃ keyword, keyword ∈ already_exists_keywords
                   ∧ Py.contains keyword (Py.lower (http_text response)) = true).
  { rewrite existsb_exists. by setoid_rewrite list_elem_of_In. }
  unfold is_success, SUCCESS_HTTP_CODES.
  destruct (http_status response =? 201)%Z eqn:S1.
  { apply Z.eqb_eq in S1. rewrite S1. exists true, "created". cbn.
    split; [reflexivity|]. split; [left; done|].
    split; [done|]. split; [discriminate|]. split; [discriminate|done]. }
  destruct (http_status response =? 204)%Z eqn:S4.
  { apply Z.eqb_eq in S4. rewrite S4. exists true, "already_exists". cbn.
    split; [reflexivity|]. split; [right; left; done|].
    split; [intros [[=] | [=]]|]. split; [done|]. split; [discriminate|done]. }
  apply Z.eqb_neq in S1, S4.
  destruct (bool_decide (http_status response ∈ [200%Z])) eqn:S0.
  { apply bool_decide_eq_true, list_elem_of_singleton in S0. rewrite S0.
    exists true, "created". cbn.
    split; [reflexivity|]. split; [left; done|].
    split; [done|]. split; [discriminate|]. split; [discriminate|done]. }
  apply bool_decide_eq_false in S0. rewrite list_elem_of_singleton in S0.
  destruct (existsb _ already_exists_keywords) eqn:K.
  - exists true, "already_exists". cbn. split; [reflexivity|]. split; [right; left; done|].
    split; [intros [? | ?]; done|]. split; [done|].
    split; [|done]. intros _. split; [discriminate|]. split; [by rewrite <- X|done].
  - exists false, "error". cbn. split; [reflexivity|]. split; [right; right; done|].
    split; [intros [? | ?]; done|]. split; [done|].
    split.
    + intros _. split; [discriminate|]. split; [discriminate|].
      intros H. apply X in H. discriminate H.
    + intros keyword before mention after Hk Hm Ht.
      discriminate (M _ _ _ _ Hk Hm Ht).
Qed.

(** [_create_trait] on an analyzer with token and endpoint cached: one PUT
    without a body and no exception.  200 and 201 count as created, 204 as
    already there; any other answer counts as already there exactly when its
    text, lowered, holds one of the keywords, so an error answer that
    mentions a keyword in any letter case is taken for a success; a failure
    of the session is an error. *)
Theorem create_trait_when_connected (st : session_state World)
    (token endpoint trait_name : string) :
  _auth_token (self st) = Some token -> token ≠ "" ->
  _placement_endpoint (self st) = Some endpoint -> endpoint ≠ "" ->
  let rq := placement_request endpoint token "PUT" ("/traits/" +:+ trait_name) None in
  ∃ (success : bool) (status : string),
    _create_trait environ session trait_name st
    = (Done (success, status),
       {| self := self st; net := (session (net st) rq).2; sent := sent st ++ [rq] |})
    ∧ (success = true ∧ status = "created"
       ∨ success = true ∧ status = "already_exists"
       ∨ success = false ∧ status = "error")
    ∧ match (session (net st) rq).1 with
      | SessionRaises => status = "error"
      | Answers response =>
          (http_status response = 200%Z ∨ http_status response = 201%Z ->
           status = "created")
          ∧ (http_status response = 204%Z -> status = "already_exists")
          ∧ (is_success (http_status response) = false ->
             status ≠ "created"
             ∧ (status = "already_exists"
                ↔ ∃ keyword, keyword ∈ already_exists_keywords
                     ∧ Py.contains keyword (Py.lower (http_text response)) = true))
          ∧ (∀ keyword before mention after,
               keyword ∈ already_exists_keywords ->
               Py.lower mention = keyword ->
               http_text response = before +:+ mention +:+ after ->
               success = true)
      end.
Proof. exact (create_trait_ready st token endpoint trait_name). Qed.



End ClientProperties.

Lemma token_round_trip_witness :
  let st := fresh 0 in
  let run := _get_openstack_token mock_environment_variables
               (scripted_session [Answers mock_auth_response]) in
  (run st).1 = Done (Some "test-token-12345")
  ∧ run (run st).2 = (Done (Some "test-token-12345"), (run st).2).
Proof.
  cbv zeta. split; [vm_compute; reflexivity|].
  apply (token_round_trip mock_environment_variables
           (scripted_session [Answers mock_auth_response]) (fresh 0) "test-token-12345").
  vm_compute. reflexivity.
Defined.

Lemma service_endpoint_round_trip_witness :
  let st := fresh 0 in
  let run := _get_service_endpoint mock_environment_variables
               (scripted_session [Answers mock_auth_response;
                                  Answers mock_catalog_response])
               "nova" "public" in
  (run st).1 = Done (Some "http://test-openstack:8774")
  ∧ run (run st).2 = (Done (Some "http://test-openstack:8774"), (run st).2).
Proof.
  cbv zeta. split; [vm_compute; reflexivity|].
  apply (service_endpoint_round_trip mock_environment_variables
           (scripted_session [Answers mock_auth_response; Answers mock_catalog_response])
           "nova" "public" (fresh 0) "http://test-openstack:8774").
  vm_compute. reflexivity.
Defined.

Lemma auth_url_forms_witness :
  _get_openstack_token
    (<["OS_AUTH_URL" := "http://test-openstack:5000" +:+ "/v3/"]> mock_environment_variables)
    (scripted_session [Answers mock_auth_response]) (fresh 0)
  = _get_openstack_token
      (<["OS_AUTH_URL" := "http://test-openstack:5000"]> mock_environment_variables)
      (scripted_session [Answers mock_auth_response]) (fresh 0).
Proof.
  apply (auth_url_forms mock_environment_variables
           (scripted_session [Answers mock_auth_response])
           "http://test-openstack:5000" ("http://test-openstack:5000" +:+ "/v3/") (fresh 0)).
  - discriminate.
  - reflexivity.
  - reflexivity.
  - right. right. left.
Defined.

(** ** Hypervisors and resource providers *)










(** ** [_set_resource_provider_traits] over HTTP *)

Section RetryTrace.

Context {World X : Type}.
Variable api : World -> api_request -> api_outcome * World.
Variable trace : World -> list X.
Variable f : api_request -> X.
Variable Inv : World -> Prop.
Hypothesis step :
  ∀ w rq, Inv w -> Inv (api w rq).2 ∧ trace (api w rq).2 = trace w ++ [f rq].

(** The loop on a service that keeps a trace of the requests it gets. *)
Lemma retry_loop_trace rp trait_names attempts : ∀ w done,
  Inv w ->
  let r := retry_loop api rp trait_names attempts w done in
  Inv (world r)
  ∧ ∃ new,
      calls r = done ++ new
      ∧ trace (world r) = trace w ++ ((fun c : call => f c.1) <$> new)
      ∧ length new ≤ 2 * length attempts
      ∧ Forall (fun c : call =>
                  c.1 = read_request rp ∨ ∃ g, c.1 = write_request rp trait_names g) new
      ∧ (returned r = true ->
         ∃ before g status_code body,
           new = before ++ [(write_request rp trait_names g, Response status_code body)]
           ∧ is_success status_code = true).
Proof.
  induction attempts as [|attempt later IH]; intros w done Hw; cbv zeta.
  - cbn. split; [exact Hw|]. exists []. rewrite !app_nil_r.
    repeat split; auto. discriminate.
  - cbn [retry_loop].
    destruct (step w (read_request rp) Hw) as [Hw1 T1].
    destruct (api w (read_request rp)) as [rp_response w1]. cbn [fst snd] in *.
    assert (Stop1 : ∀ o,
              Inv w1
              ∧ ∃ new,
                  calls {| returned := false; world := w1;
                           calls := done ++ [(read_request rp, o)] |} = done ++ new
                  ∧ trace w1 = trace w ++ ((fun c : call => f c.1) <$> new)
                  ∧ length new ≤ 2 * length (attempt :: later)
                  ∧ Forall (fun c : call =>
                              c.1 = read_request rp
                              ∨ ∃ g, c.1 = write_request rp trait_names g) new
                  ∧ (false = true ->
                     ∃ before g status_code body,
                       new = before ++ [(write_request rp trait_names g,
                                         Response status_code body)]
                       ∧ is_success status_code = true)).
    { intros o. split; [exact Hw1|]. exists [(read_request rp, o)].
      repeat split; auto; [cbn; lia|discriminate]. }
    destruct rp_response as [|status_code body]; [apply Stop1|].
    destruct (is_success status_code) eqn:S1; cbn [negb]; [|apply Stop1].
    destruct body as [|g]; [apply Stop1|].
    destruct (step w1 (write_request rp trait_names (default 0%Z g)) Hw1) as [Hw2 T2].
    destruct (api w1 (write_request rp trait_names (default 0%Z g))) as [response w2].
    cbn [fst snd] in *.
    set (two := [(read_request rp, Response status_code (Provider g));
                 (write_request rp trait_names (default 0%Z g), response)]).
    assert (Tr : trace w2 = trace w ++ ((fun c : call => f c.1) <$> two)).
    { rewrite T2, T1, <- app_assoc. reflexivity. }
    assert (Fa : Forall (fun c : call =>
                           c.1 = read_request rp
                           ∨ ∃ g, c.1 = write_request rp trait_names g) two).
    { constructor; [by left|]. constructor; [right; by eexists|]. constructor. }
    assert (Stop2 : ∀ b : bool,
              (b = true -> ∃ s body2, response = Response s body2 ∧ is_success s = true) ->
              Inv w2
              ∧ ∃ new,
                  calls {| returned := b; world := w2;
                           calls := (done ++ [(read_request rp,
                                               Response status_code (Provider g))])
                                    ++ [(write_request rp trait_names (default 0%Z g),
                                         response)] |} = done ++ new
                  ∧ trace w2 = trace w ++ ((fun c : call => f c.1) <$> new)
                  ∧ length new ≤ 2 * length (attempt :: later)
                  ∧ Forall (fun c : call =>
                              c.1 = read_request rp
                              ∨ ∃ g, c.1 = write_request rp trait_names g) new
                  ∧ (b = true ->
                     ∃ before g status_code body,
                       new = before ++ [(write_request rp trait_names g,
                                         Response status_code body)]
                       ∧ is_success status_code = true)).
    { intros b Hb. split; [exact Hw2|]. exists two.
      split; [cbn [calls]; by rewrite <- app_assoc|].
      split; [exact Tr|]. split; [cbn; lia|]. split; [exact Fa|].
      intros ->. destruct (Hb eq_refl) as (s & body2 & -> & S).
      exists [(read_request rp, Response status_code (Provider g))], (default 0%Z g),
        s, body2. auto. }
    destruct response as [|status_code2 body2]; [apply Stop2; discriminate|].
    destruct (is_success status_code2) eqn:S2.
    { apply Stop2. intros _. by exists status_code2, body2. }
    destruct ((status_code2 =? 409)%Z && (attempt <? MAX_RETRIES - 1)%nat);
      [|apply Stop2; discriminate].
    destruct (IH w2 ((done ++ [(read_request rp, Response status_code (Provider g))])
                     ++ [(write_request rp trait_names (default 0%Z g),
                          Response status_code2 body2)]) Hw2)
      as (Hr & new & E & T & L & Fn & Su).
    split; [exact Hr|]. exists (two ++ new).
    split; [rewrite E, <- !app_assoc; reflexivity|].
    split; [rewrite T, Tr, fmap_app, app_assoc; reflexivity|].
    split; [rewrite length_app; change (length two) with 2; cbn [length];
            unfold call in *; lia|].
    split; [by apply Forall_app|].
    intros R. destruct (Su R) as (before & g' & s & b & -> & S).
    exists (two ++ before), g', s, b. by rewrite <- app_assoc.
Qed.

End RetryTrace.

Section OverHttp.

Context {World : Type}.
Variable environ : gmap string string.
Variable session : World -> http_request -> http_outcome * World.

(** With token and endpoint cached, the placement service of
    [_set_resource_provider_traits] is the session behind one request. *)
Lemma placement_service_when_ready (st : session_state World) rq token endpoint :
  _auth_token (self st) = Some token -> token ≠ "" ->
  _placement_endpoint (self st) = Some endpoint -> endpoint ≠ "" ->
  placement_service environ session st rq
  = (api_outcome_of (session (net st) (http_of_call endpoint token rq)).1,
     {| self := self st;
        net := (session (net st) (http_of_call endpoint token rq)).2;
        sent := sent st ++ [http_of_call endpoint token rq] |}).
Proof.
  intros T Tn E En. unfold placement_service.
  rewrite (request_when_ready _ _ _ _ _ st token endpoint T Tn E En), send_run.
  fold (http_of_call endpoint token rq).
  by destruct (session (net st) (http_of_call endpoint token rq)) as [[|response] w].
Qed.

Lemma set_traits_http (st : session_state World)
    (token endpoint resource_provider_id : string) (trait_names : list string) :
  _auth_token (self st) = Some token -> token ≠ "" ->
  _placement_endpoint (self st) = Some endpoint -> endpoint ≠ "" ->
  let r := _set_resource_provider_traits (placement_service environ session) st
             resource_provider_id trait_names in
  set_resource_provider_traits environ session resource_provider_id trait_names st
  = (Done (returned r), world r)
  ∧ self (world r) = self st
  ∧ sent (world r)
    = sent st ++ ((fun c : call => http_of_call endpoint token c.1) <$> calls r)
  ∧ length (calls r) ≤ 6
  ∧ Forall (fun c : call =>
              c.1 = read_request resource_provider_id
              ∨ ∃ g, c.1 = write_request resource_provider_id trait_names g) (calls r)
  ∧ (returned r = true ->
     ∃ before g status_code body,
       calls r = before ++ [(write_request resource_provider_id trait_names g,
                             Response status_code body)]
       ∧ is_success status_code = true).
Proof.
  intros T Tn E En. cbv zeta. split; [reflexivity|].
  unfold _set_resource_provider_traits.
  destruct (retry_loop_trace (placement_service environ session) sent
              (http_of_call endpoint token) (fun w => self w = self st)) with
    (rp := resource_provider_id) (trait_names := trait_names)
    (attempts := seq 0 MAX_RETRIES) (w := st) (done := @nil call)
    as (S & new & C & Tr & L & F & R).
  - intros w rq Hw.
    rewrite (placement_service_when_ready w rq token endpoint)
      by first [by rewrite Hw | done].
    by cbn.
  - reflexivity.
  - rewrite C. cbn [app]. rewrite length_seq in L. cbn in L.
    repeat split; auto.
Qed.


Lemma is_custom_trait_name cpu_model : is_custom (generate_trait_name cpu_model) = true.
Proof. unfold is_custom. by rewrite trait_name_custom. Qed.

Lemma falsy_default (v : option string) : Py.falsy (Some (default "" v)) = Py.falsy v.
Proof. by destruct v. Qed.

(** What the requests of an exchange carry. *)
Lemma exchange_carries token endpoint rp trait_names (exchange : list call) rq d :
  Forall (fun c : call =>
            c.1 = read_request rp ∨ ∃ g, c.1 = write_request rp trait_names g) exchange ->
  rq ∈ (fun c : call => http_of_call endpoint token c.1) <$> exchange ->
  rq_json rq = Some (TraitsData d) ->
  rq_method rq = "PUT" ∧ traits d = trait_names.
Proof.
  intros F (c & -> & Hc)%list_elem_of_fmap J.
  rewrite Forall_forall in F. destruct (F c Hc) as [R | (g & W)].
  - rewrite R in J. discriminate J.
  - rewrite W in J |- *. cbn in J |- *. by injection J as <-.
Qed.


Lemma clear_provider_ready (st : session_state World)
    (token endpoint : string) (resource_provider : resource_provider) :
  _auth_token (self st) = Some token -> token ≠ "" ->
  _placement_endpoint (self st) = Some endpoint -> endpoint ≠ "" ->
  let rp_id := default "" (rp_uuid resource_provider) in
  let traits_get :=
    placement_request endpoint token "GET"
      ("/resource_providers/" +:+ rp_id +:+ "/traits") None in
  let run := clear_provider environ session resource_provider st in
  ∃ (c : clearing) (new : list http_request),
    run.1 = Done c
    ∧ self run.2 = self st
    ∧ sent run.2 = sent st ++ new
    ∧ (∀ rq d t, rq ∈ new -> rq_json rq = Some (TraitsData d) -> t ∈ traits d ->
         is_custom t = false ∧ ∀ cpu_model, generate_trait_name cpu_model ≠ t)
    ∧ (Py.falsy (rp_name resource_provider) = true
       ∨ Py.falsy (rp_uuid resource_provider) = true ->
       c = Skipped ∧ new = [])
    ∧ (Py.falsy (rp_name resource_provider) = false ->
       Py.falsy (rp_uuid resource_provider) = false ->
       ∃ current_traits (exchange : list call),
         (_get_resource_provider_traits environ session rp_id st).1 = Done current_traits
         ∧ new = traits_get :: ((fun c : call => http_of_call endpoint token c.1) <$> exchange)
         ∧ length exchange ≤ 6
         ∧ Forall (fun c : call =>
                     c.1 = read_request rp_id
                     ∨ ∃ g, c.1 = write_request rp_id
                                    (List.filter (fun trait => negb (is_custom trait))
                                       current_traits) g)
             exchange
         ∧ match c with
           | Skipped => False
           | NoCustomTraits =>
               List.filter is_custom current_traits = [] ∧ exchange = []
           | Cleared count =>
               count = length (List.filter is_custom current_traits)
               ∧ 0 < count
               ∧ ∃ before g status_code body,
                   exchange
                   = before ++ [(write_request rp_id
                                   (List.filter (fun trait => negb (is_custom trait))
                                      current_traits) g,
                                 Response status_code body)]
                   ∧ is_success status_code = true
           | FailedToClear => List.filter is_custom current_traits ≠ []
           end).
Proof.
  intros T Tn E En. cbv zeta. unfold clear_provider.
  rewrite !falsy_default.
  destruct (Py.falsy (rp_name resource_provider)) eqn:Fn; cbn [orb].
  { exists Skipped, []. cbn. rewrite app_nil_r.
    do 3 (split; [reflexivity|]). split; [intros rq d t H; inversion H|].
    split; [done|]. intros; discriminate. }
  destruct (Py.falsy (rp_uuid resource_provider)) eqn:Fu.
  { exists Skipped, []. cbn. rewrite app_nil_r.
    do 3 (split; [reflexivity|]). split; [intros rq d t H; inversion H|].
    split; [done|]. intros; discriminate. }
  set (rp_id := default "" (rp_uuid resource_provider)).
  set (traits_get := placement_request endpoint token "GET"
                       ("/resource_providers/" +:+ rp_id +:+ "/traits") None).
  destruct (read_helpers_ready environ session st token endpoint rp_id T Tn E En)
    as (_ & current & Rd & _).
  fold traits_get in Rd.
  unfold try_except, mbind, client_bind. rewrite Rd.
  set (st1 := {| self := self st; net := (session (net st) traits_get).2;
                 sent := sent st ++ [traits_get] |}).
  assert (Carried : ∀ (exchange : list call) new,
            new = traits_get :: ((fun c : call => http_of_call endpoint token c.1)
                                   <$> exchange) ->
            Forall (fun c : call =>
                      c.1 = read_request rp_id
                      ∨ ∃ g, c.1 = write_request rp_id
                                     (List.filter (fun trait => negb (is_custom trait))
                                        current) g) exchange ->
            ∀ rq d t, rq ∈ new -> rq_json rq = Some (TraitsData d) -> t ∈ traits d ->
              is_custom t = false ∧ ∀ cpu_model, generate_trait_name cpu_model ≠ t).
  { intros exchange new -> F rq d t [-> | H]%elem_of_cons J Ht; [discriminate J|].
    destruct (exchange_carries _ _ _ _ _ _ _ F H J) as [_ D].
    rewrite D in Ht. apply list_elem_of_In, filter_In in Ht as [_ Ht].
    apply negb_true_iff in Ht. split; [exact Ht|].
    intros cpu_model <-. by rewrite is_custom_trait_name in Ht. }
  destruct (List.filter is_custom current) as [|t0 ts] eqn:C.
  { exists NoCustomTraits, [traits_get]. cbn [fst snd self sent].
    split; [reflexivity|]. split; [reflexivity|]. split; [reflexivity|].
    split; [apply (Carried []); [reflexivity|constructor]|].
    split; [intros [? | ?]; discriminate|].
    intros _ _. exists current, []. rewrite C. repeat split; auto.
    cbn. lia. }
  destruct (set_traits_http st1 token endpoint rp_id
              (List.filter (fun trait => negb (is_custom trait)) current) T Tn E En)
    as (Run & S & Tr & L & F & R).
  rewrite Run.
  set (r := _set_resource_provider_traits (placement_service environ session) st1 rp_id
              (List.filter (fun trait => negb (is_custom trait)) current)) in *.
  assert (Sent : sent (world r)
                 = sent st ++ traits_get
                     :: ((fun c : call => http_of_call endpoint token c.1) <$> calls r)).
  { rewrite Tr. unfold st1. cbn [sent]. by rewrite <- app_assoc. }
  destruct (returned r) eqn:Ret.
  - exists (Cleared (length (t0 :: ts))), (traits_get :: ((fun c : call => http_of_call endpoint token c.1) <$> calls r)). cbn [fst snd].
    split; [reflexivity|]. split; [exact S|]. split; [exact Sent|].
    split; [by apply (Carried (calls r))|].
    split; [intros [? | ?]; discriminate|].
    intros _ _. exists current, (calls r). rewrite C.
    split; [reflexivity|]. split; [reflexivity|]. split; [exact L|]. split; [exact F|].
    split; [reflexivity|]. split; [cbn; lia|]. by apply R.
  - exists FailedToClear, (traits_get :: ((fun c : call => http_of_call endpoint token c.1) <$> calls r)). cbn [fst snd].
    split; [reflexivity|]. split; [exact S|]. split; [exact Sent|].
    split; [by apply (Carried (calls r))|].
    split; [intros [? | ?]; discriminate|].
    intros _ _. exists current, (calls r). rewrite C.
    split; [reflexivity|]. split; [reflexivity|]. split; [exact L|]. split; [exact F|].
    discriminate.
Qed.




End OverHttp.

(** ** The three commands *)

#[local] Instance string_le_total : Total string_le.
Proof. intros a b. apply String.leb_total. Qed.

Lemma sorted_elem names n : n ∈ sorted names ↔ n ∈ names.
Proof. unfold sorted. by rewrite merge_sort_Permutation. Qed.

Lemma sorted_length names : length (sorted names) = length names.
Proof. unfold sorted. by rewrite merge_sort_Permutation. Qed.

Lemma sorted_NoDup names : NoDup names -> NoDup (sorted names).
Proof. unfold sorted. by rewrite merge_sort_Permutation. Qed.

Lemma sorted_Sorted names : Sorted string_le (sorted names).
Proof. apply Sorted_merge_sort, _. Qed.

Section Commands.

Context {World : Type}.
Variable environ : gmap string string.
Variable session : World -> http_request -> http_outcome * World.

Lemma bind_done {A B} (m : client World A) (k : A -> client World B) st a st1 :
  m st = (Done a, st1) -> (m ≫= k) st = k a st1.
Proof. intros H. unfold mbind, client_bind. by rewrite H. Qed.

Lemma bind_raising {A B} (m : client World A) (k : A -> client World B) st e st1 :
  m st = (Raising e, st1) -> (m ≫= k) st = (Raising e, st1).
Proof. intros H. unfold mbind, client_bind. by rewrite H. Qed.

Lemma try_done {A} (m : client World A) h st a st1 :
  m st = (Done a, st1) -> try_except m h st = (Done a, st1).
Proof. intros H. unfold try_except. by rewrite H. Qed.

Lemma try_raising {A} (m : client World A) h st e st1 :
  m st = (Raising e, st1) -> try_except m h st = h e st1.
Proof. intros H. unfold try_except. by rewrite H. Qed.

Lemma ret_run {A} (a : A) (st : session_state World) :
  (mret a : client World A) st = (Done a, st).
Proof. reflexivity. Qed.

(** The loop of [create_openstack_traits] with token and endpoint cached: one
    PUT for each name, in the order of the list, and each name counted
    once. *)
Lemma create_traits_ready token endpoint trait_names :
  token ≠ "" -> endpoint ≠ "" ->
  ∀ counts (st : session_state World),
  _auth_token (self st) = Some token ->
  _placement_endpoint (self st) = Some endpoint ->
  ∃ counts' st',
    create_traits environ session trait_names counts st = (Done counts', st')
    ∧ self st' = self st
    ∧ sent st'
      = sent st ++ ((fun n => placement_request endpoint token "PUT" ("/traits/" +:+ n) None)
                      <$> trait_names)
    ∧ created_count counts' + already_existed_count counts' + creation_error_count counts'
      = created_count counts + already_existed_count counts + creation_error_count counts
        + length trait_names.
Proof.
  intros Tn En. induction trait_names as [|n rest IH]; intros counts st T E.
  - exists counts, st. cbn. rewrite app_nil_r. repeat split; lia.
  - cbn [create_traits]. unfold try_except, mbind, client_bind.
    destruct (create_trait_ready environ session st token endpoint n T Tn E En)
      as (success & status & Run & Cases & _).
    rewrite Run.
    set (st1 := {| self := self st; net := _; sent := _ |}) in *.
    assert (Next : ∀ c1,
              created_count c1 + already_existed_count c1 + creation_error_count c1
              = created_count counts + already_existed_count counts
                + creation_error_count counts + 1 ->
              ∃ counts' st',
                create_traits environ session rest c1 st1 = (Done counts', st')
                ∧ self st' = self st
                ∧ sent st'
                  = sent st
                    ++ ((fun n => placement_request endpoint token "PUT"
                                    ("/traits/" +:+ n) None) <$> n :: rest)
                ∧ created_count counts' + already_existed_count counts'
                  + creation_error_count counts'
                  = created_count counts + already_existed_count counts
                    + creation_error_count counts + length (n :: rest)).
    { intros c1 H1. destruct (IH c1 st1 T E) as (c2 & st2 & R2 & S2 & Se2 & N2).
      exists c2, st2. split; [exact R2|]. split; [exact S2|].
      split; [rewrite Se2; cbn; by rewrite <- app_assoc|]. cbn [length]. lia. }
    destruct Cases as [[-> ->] | [[-> ->] | [-> ->]]]; cbn; apply Next; cbn; lia.
Qed.

(** [create_openstack_traits] never raises an exception of the client.
    When it comes to its summary, the names it worked on are the distinct
    trait names of the filtered machines with a vendor model, in sorted
    order, each well formed and begun by CUSTOM_; behind the requests to the
    identity service it sent one PUT for each name, in that order and nothing
    else; and the three counts add up to the number of names. *)
Theorem create_openstack_traits_requests (should_create_openstack_traits : bool)
    (tags : list string) (machines : list machine) (zone : option string)
    (deployed_only : bool) (st : session_state World) :
  let run :=
    create_openstack_traits environ session should_create_openstack_traits tags machines
      zone deployed_only st in
  (∃ r, run.1 = Done r)
  ∧ ∀ counts,
      run.1 = Done (Ok (Returns (TraitsCreated counts))) ->
      ∃ filtered_machines identity endpoint token,
        filter_machines machines zone deployed_only tags = Ok filtered_machines
        ∧ let names := sorted (elements (trait_names_of filtered_machines)) in
          (∀ n, n ∈ names ↔ n ∈ trait_names_of filtered_machines)
          ∧ NoDup names
          ∧ Sorted string_le names
          ∧ (∀ n, n ∈ names -> well_formed_trait n = true ∧ is_custom n = true)
          ∧ created_count counts + already_existed_count counts
            + creation_error_count counts = length names
          ∧ Forall (identity_request environ) identity
          ∧ sent run.2
            = sent st ++ identity
                ++ ((fun n => placement_request endpoint token "PUT" ("/traits/" +:+ n) None)
                      <$> names).
Proof.
  cbv zeta. unfold create_openstack_traits.
  destruct should_create_openstack_traits; cbn [negb];
    [|split; [by eexists|discriminate]].
  destruct (filter_machines machines zone deployed_only tags) as [filtered|e] eqn:Fm;
    [|split; [by eexists|discriminate]].
  cbv zeta.
  destruct (bool_decide (trait_names_of filtered = ∅));
    [split; [by eexists|discriminate]|].
  destruct (check_openstack_environment environ).1;
    [|split; [by eexists|discriminate]].
  unfold mbind, client_bind.
  destruct (connectivity_ready environ session st) as ((identity & Se & Id) & c & Co & Rd).
  destruct (_check_openstack_connectivity environ session st) as [o st1].
  cbn [fst snd] in *. subst o.
  destruct c; cbn [negb]; [|split; [by eexists|discriminate]].
  destruct (Rd eq_refl) as (token & endpoint & Tn & En & T & E & _).
  destruct (create_traits_ready token endpoint
              (sorted (elements (trait_names_of filtered))) Tn En
              {| created_count := 0; already_existed_count := 0;
                 creation_error_count := 0 |} st1 T E)
    as (counts' & st2 & Run & _ & Se2 & N).
  rewrite Run. cbn [fst snd]. split; [by eexists|].
  intros counts [= <-]. exists filtered, identity, endpoint, token.
  split; [reflexivity|]. cbv zeta.
  split; [intros n; by rewrite sorted_elem, elem_of_elements|].
  split; [apply sorted_NoDup, NoDup_elements|].
  split; [apply sorted_Sorted|].
  split.
  { intros n Hn. apply sorted_elem, elem_of_elements in Hn.
    destruct (trait_names_facts filtered n Hn) as (W & C & _).
    split; [exact W|]. unfold is_custom. by rewrite C. }
  split; [cbn in N; lia|]. split; [exact Id|].
  unfold mret, client_ret. cbn [snd]. rewrite Se2, Se, <- app_assoc. reflexivity.
Qed.

Lemma identity_harmless rq : identity_request environ rq -> harmless rq.
Proof. intros [-> | (t & ->)]; (split; [discriminate|intros d t0 [=]]). Qed.

Lemma get_harmless endpoint token path :
  harmless (placement_request endpoint token "GET" path None).
Proof. split; [discriminate|intros d t [=]]. Qed.

(** The loop body of [clear_openstack_traits] sends harmless requests
    only. *)
Lemma clear_provider_harmless (st : session_state World) token endpoint rp :
  _auth_token (self st) = Some token -> token ≠ "" ->
  _placement_endpoint (self st) = Some endpoint -> endpoint ≠ "" ->
  ∃ c new,
    clear_provider environ session rp st
    = (Done c, (clear_provider environ session rp st).2)
    ∧ self (clear_provider environ session rp st).2 = self st
    ∧ sent (clear_provider environ session rp st).2 = sent st ++ new
    ∧ Forall harmless new.
Proof.
  intros T Tn E En.
  destruct (clear_provider_ready environ session st token endpoint rp T Tn E En)
    as (c & new & R & S & Se & Ca & Sk & Go).
  exists c, new. split; [rewrite <- R; by destruct (clear_provider _ _ _ _)|].
  split; [exact S|]. split; [exact Se|].
  apply Forall_forall. intros rq Hrq. split; [|intros d t; by apply Ca].
  destruct (Py.falsy (rp_name rp)) eqn:Fn.
  { destruct Sk as [_ ->]; [by left|]. inversion Hrq. }
  destruct (Py.falsy (rp_uuid rp)) eqn:Fu.
  { destruct Sk as [_ ->]; [by right|]. inversion Hrq. }
  destruct (Go eq_refl eq_refl) as (current & exchange & _ & -> & _ & F & _).
  apply elem_of_cons in Hrq as [-> | (c0 & -> & Hc)%list_elem_of_fmap]; [discriminate|].
  rewrite Forall_forall in F. destruct (F c0 Hc) as [-> | (g & ->)]; discriminate.
Qed.

Lemma clear_providers_ready token endpoint resource_providers :
  token ≠ "" -> endpoint ≠ "" ->
  ∀ counts (st : session_state World),
  _auth_token (self st) = Some token ->
  _placement_endpoint (self st) = Some endpoint ->
  ∃ counts' st' new,
    clear_providers environ session resource_providers counts st = (Done counts', st')
    ∧ self st' = self st
    ∧ sent st' = sent st ++ new
    ∧ Forall harmless new
    ∧ deleted_count counts' = deleted_count counts
    ∧ delete_error_count counts' = delete_error_count counts
    ∧ cleared_count counts' + clearing_error_count counts'
      ≤ cleared_count counts + clearing_error_count counts + length resource_providers.
Proof.
  intros Tn En. induction resource_providers as [|rp rest IH]; intros counts st T E.
  - exists counts, st, []. cbn. rewrite app_nil_r. repeat split; auto; lia.
  - cbn [clear_providers]. unfold mbind, client_bind.
    destruct (clear_provider_harmless st token endpoint rp T Tn E En)
      as (c & new & R & S & Se & H).
    rewrite R. set (st1 := (clear_provider environ session rp st).2) in *.
    rewrite <- S in T, E.
    assert (Next : ∀ c1,
              deleted_count c1 = deleted_count counts ->
              delete_error_count c1 = delete_error_count counts ->
              cleared_count c1 + clearing_error_count c1
              ≤ cleared_count counts + clearing_error_count counts + 1 ->
              ∃ counts' st' new',
                clear_providers environ session rest c1 st1 = (Done counts', st')
                ∧ self st' = self st
                ∧ sent st' = sent st ++ new'
                ∧ Forall harmless new'
                ∧ deleted_count counts' = deleted_count counts
                ∧ delete_error_count counts' = delete_error_count counts
                ∧ cleared_count counts' + clearing_error_count counts'
                  ≤ cleared_count counts + clearing_error_count counts
                    + length (rp :: rest)).
    { intros c1 D1 D2 D3.
      destruct (IH c1 st1 T E) as (c2 & st2 & new2 & R2 & S2 & Se2 & H2 & E1 & E2 & L).
      exists c2, st2, (new ++ new2). split; [exact R2|]. split; [by rewrite S2|].
      split; [by rewrite Se2, Se, <- app_assoc|]. split; [by apply Forall_app|].
      cbn [length]. repeat split; lia. }
    destruct c; apply Next; cbn; lia.
Qed.

Lemma delete_traits_ready token endpoint trait_names :
  token ≠ "" -> endpoint ≠ "" ->
  ∀ counts (st : session_state World),
  _auth_token (self st) = Some token ->
  _placement_endpoint (self st) = Some endpoint ->
  ∃ counts' st',
    delete_traits environ session trait_names counts st = (Done counts', st')
    ∧ self st' = self st
    ∧ sent st'
      = sent st ++ ((fun n => placement_request endpoint token "DELETE"
                                ("/traits/" +:+ n) None) <$> trait_names)
    ∧ cleared_count counts' = cleared_count counts
    ∧ clearing_error_count counts' = clearing_error_count counts
    ∧ deleted_count counts' + delete_error_count counts'
      = deleted_count counts + delete_error_count counts + length trait_names.
Proof.
  intros Tn En. induction trait_names as [|n rest IH]; intros counts st T E.
  - exists counts, st. cbn. rewrite app_nil_r. repeat split; lia.
  - cbn [delete_traits]. unfold try_except, mbind, client_bind.
    rewrite (request_when_ready _ _ _ _ _ st token endpoint T Tn E En), send_run.
    set (rq := placement_request endpoint token "DELETE" ("/traits/" +:+ n) None).
    set (st1 := {| self := self st; net := _; sent := _ |}).
    assert (Next : ∀ c1,
              cleared_count c1 = cleared_count counts ->
              clearing_error_count c1 = clearing_error_count counts ->
              deleted_count c1 + delete_error_count c1
              = deleted_count counts + delete_error_count counts + 1 ->
              ∃ counts' st',
                delete_traits environ session rest c1 st1 = (Done counts', st')
                ∧ self st' = self st
                ∧ sent st'
                  = sent st ++ ((fun n => placement_request endpoint token "DELETE"
                                            ("/traits/" +:+ n) None) <$> n :: rest)
                ∧ cleared_count counts' = cleared_count counts
                ∧ clearing_error_count counts' = clearing_error_count counts
                ∧ deleted_count counts' + delete_error_count counts'
                  = deleted_count counts + delete_error_count counts
                    + length (n :: rest)).
    { intros c1 D1 D2 D3.
      destruct (IH c1 st1 T E) as (c2 & st2 & R2 & S2 & Se2 & E1 & E2 & L).
      exists c2, st2. split; [exact R2|]. split; [exact S2|].
      split; [rewrite Se2; cbn; by rewrite <- app_assoc|].
      cbn [length]. repeat split; lia. }
    destruct (session (net st) rq).1 as [|response]; [apply Next; cbn; lia|].
    destruct (is_success (http_status response)); apply Next; cbn; lia.
Qed.

(** [clear_openstack_traits] never raises.  Its requests are harmless ones
    (none deletes, none carries a trait that begins with CUSTOM_) and, behind
    them, one DELETE for each trait to delete, in sorted order: these are
    traits of the placement service that begin with CUSTOM_, so no other trait
    is ever deleted or taken from a provider's list by name.  With a summary,
    the two delete counts add up to the number of DELETE requests; without
    one, nothing was deleted. *)
Theorem clear_openstack_traits_safe (st : session_state World) :
  let run := clear_openstack_traits environ session st in
  ∃ r before deleted endpoint token,
    run.1 = Done r
    ∧ sent run.2
      = sent st ++ before
          ++ ((fun n => placement_request endpoint token "DELETE" ("/traits/" +:+ n) None)
                <$> deleted)
    ∧ Forall harmless before
    ∧ Forall (fun n => is_custom n = true) deleted
    ∧ Sorted string_le deleted
    ∧ (∀ counts, r = Returns (TraitsCleared counts) ->
         deleted_count counts + delete_error_count counts = length deleted)
    ∧ ((∀ counts, r ≠ Returns (TraitsCleared counts)) -> deleted = []).
Proof.
  cbv zeta. unfold clear_openstack_traits.
  assert (Stop : ∀ (r : completion clearing_result) (st' : session_state World) before,
            sent st' = sent st ++ before -> Forall harmless before ->
            (∀ counts, r ≠ Returns (TraitsCleared counts)) ->
            ∃ r0 before0 deleted endpoint token,
              (Done r, st').1 = Done r0
              ∧ sent (Done r, st').2
                = sent st ++ before0
                    ++ ((fun n => placement_request endpoint token "DELETE"
                                    ("/traits/" +:+ n) None) <$> deleted)
              ∧ Forall harmless before0
              ∧ Forall (fun n => is_custom n = true) deleted
              ∧ Sorted string_le deleted
              ∧ (∀ counts, r0 = Returns (TraitsCleared counts) ->
                   deleted_count counts + delete_error_count counts = length deleted)
              ∧ ((∀ counts, r0 ≠ Returns (TraitsCleared counts)) -> deleted = [])).
  { intros r st' before Se H N. exists r, before, [], "", "". cbn [fst snd fmap list_fmap].
    rewrite app_nil_r. repeat split; auto. intros counts ->. by destruct (N counts). }
  destruct (check_openstack_environment environ).1.
  2:{ rewrite ret_run. apply (Stop _ _ []); [by rewrite app_nil_r|constructor|discriminate]. }
  destruct (connectivity_ready environ session st) as ((identity & Se & Id) & c & Co & Rd).
  destruct (_check_openstack_connectivity environ session st) as [o st1] eqn:Rc.
  cbn [fst snd] in *. subst o.
  rewrite (bind_done _ _ _ _ _ Rc).
  assert (Hid : Forall harmless identity).
  { eapply Forall_impl; [exact Id|]. apply identity_harmless. }
  destruct c; cbn [negb]; [|rewrite ret_run; by apply (Stop _ _ identity)].
  destruct (Rd eq_refl) as (token & endpoint & Tn & En & T & E & _).
  destruct (read_helpers_ready environ session st1 token endpoint "" T Tn E En)
    as ((rps & Rp & _) & _).
  set (providers_get := placement_request endpoint token "GET" "/resource_providers" None)
    in *.
  set (st2 := {| self := self st1; net := _; sent := sent st1 ++ [providers_get] |}) in *.
  rewrite (bind_done _ _ st1 (Some rps) st2)
    by (unfold try_except; rewrite (bind_done _ _ _ _ _ Rp); reflexivity).
  set (traits_get := placement_request endpoint token "GET" "/traits" None).
  set (st3 := {| self := self st2; net := (session (net st2) traits_get).2;
                 sent := sent st2 ++ [traits_get] |}).
  assert (Rq : _make_placement_api_request environ session "GET" "/traits" None st2
               = (match (session (net st2) traits_get).1 with
                  | SessionRaises => Raising SessionError
                  | Answers response => Done response
                  end, st3)).
  { rewrite (request_when_ready _ _ _ _ _ st2 token endpoint T Tn E En). apply send_run. }
  assert (Se3 : sent st3 = sent st ++ identity ++ [providers_get; traits_get]).
  { cbn. rewrite Se, <- !app_assoc. reflexivity. }
  assert (H3 : Forall harmless (identity ++ [providers_get; traits_get])).
  { apply Forall_app. split; [exact Hid|].
    repeat constructor; try discriminate; intros d t [=]. }
  assert (No : ∃ r0 before0 deleted endpoint0 token0,
            (Done (Returns TraitsNotFetched), st3).1 = Done r0
            ∧ sent (Done (Returns TraitsNotFetched), st3).2
              = sent st ++ before0
                  ++ ((fun n => placement_request endpoint0 token0 "DELETE"
                                  ("/traits/" +:+ n) None) <$> deleted)
            ∧ Forall harmless before0
            ∧ Forall (fun n => is_custom n = true) deleted
            ∧ Sorted string_le deleted
            ∧ (∀ counts, r0 = Returns (TraitsCleared counts) ->
                 deleted_count counts + delete_error_count counts = length deleted)
            ∧ ((∀ counts, r0 ≠ Returns (TraitsCleared counts)) -> deleted = []))
    by (by apply (Stop _ _ (identity ++ [providers_get; traits_get]))).
  destruct (session (net st2) traits_get).1 as [|response].
  { rewrite (bind_done _ _ st2 None st3)
      by (unfold try_except; rewrite (bind_raising _ _ _ _ _ Rq); reflexivity).
    exact No. }
  destruct (is_success (http_status response)) eqn:Su.
  2:{ rewrite (bind_done _ _ st2 None st3)
        by (unfold try_except; rewrite (bind_done _ _ _ _ _ Rq), Su; reflexivity).
      exact No. }
  destruct (http_json response) as [| |json] eqn:J.
  1,2: rewrite (bind_done _ _ st2 None st3)
         by (unfold try_except; rewrite (bind_done _ _ _ _ _ Rq), Su; cbn [negb];
             unfold json_of; rewrite J; reflexivity);
       exact No.
  set (custom_traits := List.filter is_custom (default [] (key_traits json))).
  rewrite (bind_done _ _ st2 (Some custom_traits) st3)
    by (unfold try_except; rewrite (bind_done _ _ _ _ _ Rq), Su; cbn [negb];
        unfold json_of; rewrite J; reflexivity).
  destruct (clear_providers_ready token endpoint rps Tn En
              {| cleared_count := 0; clearing_error_count := 0;
                 deleted_count := 0; delete_error_count := 0 |} st3 T E)
    as (c1 & st4 & new1 & R1 & S4 & Se4 & H4 & D1 & D2 & _).
  rewrite (bind_done _ _ _ _ _ R1).
  assert (T4 : _auth_token (self st4) = Some token) by (rewrite S4; exact T).
  assert (E4 : _placement_endpoint (self st4) = Some endpoint) by (rewrite S4; exact E).
  destruct (delete_traits_ready token endpoint (sorted custom_traits) Tn En c1 st4 T4 E4)
    as (c2 & st5 & R2 & _ & Se5 & _ & _ & Dl).
  rewrite (bind_done _ _ _ _ _ R2), ret_run.
  exists (Returns (TraitsCleared c2)),
    ((identity ++ [providers_get; traits_get]) ++ new1), (sorted custom_traits),
    endpoint, token.
  cbn [fst snd].
  split; [reflexivity|].
  split; [rewrite Se5, Se4, Se3, <- !app_assoc; reflexivity|].
  split; [by apply Forall_app|].
  split.
  { apply Forall_forall. intros n Hn. rewrite sorted_elem in Hn.
    apply list_elem_of_In in Hn. subst custom_traits.
    apply filter_In in Hn. by destruct Hn as [_ Hn]. }
  split; [apply sorted_Sorted|].
  split.
  - intros counts [= <-]. cbn in D1, D2. lia.
  - intros N. by destruct (N c2).
Qed.

(** [_get_hypervisors] with a token and the compute endpoint cached: one GET
    on the endpoint and no exception.  Only the answer 200 counts, where the
    placement calls take 201 and 204 as well: the list under the key of a
    JSON object answered with 200 is returned, and in every other case the
    empty list. *)
Theorem get_hypervisors_when_cached (st : session_state World) (token nova_url : string) :
  _auth_token (self st) = Some token -> token ≠ "" ->
  _service_endpoints (self st) !! "nova:public" = Some nova_url -> nova_url ≠ "" ->
  let rq := hypervisors_get nova_url token in
  ∃ hypervisors,
    _get_hypervisors environ session st
    = (Done hypervisors,
       {| self := self st; net := (session (net st) rq).2; sent := sent st ++ [rq] |})
    ∧ (hypervisors ≠ [] ->
       ∃ response o,
         (session (net st) rq).1 = Answers response
         ∧ http_status response = 200%Z
         ∧ http_json response = Object o
         ∧ key_hypervisors o = Some hypervisors)
    ∧ (∀ response o listed,
         (session (net st) rq).1 = Answers response ->
         http_status response = 200%Z ->
         http_json response = Object o ->
         key_hypervisors o = Some listed ->
         hypervisors = listed)
    ∧ (∀ response,
         (session (net st) rq).1 = Answers response ->
         http_status response ≠ 200%Z ->
         hypervisors = []).
Proof.
  intros T Tn C Cn. cbv zeta.
  assert (R1 : _get_service_endpoint environ session "nova" "public" st
               = (Done (Some nova_url), st)).
  { unfold _get_service_endpoint, mbind, client_bind, get_self.
    change ("nova" +:+ ":" +:+ "public") with "nova:public". by rewrite C. }
  assert (R2 : _get_openstack_token environ session st = (Done (Some token), st)).
  { unfold _get_openstack_token, mbind, client_bind, get_self. rewrite T.
    by destruct token. }
  unfold _get_hypervisors. rewrite (bind_done _ _ _ _ _ R1).
  destruct nova_url as [|c0 u0] eqn:Nu; [done|]. cbn [Py.falsy]. rewrite <- Nu in *.
  rewrite (bind_done _ _ _ _ _ R2).
  destruct token as [|c1 t1] eqn:Tk; [done|]. cbn [Py.falsy]. rewrite <- Tk in *.
  unfold try_except, mbind, client_bind. rewrite send_run.
  change {| rq_method := "GET"; rq_url := _; rq_headers := _; rq_json := _;
            rq_timeout := _ |} with (hypervisors_get nova_url token).
  destruct (session (net st) (hypervisors_get nova_url token)).1 as [|response].
  { exists []. split; [reflexivity|]. split; [done|]. split; [|done]. by intros r o l [=]. }
  destruct (http_status response =? 200)%Z eqn:S.
  2:{ apply Z.eqb_neq in S. exists []. split; [reflexivity|]. split; [done|].
      split; [|done]. by intros r o l [= <-] S'. }
  apply Z.eqb_eq in S. unfold json_of.
  destruct (http_json response) as [| |o] eqn:J.
  1,2: exists []; (split; [reflexivity|]); (split; [done|]); split;
       [intros r o l [= <-] _ J'; rewrite J in J'; discriminate J'|done].
  exists (default [] (key_hypervisors o)). split; [reflexivity|]. split.
  - intros N. exists response, o. repeat split; auto.
    destruct (key_hypervisors o); [reflexivity|done].
  - split.
    + intros r o' l [= <-] _ J' K'. rewrite J in J'. injection J' as <-. by rewrite K'.
    + intros r [= <-] S'. done.
Qed.

(** ** [assign_cpu_traits_to_hypervisors] *)



(** ** The network behind the requests sent *)
































End Commands.

(** ** The two tables *)

Lemma counter_add_keys model counts k :
  k ∈ (counter_add model counts).*1 ↔ k = model ∨ k ∈ counts.*1.
Proof.
  induction counts as [|[k' n] rest IH]; cbn [counter_add].
  - cbn. rewrite list_elem_of_singleton, elem_of_nil. tauto.
  - destruct (String.eqb k' model) eqn:E; cbn.
    + apply String.eqb_eq in E as ->. rewrite !elem_of_cons. tauto.
    + rewrite !elem_of_cons, IH. tauto.
Qed.

Lemma counter_add_NoDup model counts :
  NoDup counts.*1 -> NoDup (counter_add model counts).*1.
Proof.
  induction counts as [|[k n] rest IH]; cbn [counter_add]; intros H.
  - cbn. apply NoDup_singleton.
  - destruct (String.eqb k model) eqn:E; [exact H|].
    cbn in *. apply NoDup_cons in H as [H1 H2]. apply NoDup_cons. split; [|by apply IH].
    rewrite counter_add_keys. intros [-> | H]; [|done].
    by rewrite String.eqb_refl in E.
Qed.

Lemma counted_add model counts k :
  counted k (counter_add model counts)
  = counted k counts + (if String.eqb model k then 1 else 0).
Proof.
  induction counts as [|[k' n] rest IH]; cbn [counter_add counted].
  - destruct (String.eqb model k); lia.
  - destruct (String.eqb k' model) eqn:E; cbn [counted].
    + apply String.eqb_eq in E as ->. destruct (String.eqb model k); lia.
    + destruct (String.eqb k' k) eqn:E2; [|exact IH].
      apply String.eqb_eq in E2 as ->. rewrite String.eqb_sym, E. lia.
Qed.

Lemma counted_elem counts k n :
  NoDup counts.*1 -> (k, n) ∈ counts ↔ k ∈ counts.*1 ∧ counted k counts = n.
Proof.
  induction counts as [|[k' n'] rest IH]; intros H.
  - cbn. rewrite !elem_of_nil. tauto.
  - cbn in H. apply NoDup_cons in H as [H1 H2]. specialize (IH H2).
    cbn [counted fmap list_fmap fst]. rewrite !elem_of_cons, IH.
    destruct (String.eqb k' k) eqn:E.
    + apply String.eqb_eq in E as ->. split.
      * intros [[= ->] | [X _]]; [auto|done].
      * intros [_ ->]. by left.
    + apply String.eqb_neq in E. split.
      * intros [[= -> ->] | [X Y]]; [done|auto].
      * intros [[-> | X] Y]; [done|auto].
Qed.

Lemma counter_fold cpu_models : ∀ counts,
  NoDup counts.*1 ->
  let c := fold_left (fun counts model => counter_add model counts) cpu_models counts in
  NoDup c.*1
  ∧ (∀ k, k ∈ c.*1 ↔ k ∈ cpu_models ∨ k ∈ counts.*1)
  ∧ ∀ k, counted k c = counted k counts + count_occ string_dec cpu_models k.
Proof.
  induction cpu_models as [|x rest IH]; intros counts H; cbv zeta.
  - cbn [fold_left count_occ]. split; [exact H|]. split.
    + intros k. rewrite elem_of_nil. tauto.
    + intros k. lia.
  - cbn [fold_left].
    destruct (IH (counter_add x counts) (counter_add_NoDup x counts H)) as (N & K & C).
    split; [exact N|]. split.
    + intros k. rewrite K, counter_add_keys, elem_of_cons. tauto.
    + intros k. rewrite C, counted_add. cbn [count_occ].
      destruct (string_dec x k) as [-> | Hx].
      * rewrite String.eqb_refl. lia.
      * apply String.eqb_neq in Hx. rewrite Hx. lia.
Qed.

Lemma Counter_spec cpu_models :
  NoDup (Counter cpu_models).*1
  ∧ ∀ k n, (k, n) ∈ Counter cpu_models
           ↔ k ∈ cpu_models ∧ n = count_occ string_dec cpu_models k.
Proof.
  destruct (counter_fold cpu_models [] (NoDup_nil_2 : NoDup ([] : list (string * nat)).*1))
    as (N & K & C).
  fold (Counter cpu_models) in N, K, C.
  split; [exact N|]. intros k n. rewrite (counted_elem _ _ _ N), K, C.
  cbn. rewrite elem_of_nil. split; intros [? ?]; split; try tauto; lia.
Qed.

Lemma insert_by_count_perm entry l : insert_by_count entry l ≡ₚ entry :: l.
Proof.
  induction l as [|h t IH]; [done|]. cbn [insert_by_count].
  destruct (h.2 <=? entry.2)%nat; [done|]. rewrite IH. apply Permutation_swap.
Qed.

Lemma most_common_perm c : most_common c ≡ₚ c.
Proof.
  induction c as [|e c IH]; [done|]. cbn [most_common fold_right].
  fold (most_common c). by rewrite insert_by_count_perm, IH.
Qed.

Lemma insert_by_count_sorted entry l :
  Sorted (fun a b : string * nat => b.2 ≤ a.2) l ->
  Sorted (fun a b : string * nat => b.2 ≤ a.2) (insert_by_count entry l).
Proof.
  induction l as [|h t IH]; intros H; cbn [insert_by_count].
  - repeat constructor.
  - destruct (h.2 <=? entry.2)%nat eqn:E.
    + apply Nat.leb_le in E. constructor; [exact H|]. by constructor.
    + apply Nat.leb_gt in E. apply Sorted_inv in H as [H1 H2].
      constructor; [by apply IH|].
      destruct t as [|h' t']; cbn [insert_by_count].
      * constructor. lia.
      * destruct (h'.2 <=? entry.2)%nat; constructor; [lia|].
        by apply HdRel_inv in H2.
Qed.

Lemma most_common_sorted c :
  Sorted (fun a b : string * nat => b.2 ≤ a.2) (most_common c).
Proof.
  induction c as [|e c IH]; [constructor|]. cbn [most_common fold_right].
  by apply insert_by_count_sorted.
Qed.

Lemma counter_add_sum model counts :
  sum_list (counter_add model counts).*2 = S (sum_list counts.*2).
Proof.
  induction counts as [|[k n] rest IH]; cbn [counter_add]; [reflexivity|].
  destruct (String.eqb k model); cbn in *; [lia|]. rewrite IH. lia.
Qed.

Lemma counter_fold_sum cpu_models : ∀ counts,
  sum_list (fold_left (fun counts model => counter_add model counts) cpu_models counts).*2
  = sum_list counts.*2 + length cpu_models.
Proof.
  induction cpu_models as [|x rest IH]; intros counts; cbn [fold_left length]; [lia|].
  rewrite IH, counter_add_sum. lia.
Qed.

Lemma swapped_models (l : list (string * nat)) :
  ((fun '(model, count) => (count, model)) <$> l).*2 = l.*1.
Proof. induction l as [|[a b] l IH]; cbn; [done|]. by rewrite IH. Qed.

Lemma swapped_counts (l : list (string * nat)) :
  ((fun '(model, count) => (count, model)) <$> l).*1 = l.*2.
Proof. induction l as [|[a b] l IH]; cbn; [done|]. by rewrite IH. Qed.

(** The rows of the distribution table: one for each distinct model of the
    filtered machines with a vendor, with the number of those machines that
    have it; the counts fall from row to row and add up to the number of
    those machines. *)
Theorem cpu_distribution_rows (tags : list string) (machines : list machine)
    (zone : option string) (deployed_only : bool) (title : string)
    (rows : list (nat * string)) :
  print_cpu_distribution tags machines zone deployed_only = Ok (Some (title, rows)) ->
  ∃ filtered_machines,
    filter_machines machines zone deployed_only tags = Ok filtered_machines
    ∧ let cpu_models := cpu_model_of <$> List.filter has_vendor filtered_machines in
      NoDup rows.*2
      ∧ (∀ count model,
           (count, model) ∈ rows
           ↔ model ∈ cpu_models ∧ count = count_occ string_dec cpu_models model)
      ∧ Sorted (fun a b : nat * string => b.1 ≤ a.1) rows
      ∧ sum_list rows.*1 = length cpu_models
      ∧ ∀ model, model ∈ rows.*2 -> has_vendor_text model = true.
Proof.
  unfold print_cpu_distribution.
  destruct (filter_machines machines zone deployed_only tags) as [filtered|e];
    [|discriminate].
  cbn [mbind result_bind]. cbv zeta.
  set (cpu_models := cpu_model_of <$> List.filter has_vendor filtered).
  destruct cpu_models as [|m0 ms] eqn:Cm; [discriminate|]. rewrite <- Cm. clear Cm m0 ms.
  intros [= _ <-]. exists filtered. split; [reflexivity|].
  destruct (Counter_spec cpu_models) as [N C].
  set (swap := fun '(model, count) => (count, model) : nat * string).
  assert (P2 : (swap <$> most_common (Counter cpu_models)).*2 ≡ₚ (Counter cpu_models).*1).
  { unfold swap. by rewrite swapped_models, most_common_perm. }
  assert (P1 : (swap <$> most_common (Counter cpu_models)).*1 ≡ₚ (Counter cpu_models).*2).
  { unfold swap. by rewrite swapped_counts, most_common_perm. }
  assert (K : ∀ k, k ∈ (Counter cpu_models).*1 ↔ k ∈ cpu_models).
  { intros k. rewrite list_elem_of_fmap. split.
    - intros ([k' n] & -> & H). by apply C in H as [H _].
    - intros H. exists (k, count_occ string_dec cpu_models k). split; [done|].
      by apply C. }
  cbv zeta. fold cpu_models. fold swap.
  split; [by rewrite P2|]. split.
  { intros count model. rewrite <- C, list_elem_of_fmap. split.
    - intros ([k n] & [= -> ->] & H). by rewrite most_common_perm in H.
    - intros H. exists (model, count). split; [done|]. by rewrite most_common_perm. }
  split.
  { apply Sorted_fmap with (R1 := fun a b : string * nat => b.2 ≤ a.2);
      [|apply most_common_sorted].
    by intros [a1 a2] [b1 b2]. }
  split.
  { rewrite P1. unfold Counter. by rewrite counter_fold_sum. }
  intros model Hm. rewrite P2 in Hm. apply K in Hm.
  unfold cpu_models in Hm. apply list_elem_of_fmap in Hm as (m & -> & Hm).
  by apply list_elem_of_In, filter_In in Hm as [_ Hm].
Qed.

Lemma cpu_distribution_rows_witness :
  ∃ filtered_machines,
    filter_machines sample_maas_machines None false [] = Ok filtered_machines.
Proof.
  destruct (cpu_distribution_rows [] sample_maas_machines None false
              "CPU Model Distribution (All Machines (All Zones))"
              [(1, "Intel(R) Xeon(R) CPU E5-2680 v4 @ 2.40GHz");
               (1, "AMD EPYC 7551P 32-Core Processor");
               (1, "Intel(R) Core(TM) i7-8700K CPU @ 3.70GHz")])
    as (filtered_machines & H & _); [vm_compute; reflexivity|].
  by exists filtered_machines.
Defined.

(** The rows of the machine table: one for each filtered machine with a
    vendor model, in their order and as long as the header; no cell is None.
    The vendor is what [get_cpu_vendor] reports: INTEL or AMD, or İNTEL for a
    model that spells the i as U+0130, which a model of ASCII does not.  The trait, where the column is
    shown, is well formed, and it holds the vendor unless this is İNTEL. *)
Theorem machine_table_rows (should_create_openstack_traits : bool)
    (tags : list string) (machines : list machine) (zone : option string)
    (deployed_only : bool) (columns : list string) (rows : list (list (option string))) :
  print_machine_table should_create_openstack_traits tags machines zone deployed_only
  = Ok (Some (columns, rows)) ->
  ∃ filtered_machines,
    filter_machines machines zone deployed_only tags = Ok filtered_machines
    ∧ length rows = length (List.filter has_vendor filtered_machines)
    ∧ rows ≠ []
    ∧ ∀ i row,
        rows !! i = Some row ->
        ∃ m vendor,
          List.filter has_vendor filtered_machines !! i = Some m
          ∧ length row = length columns
          ∧ Forall is_Some row
          ∧ row !! 3 = Some (Some vendor)
          ∧ get_cpu_vendor (Some (cpu_model_of m)) = Some vendor
          ∧ (vendor = "INTEL" ∨ vendor = "AMD" ∨ vendor = "İNTEL")
          ∧ (ascii_text (cpu_model_of m) = true -> vendor ≠ "İNTEL")
          ∧ row !! 4 = Some (Some (cpu_model_of m))
          ∧ (should_create_openstack_traits = true ->
             ∃ trait_name,
               row !! 5 = Some (Some trait_name)
               ∧ trait_name = generate_trait_name (Some (cpu_model_of m))
               ∧ well_formed_trait trait_name = true
               ∧ (vendor ≠ "İNTEL" -> Py.contains vendor trait_name = true)).
Proof.
  unfold print_machine_table.
  destruct (filter_machines machines zone deployed_only tags) as [filtered|e];
    [|discriminate].
  cbn [mbind result_bind]. cbv zeta.
  destruct (List.filter has_vendor filtered) as [|m0 ms] eqn:Cm; [discriminate|].
  rewrite <- Cm. intros [= <- <-]. exists filtered. split; [reflexivity|].
  split; [by rewrite length_fmap|]. split; [by rewrite Cm|].
  intros i row Hr. apply list_lookup_fmap_Some in Hr as (m & -> & Hm).
  assert (V : has_vendor m = true).
  { apply list_elem_of_lookup_2, list_elem_of_In, filter_In in Hm. by destruct Hm. }
  destruct (vendor_name_facts (cpu_model_of m) V) as (W & vendor & G & Vc & Va & Ct).
  exists m, vendor. split; [exact Hm|].
  unfold machine_row, machine_columns. cbv zeta. rewrite G.
  destruct should_create_openstack_traits.
  - split; [reflexivity|]. split; [repeat constructor; by eexists|].
    split; [reflexivity|]. split; [reflexivity|]. split; [exact Vc|]. split; [exact Va|].
    split; [reflexivity|].
    intros _. eexists. split; [reflexivity|]. split; [reflexivity|].
    split; [exact W|]. intros N. by apply Ct.
  - split; [reflexivity|]. split; [repeat constructor; by eexists|].
    split; [reflexivity|]. split; [reflexivity|]. split; [exact Vc|]. split; [exact Va|].
    split; [reflexivity|].
    discriminate.
Qed.

Lemma machine_table_rows_witness :
  ∃ filtered_machines,
    filter_machines sample_maas_machines (Some "zone-2") false [] = Ok filtered_machines.
Proof.
  destruct (machine_table_rows true [] sample_maas_machines (Some "zone-2") false
              ["Hostname"; "Zone"; "Status"; "Vendor"; "CPU Model"; "OpenStack Trait"]
              [[Some "test-machine-3"; Some "zone-2"; Some "Ready"; Some "INTEL";
                Some "Intel(R) Core(TM) i7-8700K CPU @ 3.70GHz";
                Some "CUSTOM_INTEL_R_CORE_TM_I7_8700K_CPU_3_70GHZ"]])
    as (filtered_machines & H & _); [vm_compute; reflexivity|].
  by exists filtered_machines.
Defined.

(** ** The theorems on the fixtures of the test suite *)

Lemma read_helpers_when_connected_witness :
  ∃ resource_providers,
    (_get_resource_providers mock_environment_variables
       (scripted_session [Answers mock_resource_providers_response]) (connected 0)).1
    = Done resource_providers.
Proof.
  destruct (read_helpers_when_connected mock_environment_variables
              (scripted_session [Answers mock_resource_providers_response]) (connected 0)
              "test-token-12345" "http://test-openstack:8778" "")
    as ((resource_providers & E & _) & _);
    [reflexivity|discriminate|reflexivity|discriminate|].
  exists resource_providers. by rewrite E.
Defined.

Lemma create_trait_when_connected_witness :
  ∃ success status,
    (_create_trait mock_environment_variables
       (scripted_session [Answers (plain_response 500 "Conflict detected")])
       "CUSTOM_INTEL_XEON_E5_2680_V4" (connected 0)).1
    = Done (success, status).
Proof.
  destruct (create_trait_when_connected mock_environment_variables
              (scripted_session [Answers (plain_response 500 "Conflict detected")])
              (connected 0) "test-token-12345" "http://test-openstack:8778"
              "CUSTOM_INTEL_XEON_E5_2680_V4")
    as (success & status & E & _);
    [reflexivity|discriminate|reflexivity|discriminate|].
  exists success, status. by rewrite E.
Defined.




(** The mocked run of the test suite: the trait is added with one read of the
    providers, one of the traits, and one exchange of a read and a write. *)
Example assign_trait_on_fixtures :
  let run :=
    assign_trait mock_environment_variables
      (scripted_session [Answers mock_resource_providers_response;
                         Answers (mock_traits_response ["HW_CPU_X86_AVX2"]);
                         Answers (mock_provider_response 1);
                         Answers (plain_response 204 "")])
      (hypervisor_map_of
         [ {| hv_hypervisor_hostname := Some "test-machine-1";
              hv_name := Some "test-machine-1";
              hv_hostname := None |} ])
      (sample_machine "test-machine-1" "Deployed" "zone-1"
         "Intel(R) Xeon(R) CPU E5-2680 v4 @ 2.40GHz" [TagStr "compute"; TagStr "gpu"])
      (connected 0) in
  run.1 = Done TraitAdded
  ∧ rq_method <$> sent run.2 = ["GET"; "GET"; "GET"; "PUT"]
  ∧ rq_json <$> last (sent run.2)
    = Some (Some (TraitsData
                    {| traits := ["HW_CPU_X86_AVX2";
                                  "CUSTOM_INTEL_R_XEON_R_CPU_E5_2680_V4_2_40GHZ"];
                       resource_provider_generation := 1 |})).
Proof. vm_compute. repeat split. Qed.

(** The connectivity check on the fixtures, from a fresh analyzer: two
    requests, and the endpoint of the catalog in the cache. *)
Example connectivity_on_fixtures :
  let run :=
    _check_openstack_connectivity mock_environment_variables
      (scripted_session [Answers mock_auth_response; Answers mock_catalog_response])
      (fresh 0) in
  run.1 = Done true
  ∧ rq_url <$> sent run.2
    = ["http://test-openstack:5000/v3/auth/tokens";
       "http://test-openstack:5000/v3/auth/catalog"]
  ∧ self run.2 = self (connected 0).
Proof. vm_compute. repeat split. Qed.

(** [create_openstack_traits] on the machines of the fixtures: three names in
    sorted order, one PUT each; the answers 201, 204 and 500 are counted as
    created, already there and failed. *)
Example create_openstack_traits_on_fixtures :
  let run :=
    create_openstack_traits mock_environment_variables
      (scripted_session [Answers mock_auth_response; Answers mock_catalog_response;
                         Answers (plain_response 201 "");
                         Answers (plain_response 204 "");
                         Answers (plain_response 500 "Internal Server Error")])
      true [] sample_maas_machines None false (fresh 0) in
  run.1 = Done (Ok (Returns (TraitsCreated
                               {| created_count := 1;
                                  already_existed_count := 1;
                                  creation_error_count := 1 |})))
  ∧ rq_url <$> sent run.2
    = [ "http://test-openstack:5000/v3/auth/tokens";
        "http://test-openstack:5000/v3/auth/catalog";
        "http://test-openstack:8778/traits/CUSTOM_AMD_EPYC_7551P_32_CORE";
        "http://test-openstack:8778/traits/CUSTOM_INTEL_R_CORE_TM_I7_8700K_CPU_3_70GHZ";
        "http://test-openstack:8778/traits/CUSTOM_INTEL_R_XEON_R_CPU_E5_2680_V4_2_40GHZ" ].
Proof. vm_compute. repeat split. Qed.

(** [clear_openstack_traits] on the fixtures: the provider keeps its
    standard trait, and the two CUSTOM traits of the service are deleted in
    sorted order; the standard trait of the service is left alone. *)
Example clear_openstack_traits_on_fixtures :
  let run :=
    clear_openstack_traits mock_environment_variables
      (scripted_session [Answers mock_auth_response; Answers mock_catalog_response;
                         Answers mock_resource_providers_response;
                         Answers (mock_traits_response
                                    ["CUSTOM_INTEL_XEON_E5_2680_V4"; "HW_CPU_X86_AVX2";
                                     "CUSTOM_AMD_EPYC_7551P_32_CORE"]);
                         Answers (mock_traits_response
                                    ["HW_CPU_X86_AVX2"; "CUSTOM_AMD_EPYC_7551P_32_CORE"]);
                         Answers (mock_provider_response 7);
                         Answers (plain_response 200 "");
                         Answers (plain_response 204 "");
                         Answers (plain_response 404 "Not Found")])
      (fresh 0) in
  run.1 = Done (Returns (TraitsCleared
                           {| cleared_count := 1;
                              clearing_error_count := 0;
                              deleted_count := 1;
                              delete_error_count := 1 |}))
  ∧ (fun rq => (rq_method rq, rq_url rq, rq_json rq)) <$> drop 5 (sent run.2)
    = [ ("GET", "http://test-openstack:8778/resource_providers/12345678-1234-1234-1234-123456789abc",
         None);
        ("PUT", "http://test-openstack:8778/resource_providers/12345678-1234-1234-1234-123456789abc/traits",
         Some (TraitsData {| traits := ["HW_CPU_X86_AVX2"];
                             resource_provider_generation := 7 |}));
        ("DELETE", "http://test-openstack:8778/traits/CUSTOM_AMD_EPYC_7551P_32_CORE", None);
        ("DELETE", "http://test-openstack:8778/traits/CUSTOM_INTEL_XEON_E5_2680_V4", None) ].
Proof. vm_compute. repeat split. Qed.

(** [assign_cpu_traits_to_hypervisors] on the fixtures: of the three deployed
    machines two have a vendor model; one has a hypervisor and gets its
    trait, the other is counted as not found. *)
Example assign_cpu_traits_on_fixtures :
  let run :=
    assign_cpu_traits_to_hypervisors mock_environment_variables
      (scripted_session [Answers mock_auth_response; Answers mock_catalog_response;
                         Answers mock_hypervisors_response;
                         Answers mock_resource_providers_response;
                         Answers (mock_traits_response ["HW_CPU_X86_AVX2"]);
                         Answers (mock_provider_response 1);
                         Answers (plain_response 200 "")])
      true [] sample_maas_machines None false (fresh 0) in
  run.1 = Done (Ok (Returns (TraitsAssigned
                               {| added_count := 1;
                                  already_assigned_count := 0;
                                  not_found_count := 1;
                                  assignment_error_count := 0 |})))
  ∧ rq_method <$> sent run.2 = ["POST"; "GET"; "GET"; "GET"; "GET"; "GET"; "PUT"]
  ∧ rq_json <$> last (sent run.2)
    = Some (Some (TraitsData
                    {| traits := ["HW_CPU_X86_AVX2";
                                  "CUSTOM_INTEL_R_XEON_R_CPU_E5_2680_V4_2_40GHZ"];
                       resource_provider_generation := 1 |})).
Proof. vm_compute. repeat split. Qed.

Lemma get_hypervisors_when_cached_witness :
  ∃ hypervisors,
    (_get_hypervisors mock_environment_variables
       (scripted_session [Answers mock_hypervisors_response])
       {| self := {| _auth_token := Some "test-token-12345";
                     _placement_endpoint := None;
                     _service_catalog := None;
                     _service_endpoints :=
                       {[ "nova:public" := "http://test-openstack:8774" ]} |};
          net := 0;
          sent := [] |}).1
    = Done hypervisors.
Proof.
  destruct (get_hypervisors_when_cached mock_environment_variables
              (scripted_session [Answers mock_hypervisors_response])
              {| self := {| _auth_token := Some "test-token-12345";
                            _placement_endpoint := None;
                            _service_catalog := None;
                            _service_endpoints :=
                              {[ "nova:public" := "http://test-openstack:8774" ]} |};
                 net := 0;
                 sent := [] |}
              "test-token-12345" "http://test-openstack:8774")
    as (hypervisors & E & _);
    [reflexivity|discriminate|reflexivity|discriminate|].
  exists hypervisors. by rewrite E.
Defined.
